(** * Fixup value adjustment and application in the RISC-V and SystemZ
      assembler backends

    A shallow embedding of [RISCVAsmBackend.cpp] and
    [SystemZMCAsmBackend.cpp]: the per-target value adjusters, the
    byte-level fixup appliers and the NOP emitters, with the machine
    integers of the C++ code written as [Z] and their wrap-around made
    explicit. *)

From Stdlib Require Import ZArith Lia String.
From stdpp Require Import list.

Local Open Scope string_scope.
Local Open Scope list_scope.
Local Open Scope Z_scope.

(** ** Machine integers *)

(** [uint64_t], [unsigned] and [uint8_t] are values of [Z] reduced modulo
    the width of the type. *)
Definition u64 (z : Z) : Z := z mod 2 ^ 64.
Definition u32 (z : Z) : Z := z mod 2 ^ 32.
Definition u8 (z : Z) : Z := z mod 2 ^ 8.

(** The conversion [(int64_t)Value] of a 64-bit pattern. *)
Definition to_int64 (z : Z) : Z := if z <? 2 ^ 63 then z else z - 2 ^ 64.

(** [a << n] on [unsigned] operands. *)
Definition shl32 (a n : Z) : Z := u32 (Z.shiftl a n).

(** [a << n] and [a >> n] on a [uint64_t]; the shift is undefined from
    64 bits on. *)
Definition shl64 (a n : Z) : option Z :=
  if n <? 64 then Some (u64 (Z.shiftl a n)) else None.
Definition shr64 (a n : Z) : option Z :=
  if n <? 64 then Some (Z.shiftr a n) else None.

(** Modelled from the spec: [isInt<N>] of [MathExtras.h], the spec's
    [isSignedNBit(value, N)]; the argument is the 64-bit pattern, read as
    an [int64_t]. *)
Definition isInt (N : Z) (x : Z) : bool :=
  (64 <=? N) || ((- 2 ^ (N - 1) <=? to_int64 x) && (to_int64 x <? 2 ^ (N - 1))).

(** ** Outcomes *)

(** A call either returns or stops the program: on [llvm_unreachable],
    on a failed [assert], on an access outside an array, or on an
    operation the language leaves undefined. *)
Inductive Fault : Type :=
| Unreachable (msg : string)
| AssertionFailed (msg : string)
| OutOfBounds (index : Z)
| Undefined (what : string).

Inductive Result (A : Type) : Type :=
| Ok (a : A)
| Stop (f : Fault).
Arguments Ok {A} a.
Arguments Stop {A} f.

#[global] Instance Result_ret : MRet Result := fun A a => Ok a.
#[global] Instance Result_bind : MBind Result := fun A B k m =>
  match m with
  | Ok a => k a
  | Stop f => Stop f
  end.

Definition assert (b : bool) (msg : string) : Result unit :=
  if b then Ok tt else Stop (AssertionFailed msg).

(** ** Fixups *)

(** Modelled from the spec: the enumeration [MCFixupKind] of [MCFixup.h],
    an opaque small integer per kind. The target independent kinds lie
    below [FirstTargetFixupKind]: the four data kinds the backends name,
    and the remaining ones as [FK_Generic]. [FK_Target n] is the kind
    [FirstTargetFixupKind + n] of a target. *)
Inductive MCFixupKind : Type :=
| FK_Data_1
| FK_Data_2
| FK_Data_4
| FK_Data_8
| FK_Generic (n : nat)
| FK_Target (n : nat).

Definition belowFirstTargetFixupKind (Kind : MCFixupKind) : bool :=
  match Kind with
  | FK_Target _ => false
  | _ => true
  end.

Definition SMLoc : Type := Z.

(** Modelled from the spec: a fixup of [MCFixup.h], with its kind, its
    byte offset within the fragment and its source location. *)
Record MCFixup : Type := mkFixup {
  getKind : MCFixupKind;
  getOffset : Z;
  getLoc : SMLoc
}.

(** The columns of the tables of kinds: name, offset, bits, flags. *)
Record MCFixupKindInfo : Type := mkInfo {
  Name : string;
  TargetOffset : Z;
  TargetSize : Z;
  Flags : Z
}.

(** Modelled from the spec: the flag [FKF_IsPCRel] of [MCFixupKindInfo.h],
    the spec's [IsPCRel] attribute of a fixup kind. *)
Definition FKF_IsPCRel : Z := 1.

Definition isPCRel (Info : MCFixupKindInfo) : bool :=
  negb (Z.land (Flags Info) FKF_IsPCRel =? 0).

(** ** The diagnostic context *)

Record Diagnostic : Type := mkDiag {
  diagLoc : SMLoc;
  diagMsg : string
}.

Definition MCContext : Type := list Diagnostic.

(** Modelled from the spec: [MCContext::reportError], which records a
    message with its source location on the shared error context and
    returns to the caller. *)
Definition reportError (L : SMLoc) (Msg : string) (Ctx : MCContext) : MCContext :=
  Ctx ++ [mkDiag L Msg].

Definition RangeError : string := "fixup value out of range".
Definition AlignmentError : string := "fixup value must be 2-byte aligned".

(** ** Byte buffers *)

(** [MutableArrayRef<char>]: the bytes are kept as their unsigned
    patterns. [Data[Index] |= Byte] outside the array stops the program. *)
Definition or_byte (Data : list Z) (Index : Z) (Byte : Z) : Result (list Z) :=
  match Data !! Z.to_nat Index with
  | Some b => Ok (<[Z.to_nat Index := Z.lor b Byte]> Data)
  | None => Stop (OutOfBounds Index)
  end.

Definition size (Data : list Z) : Z := Z.of_nat (length Data).

(** ** The object writer *)

Record MCObjectWriter : Type := mkWriter {
  IsLittleEndian : bool;
  OS : list Z
}.

(** Modelled from the spec: [MCObjectWriter::write32], which appends
    the four bytes of a word to the output stream, in the byte order of
    the writer. *)
Definition word32_bytes (le : bool) (Value : Z) : list Z :=
  let b0 := u8 Value in
  let b1 := u8 (Z.shiftr Value 8) in
  let b2 := u8 (Z.shiftr Value 16) in
  let b3 := u8 (Z.shiftr Value 24) in
  if le then [b0; b1; b2; b3] else [b3; b2; b1; b0].

Definition write32 (Value : Z) (OW : MCObjectWriter) : MCObjectWriter :=
  mkWriter (IsLittleEndian OW)
           (OS OW ++ word32_bytes (IsLittleEndian OW) Value).

(** Modelled from the spec: [MCObjectWriter::write8], which appends one
    byte to the output stream. *)
Definition write8 (Value : Z) (OW : MCObjectWriter) : MCObjectWriter :=
  mkWriter (IsLittleEndian OW) (OS OW ++ [u8 Value]).

(** ** The RISC-V backend *)

Module RISCV.

(** The target kinds of [RISCVFixupKinds.h], in the order of the table
    [Infos], which is the order of their definition. *)
Abbreviation fixup_riscv_hi20 := (FK_Target 0%nat).
Abbreviation fixup_riscv_lo12_i := (FK_Target 1%nat).
Abbreviation fixup_riscv_lo12_s := (FK_Target 2%nat).
Abbreviation fixup_riscv_pcrel_hi20 := (FK_Target 3%nat).
Abbreviation fixup_riscv_jal := (FK_Target 4%nat).
Abbreviation fixup_riscv_branch := (FK_Target 5%nat).
Abbreviation fixup_riscv_rvc_jump := (FK_Target 6%nat).
Abbreviation fixup_riscv_rvc_branch := (FK_Target 7%nat).

Definition NumTargetFixupKinds : nat := 8.

Definition Infos : list MCFixupKindInfo :=
  [ mkInfo "fixup_riscv_hi20" 12 20 0;
    mkInfo "fixup_riscv_lo12_i" 20 12 0;
    mkInfo "fixup_riscv_lo12_s" 0 32 0;
    mkInfo "fixup_riscv_pcrel_hi20" 12 20 FKF_IsPCRel;
    mkInfo "fixup_riscv_jal" 12 20 FKF_IsPCRel;
    mkInfo "fixup_riscv_branch" 0 32 FKF_IsPCRel;
    mkInfo "fixup_riscv_rvc_jump" 2 11 FKF_IsPCRel;
    mkInfo "fixup_riscv_rvc_branch" 0 16 FKF_IsPCRel ].

Definition adjustFixupValue (Fixup : MCFixup) (Value : Z) (Ctx : MCContext)
  : Result (Z * MCContext) :=
  match getKind Fixup with
  | FK_Data_1 | FK_Data_2 | FK_Data_4 | FK_Data_8 =>
      Ok (Value, Ctx)
  | fixup_riscv_lo12_i =>
      Ok (Z.land Value 0xfff, Ctx)
  | fixup_riscv_lo12_s =>
      Ok (Z.lor (u64 (Z.shiftl (Z.land (Z.shiftr Value 5) 0x7f) 25))
                (u64 (Z.shiftl (Z.land Value 0x1f) 7)), Ctx)
  | fixup_riscv_hi20 | fixup_riscv_pcrel_hi20 =>
      Ok (Z.land (Z.shiftr (u64 (Value + 0x800)) 12) 0xfffff, Ctx)
  | fixup_riscv_jal =>
      let Ctx := if negb (isInt 21 Value)
                 then reportError (getLoc Fixup) RangeError Ctx else Ctx in
      let Ctx := if negb (Z.land Value 0x1 =? 0)
                 then reportError (getLoc Fixup) AlignmentError Ctx else Ctx in
      let Sbit := u32 (Z.land (Z.shiftr Value 20) 0x1) in
      let Hi8 := u32 (Z.land (Z.shiftr Value 12) 0xff) in
      let Mid1 := u32 (Z.land (Z.shiftr Value 11) 0x1) in
      let Lo10 := u32 (Z.land (Z.shiftr Value 1) 0x3ff) in
      let Value := Z.lor (Z.lor (Z.lor (shl32 Sbit 19) (shl32 Lo10 9))
                                (shl32 Mid1 8)) Hi8 in
      Ok (Value, Ctx)
  | fixup_riscv_branch =>
      let Ctx := if negb (isInt 13 Value)
                 then reportError (getLoc Fixup) RangeError Ctx else Ctx in
      let Ctx := if negb (Z.land Value 0x1 =? 0)
                 then reportError (getLoc Fixup) AlignmentError Ctx else Ctx in
      let Sbit := u32 (Z.land (Z.shiftr Value 12) 0x1) in
      let Hi1 := u32 (Z.land (Z.shiftr Value 11) 0x1) in
      let Mid6 := u32 (Z.land (Z.shiftr Value 5) 0x3f) in
      let Lo4 := u32 (Z.land (Z.shiftr Value 1) 0xf) in
      let Value := Z.lor (Z.lor (Z.lor (shl32 Sbit 31) (shl32 Mid6 25))
                                (shl32 Lo4 8)) (shl32 Hi1 7) in
      Ok (Value, Ctx)
  | fixup_riscv_rvc_jump =>
      let Bit11 := u32 (Z.land (Z.shiftr Value 11) 0x1) in
      let Bit4 := u32 (Z.land (Z.shiftr Value 4) 0x1) in
      let Bit9_8 := u32 (Z.land (Z.shiftr Value 8) 0x3) in
      let Bit10 := u32 (Z.land (Z.shiftr Value 10) 0x1) in
      let Bit6 := u32 (Z.land (Z.shiftr Value 6) 0x1) in
      let Bit7 := u32 (Z.land (Z.shiftr Value 7) 0x1) in
      let Bit3_1 := u32 (Z.land (Z.shiftr Value 1) 0x7) in
      let Bit5 := u32 (Z.land (Z.shiftr Value 5) 0x1) in
      let Value :=
        Z.lor (Z.lor (Z.lor (Z.lor (Z.lor (Z.lor (Z.lor
          (shl32 Bit11 10) (shl32 Bit4 9)) (shl32 Bit9_8 7)) (shl32 Bit10 6))
          (shl32 Bit6 5)) (shl32 Bit7 4)) (shl32 Bit3_1 1)) Bit5 in
      Ok (Value, Ctx)
  | fixup_riscv_rvc_branch =>
      let Bit8 := u32 (Z.land (Z.shiftr Value 8) 0x1) in
      let Bit7_6 := u32 (Z.land (Z.shiftr Value 6) 0x3) in
      let Bit5 := u32 (Z.land (Z.shiftr Value 5) 0x1) in
      let Bit4_3 := u32 (Z.land (Z.shiftr Value 3) 0x3) in
      let Bit2_1 := u32 (Z.land (Z.shiftr Value 1) 0x3) in
      let Value :=
        Z.lor (Z.lor (Z.lor (Z.lor
          (shl32 Bit8 12) (shl32 Bit4_3 10)) (shl32 Bit7_6 5)) (shl32 Bit2_1 3))
          (shl32 Bit5 2) in
      Ok (Value, Ctx)
  | _ => Stop (Unreachable "Unknown fixup kind!")
  end.

Definition getSize (Kind : MCFixupKind) : Z :=
  match Kind with
  | fixup_riscv_rvc_jump | fixup_riscv_rvc_branch => 2
  | _ => 4
  end.

Section Backend.

(** [NDEBUG] tells whether the [assert]s are compiled out. *)
Variable NDEBUG : bool.

(** [MCAsmBackend::getFixupKindInfo], the table of the target
    independent kinds in the base class. *)
Variable MCAsmBackend_getFixupKindInfo : MCFixupKind -> Result MCFixupKindInfo.

Definition getFixupKindInfo (Kind : MCFixupKind) : Result MCFixupKindInfo :=
  match Kind with
  | FK_Target n =>
      _ ← (if NDEBUG then Ok tt
           else assert (n <? NumTargetFixupKinds)%nat "Invalid kind!");
      match Infos !! n with
      | Some Info => Ok Info
      | None => Stop (OutOfBounds (Z.of_nat n))
      end
  | _ => MCAsmBackend_getFixupKindInfo Kind
  end.

(** The loop [for (unsigned i = 0; i != FullSize; ++i)] of [applyFixup],
    with [n] iterations left. *)
Fixpoint maskBytes (n : nat) (i Offset Value : Z) (Data : list Z)
  : Result (list Z) :=
  match n with
  | O => Ok Data
  | S n' =>
      Data ← or_byte Data (u32 (Offset + i))
               (u8 (Z.land (Z.shiftr Value (i * 8)) 0xff));
      maskBytes n' (i + 1) Offset Value Data
  end.

Definition applyFixup (Fixup : MCFixup) (Data : list Z) (Value : Z)
    (Ctx : MCContext) (KsError : Z) : Result (list Z * MCContext * Z) :=
  Info ← getFixupKindInfo (getKind Fixup);
  if Value =? 0 then Ok (Data, Ctx, KsError)
  else
    '(Value, Ctx) ← adjustFixupValue Fixup Value Ctx;
    Value ← match shl64 Value (TargetOffset Info) with
            | Some v => Ok v
            | None => Stop (Undefined "Value <<= Info.TargetOffset")
            end;
    let Offset := getOffset Fixup in
    let FullSize := getSize (getKind Fixup) in
    _ ← (if NDEBUG then Ok tt
         else
           let NumBytes := u32 (TargetSize Info + 7) / 8 in
           assert (u32 (Offset + NumBytes) <=? size Data)
             "Invalid fixup offset!");
    Data ← maskBytes (Z.to_nat FullSize) 0 Offset Value Data;
    Ok (Data, Ctx, KsError).

End Backend.

(** The loop of [writeNopData]; it runs as long as [i < Count], and [fuel]
    bounds the number of iterations. *)
Fixpoint nopLoop (fuel : nat) (i Count : Z) (OW : MCObjectWriter)
  : option MCObjectWriter :=
  if i <? Count then
    match fuel with
    | O => None
    | S fuel' => nopLoop fuel' (u64 (i + 4)) Count (write32 0x13 OW)
    end
  else Some OW.

Definition writeNopData (fuel : nat) (Count : Z) (OW : MCObjectWriter)
  : option (bool * MCObjectWriter) :=
  if negb (Count mod 4 =? 0) then Some (false, OW)
  else
    match nopLoop fuel 0 Count OW with
    | Some OW' => Some (true, OW')
    | None => None
    end.

End RISCV.

(** ** The SystemZ backend *)

Module SystemZ.

(** The target kinds of [SystemZMCFixups.h], in the order of the table
    [Infos]. *)
Abbreviation FK_390_PC16DBL := (FK_Target 0%nat).
Abbreviation FK_390_PC32DBL := (FK_Target 1%nat).
Abbreviation FK_390_TLS_CALL := (FK_Target 2%nat).

Definition NumTargetFixupKinds : nat := 3.

Definition extractBitsForFixup (Kind : MCFixupKind) (Value : Z) : Result Z :=
  if belowFirstTargetFixupKind Kind then Ok Value
  else
    match Kind with
    | FK_390_PC16DBL | FK_390_PC32DBL => Ok (u64 (Z.quot (to_int64 Value) 2))
    | FK_390_TLS_CALL => Ok 0
    | _ => Stop (Unreachable "Unknown fixup kind!")
    end.

Definition Infos : list MCFixupKindInfo :=
  [ mkInfo "FK_390_PC16DBL" 0 16 FKF_IsPCRel;
    mkInfo "FK_390_PC32DBL" 0 32 FKF_IsPCRel;
    mkInfo "FK_390_TLS_CALL" 0 0 0 ].

Section Backend.

Variable NDEBUG : bool.
Variable MCAsmBackend_getFixupKindInfo : MCFixupKind -> Result MCFixupKindInfo.

(** The error code of [keystone.h] for an invalid fixup. *)
Variable KS_ERR_ASM_FIXUP_INVALID : Z.

Definition getFixupKindInfo (Kind : MCFixupKind) : Result MCFixupKindInfo :=
  match Kind with
  | FK_Target n =>
      _ ← (if NDEBUG then Ok tt
           else assert (n <? NumTargetFixupKinds)%nat "Invalid kind!");
      match Infos !! n with
      | Some Info => Ok Info
      | None => Stop (OutOfBounds (Z.of_nat n))
      end
  | _ => MCAsmBackend_getFixupKindInfo Kind
  end.

(** The loop [for (unsigned I = 0; I != Size; ++I)] of [applyFixup],
    with [n] iterations left. *)
Fixpoint insertBytes (n : nat) (I Offset Value ShiftValue : Z)
    (Data : list Z) : Result (list Z) :=
  match n with
  | O => Ok Data
  | S n' =>
      Byte ← match shr64 Value ShiftValue with
             | Some v => Ok (u8 v)
             | None => Stop (Undefined "Value >> ShiftValue")
             end;
      Data ← or_byte Data (u32 (Offset + I)) Byte;
      insertBytes n' (I + 1) Offset Value (u32 (ShiftValue - 8)) Data
  end.

Definition applyFixup (Fixup : MCFixup) (Data : list Z) (Value : Z)
    (KsError : Z) : Result (list Z * Z) :=
  let Kind := getKind Fixup in
  let Offset := getOffset Fixup in
  Info ← getFixupKindInfo Kind;
  let Size := u32 (TargetSize Info + 7) / 8 in
  if size Data <? u32 (Offset + Size) then
    Ok (Data, KS_ERR_ASM_FIXUP_INVALID)
  else
    Value ← extractBitsForFixup Kind Value;
    let ShiftValue := u32 (u32 (Size * 8) - 8) in
    Data ← insertBytes (Z.to_nat Size) 0 Offset Value ShiftValue Data;
    Ok (Data, KsError).

End Backend.

(** The loop [for (uint64_t I = 0; I != Count; ++I)] of [writeNopData],
    with [fuel] bounding the number of iterations. *)
Fixpoint nopLoop (fuel : nat) (I Count : Z) (OW : MCObjectWriter)
  : option MCObjectWriter :=
  if I =? Count then Some OW
  else
    match fuel with
    | O => None
    | S fuel' => nopLoop fuel' (u64 (I + 1)) Count (write8 7 OW)
    end.

Definition writeNopData (fuel : nat) (Count : Z) (OW : MCObjectWriter)
  : option (bool * MCObjectWriter) :=
  match nopLoop fuel 0 Count OW with
  | Some OW' => Some (true, OW')
  | None => None
  end.

End SystemZ.

(** * Properties *)

(** ** Bit fields of a value, as the specification names them *)

(** Bit [k] of [V], and the bits [hi..lo] of [V] read as a number. *)
Definition bit (V k : Z) : Z := Z.b2z (Z.testbit V k).
Definition bits (V hi lo : Z) : Z := (V / 2 ^ lo) mod 2 ^ (hi - lo + 1).

Definition jal_packed (V : Z) : Z :=
  Z.lor (Z.lor (Z.lor (Z.shiftl (bit V 20) 19) (Z.shiftl (bits V 10 1) 9))
               (Z.shiftl (bit V 11) 8))
        (bits V 19 12).

Definition branch_packed (V : Z) : Z :=
  Z.lor (Z.lor (Z.lor (Z.shiftl (bit V 12) 31) (Z.shiftl (bits V 10 5) 25))
               (Z.shiftl (bits V 4 1) 8))
        (Z.shiftl (bit V 11) 7).

Definition hi20_rounded (V : Z) : Z := Z.land (Z.shiftr (V + 0x800) 12) (Z.ones 20).
Definition lo12_store (V : Z) : Z :=
  Z.lor (Z.shiftl (bits V 11 5) 25) (Z.shiftl (bits V 4 0) 7).

(** A call of the adjuster reports [Msg] when it returns with a
    diagnostic of that message in the context. *)
Definition reports (Msg : string) (r : Result (Z * MCContext)) : Prop :=
  exists packed Ctx' L, r = Ok (packed, Ctx') /\ In (mkDiag L Msg) Ctx'.

(** The kinds whose value the adjuster checks against a signed width,
    and that width: the [N] of [isInt<N>] in the source. *)
Definition signedWidth (Kind : MCFixupKind) : option Z :=
  match Kind with
  | RISCV.fixup_riscv_jal => Some 21
  | RISCV.fixup_riscv_branch => Some 13
  | _ => None
  end.

(** A base class table for the target independent kinds, used to run
    the appliers on concrete fixups. *)
Definition builtinInfos (Kind : MCFixupKind) : Result MCFixupKindInfo :=
  match Kind with
  | FK_Data_1 => Ok (mkInfo "FK_Data_1" 0 8 0)
  | FK_Data_2 => Ok (mkInfo "FK_Data_2" 0 16 0)
  | FK_Data_4 => Ok (mkInfo "FK_Data_4" 0 32 0)
  | FK_Data_8 => Ok (mkInfo "FK_Data_8" 0 64 0)
  | _ => Stop (AssertionFailed "Unknown fixup kind")
  end.

(** ** Reading the fields back *)

(** The packed values of the compressed jump and branch, in the order
    the source builds them. *)
Definition rvc_jump_packed (V : Z) : Z :=
  Z.lor (Z.lor (Z.lor (Z.lor (Z.lor (Z.lor (Z.lor
    (Z.shiftl (bit V 11) 10) (Z.shiftl (bit V 4) 9)) (Z.shiftl (bits V 9 8) 7))
    (Z.shiftl (bit V 10) 6)) (Z.shiftl (bit V 6) 5)) (Z.shiftl (bit V 7) 4))
    (Z.shiftl (bits V 3 1) 1)) (bit V 5).

Definition rvc_branch_packed (V : Z) : Z :=
  Z.lor (Z.lor (Z.lor (Z.lor
    (Z.shiftl (bit V 8) 12) (Z.shiftl (bits V 4 3) 10)) (Z.shiftl (bits V 7 6) 5))
    (Z.shiftl (bits V 2 1) 3)) (Z.shiftl (bit V 5) 2).

(** The offsets a decoder reads out of the packed values: each field
    goes back to the bit positions it was taken from. *)
Definition jal_unpacked (P : Z) : Z :=
  Z.lor (Z.lor (Z.lor (Z.shiftl (bit P 19) 20) (Z.shiftl (bits P 18 9) 1))
               (Z.shiftl (bit P 8) 11))
        (Z.shiftl (bits P 7 0) 12).

Definition branch_unpacked (P : Z) : Z :=
  Z.lor (Z.lor (Z.lor (Z.shiftl (bit P 31) 12) (Z.shiftl (bits P 30 25) 5))
               (Z.shiftl (bits P 11 8) 1))
        (Z.shiftl (bit P 7) 11).

Definition rvc_jump_unpacked (P : Z) : Z :=
  Z.lor (Z.lor (Z.lor (Z.lor (Z.lor (Z.lor (Z.lor
    (Z.shiftl (bit P 10) 11) (Z.shiftl (bit P 9) 4)) (Z.shiftl (bits P 8 7) 8))
    (Z.shiftl (bit P 6) 10)) (Z.shiftl (bit P 5) 6)) (Z.shiftl (bit P 4) 7))
    (Z.shiftl (bits P 3 1) 1)) (Z.shiftl (bit P 0) 5).

Definition rvc_branch_unpacked (P : Z) : Z :=
  Z.lor (Z.lor (Z.lor (Z.lor
    (Z.shiftl (bit P 12) 8) (Z.shiftl (bits P 11 10) 3)) (Z.shiftl (bits P 6 5) 6))
    (Z.shiftl (bits P 4 3) 1)) (Z.shiftl (bit P 2) 5).

Definition lo12_store_unpacked (P : Z) : Z :=
  Z.lor (Z.shiftl (bits P 31 25) 5) (bits P 11 7).

(** An [N]-bit field read as a signed number. *)
Definition sext (N x : Z) : Z := if x <? 2 ^ (N - 1) then x else x - 2 ^ N.

(** Byte [j] of a value, counted from the least significant one. *)
Definition byte_at (v j : Z) : Z := bits v (8 * j + 7) (8 * j).

(** The [n] bytes of a buffer from [Offset] on, and the number they
    hold in little-endian and in big-endian order. *)
Definition field (Data : list Z) (Offset n : nat) : list Z :=
  take n (drop Offset Data).

Fixpoint le_word (bs : list Z) : Z :=
  match bs with
  | [] => 0
  | b :: bs' => Z.lor b (Z.shiftl (le_word bs') 8)
  end.

Definition be_word (bs : list Z) : Z := le_word (reverse bs).

(** Fixups used to run the theorems on concrete inputs. *)
Definition at_jal : MCFixup := mkFixup RISCV.fixup_riscv_jal 0 7.
Definition at_branch : MCFixup := mkFixup RISCV.fixup_riscv_branch 0 7.
Definition at_rvc_jump : MCFixup := mkFixup RISCV.fixup_riscv_rvc_jump 0 7.
Definition at_rvc_branch : MCFixup := mkFixup RISCV.fixup_riscv_rvc_branch 0 7.
Definition at_hi20 : MCFixup := mkFixup RISCV.fixup_riscv_hi20 0 7.
Definition at_lo12_i : MCFixup := mkFixup RISCV.fixup_riscv_lo12_i 0 7.
Definition at_lo12_s : MCFixup := mkFixup RISCV.fixup_riscv_lo12_s 0 7.
Definition at_pc16dbl : MCFixup := mkFixup SystemZ.FK_390_PC16DBL 2 7.
Definition at_pc16dbl_top : MCFixup :=
  mkFixup SystemZ.FK_390_PC16DBL 0xffffffff 7.

(** ** Arithmetic of masks and shifts *)

Lemma pow2_pos (n : Z) : 0 <= n -> 0 < 2 ^ n.
Proof. intros; apply Z.pow_pos_nonneg; lia. Qed.

Lemma u32_small (x : Z) : 0 <= x < 2 ^ 32 -> u32 x = x.
Proof. intros; unfold u32; apply Z.mod_small; assumption. Qed.

Lemma u64_small (x : Z) : 0 <= x < 2 ^ 64 -> u64 x = x.
Proof. intros; unfold u64; apply Z.mod_small; assumption. Qed.

Lemma bits_range (V hi lo : Z) :
  lo <= hi + 1 -> 0 <= bits V hi lo < 2 ^ (hi - lo + 1).
Proof. intros; unfold bits; apply Z.mod_pos_bound, pow2_pos; lia. Qed.

Lemma bit_bits (V k : Z) : 0 <= k -> bit V k = bits V k k.
Proof.
  intros Hk; unfold bit, bits.
  rewrite Z.testbit_spec' by assumption.
  replace (k - k + 1) with 1 by lia; reflexivity.
Qed.

(** The source's [(V >> lo) & mask], for a mask of [n] ones. *)
Lemma land_shiftr_ones (V lo n : Z) :
  0 <= lo -> 0 <= n ->
  Z.land (Z.shiftr V lo) (Z.ones n) = bits V (lo + n - 1) lo.
Proof.
  intros Hlo Hn; unfold bits.
  rewrite Z.land_ones, Z.shiftr_div_pow2 by assumption.
  do 2 f_equal; lia.
Qed.

Lemma shiftl_range (a n k : Z) :
  0 <= n -> 0 <= k -> 0 <= a < 2 ^ k -> 0 <= Z.shiftl a n < 2 ^ (k + n).
Proof.
  intros Hn Hk Ha; rewrite Z.shiftl_mul_pow2, Z.pow_add_r by assumption.
  pose proof (pow2_pos n Hn); nia.
Qed.

(** A field of at most 32 bits survives the conversion to [unsigned];
    [mask] is the source's constant, made of [hi - lo + 1] ones. *)
Lemma u32_field (V hi lo mask : Z) :
  mask = Z.ones (hi - lo + 1) -> 0 <= lo <= hi -> hi - lo < 32 ->
  u32 (Z.land (Z.shiftr V lo) mask) = bits V hi lo.
Proof.
  intros -> Hlo Hn; rewrite land_shiftr_ones by lia.
  replace (lo + (hi - lo + 1) - 1) with hi by lia.
  apply u32_small.
  pose proof (bits_range V hi lo ltac:(lia)) as Hb.
  assert (2 ^ (hi - lo + 1) <= 2 ^ 32) by (apply Z.pow_le_mono_r; lia). lia.
Qed.

(** Reducing a value modulo [2 ^ 64] keeps its bits below 64. *)
Lemma bits_u64 (x hi lo : Z) :
  0 <= lo <= hi + 1 -> hi < 64 -> bits (u64 x) hi lo = bits x hi lo.
Proof.
  intros Hlo Hhi.
  pose proof (land_shiftr_ones (u64 x) lo (hi - lo + 1) ltac:(lia) ltac:(lia)) as E1.
  pose proof (land_shiftr_ones x lo (hi - lo + 1) ltac:(lia) ltac:(lia)) as E2.
  replace (lo + (hi - lo + 1) - 1) with hi in E1, E2 by lia.
  rewrite <- E1, <- E2; apply Z.bits_inj'; intros i Hi.
  rewrite !Z.land_spec, !Z.shiftr_spec by assumption.
  destruct (Z.ltb_spec i (hi - lo + 1)) as [Hlt|Hge].
  - unfold u64; rewrite Z.mod_pow2_bits_low by lia; reflexivity.
  - rewrite Z.ones_spec_high by lia; rewrite !andb_false_r; reflexivity.
Qed.

(** Shifting a field left inside [unsigned] loses nothing as long as
    the field ends below bit 32. *)
Lemma shl32_bits (V hi lo k : Z) :
  lo <= hi + 1 -> 0 <= k -> hi - lo + 1 + k <= 32 ->
  shl32 (bits V hi lo) k = Z.shiftl (bits V hi lo) k.
Proof.
  intros H1 Hk H2; unfold shl32; apply u32_small.
  pose proof (shiftl_range (bits V hi lo) k (hi - lo + 1) Hk ltac:(lia)
                (bits_range V hi lo H1)) as Hs.
  assert (2 ^ (hi - lo + 1 + k) <= 2 ^ 32) by (apply Z.pow_le_mono_r; lia).
  lia.
Qed.

Lemma land1_even (V : Z) : Z.even V = true -> Z.land V 1 = 0.
Proof.
  intros He; change 1 with (Z.ones 1); rewrite Z.land_ones by lia.
  change (2 ^ 1) with 2; rewrite Zmod_even, He; reflexivity.
Qed.

Lemma land1_odd (V : Z) : Z.odd V = true -> Z.land V 1 = 1.
Proof.
  intros Ho; change 1 with (Z.ones 1) at 1; rewrite Z.land_ones by lia.
  change (2 ^ 1) with 2; rewrite Zmod_odd, Ho; reflexivity.
Qed.

(** ** The RISC-V value adjuster *)

Section Adjust.
Import RISCV.

Variables (Fixup : MCFixup) (Ctx : MCContext).

(** The value computed for [fixup_riscv_jal], whatever is reported. *)
Lemma jal_value (V : Z) :
  getKind Fixup = fixup_riscv_jal ->
  exists Ctx', adjustFixupValue Fixup V Ctx = Ok (jal_packed V, Ctx').
Proof.
  intros HK; unfold adjustFixupValue; rewrite HK; cbv zeta.
  eexists; do 2 f_equal. unfold jal_packed.
  rewrite (u32_field V 20 20 0x1), (u32_field V 19 12 0xff),
    (u32_field V 11 11 0x1), (u32_field V 10 1 0x3ff) by (reflexivity || lia).
  rewrite !bit_bits, !shl32_bits by lia. reflexivity.
Qed.

(** The value computed for [fixup_riscv_branch], whatever is reported. *)
Lemma branch_value (V : Z) :
  getKind Fixup = fixup_riscv_branch ->
  exists Ctx', adjustFixupValue Fixup V Ctx = Ok (branch_packed V, Ctx').
Proof.
  intros HK; unfold adjustFixupValue; rewrite HK; cbv zeta.
  eexists; do 2 f_equal. unfold branch_packed.
  rewrite (u32_field V 12 12 0x1), (u32_field V 11 11 0x1),
    (u32_field V 10 5 0x3f), (u32_field V 4 1 0xf) by (reflexivity || lia).
  rewrite !bit_bits, !shl32_bits by lia. reflexivity.
Qed.

(** A value that passes both checks leaves the context as it was. *)
Lemma checks_pass (N V : Z) :
  isInt N V = true -> Z.even V = true ->
  (let Ctx1 := if negb (isInt N V)
               then reportError (getLoc Fixup) RangeError Ctx else Ctx in
   if negb (Z.land V 0x1 =? 0)
   then reportError (getLoc Fixup) AlignmentError Ctx1 else Ctx1) = Ctx.
Proof. intros -> He; cbv zeta; rewrite (land1_even V He); reflexivity. Qed.

(** C1. For every 64-bit value [V] that is even and fits in 21 signed
    bits, the adjuster applied to [fixup_riscv_jal] returns
    [(bit 20 << 19) | (bits 10..1 << 9) | (bit 11 << 8) | bits 19..12]
    of [V], and reports nothing. At [V = 0x1000] this is [0x1]. *)
Theorem adjust_jal_packs (V : Z) :
  getKind Fixup = fixup_riscv_jal ->
  0 <= V < 2 ^ 64 -> isInt 21 V = true -> Z.even V = true ->
  adjustFixupValue Fixup V Ctx = Ok (jal_packed V, Ctx).
Proof.
  intros HK _ Hfit He.
  destruct (jal_value V HK) as [Ctx' E]; rewrite E; do 2 f_equal.
  unfold adjustFixupValue in E; rewrite HK in E; cbv zeta in E.
  injection E as _ <-. apply (checks_pass 21 V Hfit He).
Qed.

(** C2. For every 64-bit value [V] that is even and fits in 13 signed
    bits, the adjuster applied to [fixup_riscv_branch] returns
    [(bit 12 << 31) | (bits 10..5 << 25) | (bits 4..1 << 8) | (bit 11 << 7)]
    of [V], and reports nothing. At [V = 0x20] this is [0x02000000]. *)
Theorem adjust_branch_packs (V : Z) :
  getKind Fixup = fixup_riscv_branch ->
  0 <= V < 2 ^ 64 -> isInt 13 V = true -> Z.even V = true ->
  adjustFixupValue Fixup V Ctx = Ok (branch_packed V, Ctx).
Proof.
  intros HK _ Hfit He.
  destruct (branch_value V HK) as [Ctx' E]; rewrite E; do 2 f_equal.
  unfold adjustFixupValue in E; rewrite HK in E; cbv zeta in E.
  injection E as _ <-. apply (checks_pass 13 V Hfit He).
Qed.

(** A plain mask of a [uint64_t]. *)
Lemma land_ones_bits (V mask n : Z) :
  mask = Z.ones n -> 0 < n -> Z.land V mask = bits V (n - 1) 0.
Proof.
  intros -> Hn; unfold bits; rewrite Z.land_ones, Z.pow_0_r, Z.div_1_r by lia.
  f_equal; f_equal; lia.
Qed.

Lemma u64_shiftl_bits (V hi lo k : Z) :
  lo <= hi + 1 -> 0 <= k -> hi - lo + 1 + k <= 64 ->
  u64 (Z.shiftl (bits V hi lo) k) = Z.shiftl (bits V hi lo) k.
Proof.
  intros H1 Hk H2; apply u64_small.
  pose proof (shiftl_range (bits V hi lo) k (hi - lo + 1) Hk ltac:(lia)
                (bits_range V hi lo H1)) as Hs.
  assert (2 ^ (hi - lo + 1 + k) <= 2 ^ 64) by (apply Z.pow_le_mono_r; lia).
  lia.
Qed.

(** C6. For every 64-bit value [V], the adjuster maps [fixup_riscv_hi20]
    and [fixup_riscv_pcrel_hi20] to [(V + 0x800) >> 12] masked to 20 bits,
    [fixup_riscv_lo12_i] to the low 12 bits of [V], and
    [fixup_riscv_lo12_s] to the bits 11..5 of [V] at position 25 or-ed
    with the bits 4..0 of [V] at position 7; nothing is reported. *)
Theorem adjust_hi_lo (V : Z) :
  0 <= V < 2 ^ 64 ->
  (getKind Fixup = fixup_riscv_hi20 \/ getKind Fixup = fixup_riscv_pcrel_hi20 ->
   adjustFixupValue Fixup V Ctx = Ok (hi20_rounded V, Ctx)) /\
  (getKind Fixup = fixup_riscv_lo12_i ->
   adjustFixupValue Fixup V Ctx = Ok (V mod 2 ^ 12, Ctx)) /\
  (getKind Fixup = fixup_riscv_lo12_s ->
   adjustFixupValue Fixup V Ctx = Ok (lo12_store V, Ctx)).
Proof.
  intros _; unfold adjustFixupValue; repeat split.
  - assert (E : Z.land (Z.shiftr (u64 (V + 0x800)) 12) 0xfffff = hi20_rounded V).
    { unfold hi20_rounded. change 0xfffff with (Z.ones 20).
      rewrite !land_shiftr_ones by lia. apply bits_u64; lia. }
    intros [-> | ->]; rewrite E; reflexivity.
  - intros ->. change 0xfff with (Z.ones 12); rewrite Z.land_ones by lia.
    reflexivity.
  - intros ->. unfold lo12_store.
    rewrite (land_ones_bits V 0x1f 5) by (reflexivity || lia).
    change 0x7f with (Z.ones 7); rewrite land_shiftr_ones by lia.
    replace (5 + 7 - 1) with 11 by lia. replace (5 - 1) with 4 by lia.
    rewrite !u64_shiftl_bits by lia. reflexivity.
Qed.

(** C3, as the code has it. For [fixup_riscv_jal] (21 bits) and
    [fixup_riscv_branch] (13 bits), the kinds the adjuster checks, a
    value that does not fit in the signed width is reported as
    "fixup value out of range" at the location of the fixup; the
    adjuster still returns a packed value and takes no fragment buffer. *)
Theorem adjust_reports_range (N V : Z) :
  signedWidth (getKind Fixup) = Some N ->
  0 <= V < 2 ^ 64 -> isInt N V = false ->
  exists packed more,
    adjustFixupValue Fixup V Ctx
    = Ok (packed, Ctx ++ mkDiag (getLoc Fixup) RangeError :: more).
Proof.
  intros HN _ Hfit; unfold adjustFixupValue.
  destruct (getKind Fixup) as [| | | |n|n]; try discriminate HN.
  destruct n as [|[|[|[|[|[|n]]]]]]; try discriminate HN;
    injection HN as <-; rewrite Hfit; cbv zeta; cbn [negb];
    destruct (negb (Z.land V 1 =? 0)); unfold reportError;
    eexists; eexists; rewrite <- ?app_assoc; reflexivity.
Qed.


End Adjust.

(** The regression fixture of the jump kind: the offset [0x1000] packs
    to [0x1]. *)
Lemma adjust_jal_packs_0x1000 :
  getKind (mkFixup RISCV.fixup_riscv_jal 0 0) = RISCV.fixup_riscv_jal /\
  0 <= 0x1000 < 2 ^ 64 /\ isInt 21 0x1000 = true /\ Z.even 0x1000 = true /\
  RISCV.adjustFixupValue (mkFixup RISCV.fixup_riscv_jal 0 0) 0x1000 [] = Ok (0x1, []).
Proof.
  pose (Fixup := mkFixup RISCV.fixup_riscv_jal 0 0).
  assert (Hk : getKind Fixup = RISCV.fixup_riscv_jal) by reflexivity.
  assert (Hr : 0 <= 0x1000 < 2 ^ 64) by lia.
  assert (Hf : isInt 21 0x1000 = true) by reflexivity.
  assert (He : Z.even 0x1000 = true) by reflexivity.
  repeat (split; [assumption|]).
  exact (adjust_jal_packs Fixup [] 0x1000 Hk Hr Hf He).
Defined.

(** The fixture of the branch kind: the offset [0x20] packs to
    [0x02000000]. *)
Lemma adjust_branch_packs_0x20 :
  getKind (mkFixup RISCV.fixup_riscv_branch 0 0) = RISCV.fixup_riscv_branch /\
  0 <= 0x20 < 2 ^ 64 /\ isInt 13 0x20 = true /\ Z.even 0x20 = true /\
  RISCV.adjustFixupValue (mkFixup RISCV.fixup_riscv_branch 0 0) 0x20 [] = Ok (0x02000000, []).
Proof.
  pose (Fixup := mkFixup RISCV.fixup_riscv_branch 0 0).
  assert (Hk : getKind Fixup = RISCV.fixup_riscv_branch) by reflexivity.
  assert (Hr : 0 <= 0x20 < 2 ^ 64) by lia.
  assert (Hf : isInt 13 0x20 = true) by reflexivity.
  assert (He : Z.even 0x20 = true) by reflexivity.
  repeat (split; [assumption|]).
  exact (adjust_branch_packs Fixup [] 0x20 Hk Hr Hf He).
Defined.

(** The address [0x12345800]: the high part is rounded up to [0x12346]
    because bit 11 is set, and the low part is [0x800]. *)
Lemma adjust_hi_lo_0x12345800 :
  0 <= 0x12345800 < 2 ^ 64 /\
  RISCV.adjustFixupValue (mkFixup RISCV.fixup_riscv_hi20 0 0) 0x12345800 []
  = Ok (0x12346, []) /\
  RISCV.adjustFixupValue (mkFixup RISCV.fixup_riscv_lo12_i 0 0) 0x12345800 []
  = Ok (0x800, []) /\
  RISCV.adjustFixupValue (mkFixup RISCV.fixup_riscv_lo12_s 0 0) 0x12345800 []
  = Ok (0x80000000, []).
Proof.
  assert (Hr : 0 <= 0x12345800 < 2 ^ 64) by lia.
  split; [exact Hr|].
  split; [|split].
  - exact (proj1 (adjust_hi_lo (mkFixup RISCV.fixup_riscv_hi20 0 0) []
                    0x12345800 Hr) (or_introl eq_refl)).
  - exact (proj1 (proj2 (adjust_hi_lo (mkFixup RISCV.fixup_riscv_lo12_i 0 0) []
                    0x12345800 Hr)) eq_refl).
  - exact (proj2 (proj2 (adjust_hi_lo (mkFixup RISCV.fixup_riscv_lo12_s 0 0) []
                    0x12345800 Hr)) eq_refl).
Defined.

(** The jump offset [2 ^ 20] is one past the 21-bit signed range. *)
Lemma adjust_reports_range_0x100000 :
  signedWidth (getKind (mkFixup RISCV.fixup_riscv_jal 0 7)) = Some 21 /\
  0 <= 0x100000 < 2 ^ 64 /\ isInt 21 0x100000 = false /\
  exists packed more,
    RISCV.adjustFixupValue (mkFixup RISCV.fixup_riscv_jal 0 7) 0x100000 []
    = Ok (packed, [] ++ mkDiag 7 RangeError :: more).
Proof.
  assert (Hw : signedWidth (getKind (mkFixup RISCV.fixup_riscv_jal 0 7)) = Some 21)
    by reflexivity.
  assert (Hr : 0 <= 0x100000 < 2 ^ 64) by lia.
  assert (Hf : isInt 21 0x100000 = false) by reflexivity.
  repeat (split; [assumption|]).
  exact (adjust_reports_range (mkFixup RISCV.fixup_riscv_jal 0 7) [] 21 0x100000
           Hw Hr Hf).
Defined.


(** A call that returns with the context empty has reported nothing. *)
Lemma reports_nothing (Msg : string) (r : Result (Z * MCContext)) (packed : Z) :
  r = Ok (packed, []) -> ~ reports Msg r.
Proof.
  intros -> (packed' & Ctx' & L & E & Hin).
  injection E as _ <-. destruct Hin.
Qed.

(** No signed width below 64 bits holds the value [2 ^ 62]. *)
Lemma isInt_2p62 (N : Z) : N < 64 -> isInt N (2 ^ 62) = false.
Proof.
  intros HN; unfold isInt.
  replace (64 <=? N) with false by (symmetry; apply Z.leb_gt; lia).
  change (to_int64 (2 ^ 62)) with (2 ^ 62); cbn [orb].
  apply andb_false_iff; right; apply Z.ltb_ge.
  destruct (Z.le_gt_cases 0 (N - 1)).
  - apply Z.pow_le_mono_r; lia.
  - rewrite Z.pow_neg_r by lia; lia.
Qed.

(** C3 fails on the code: [fixup_riscv_pcrel_hi20],
    [fixup_riscv_rvc_jump] and [fixup_riscv_rvc_branch] are flagged
    PC-relative in the table of kinds, the value [2 ^ 62] does not fit in
    63 signed bits (nor in any narrower width), and for each of them the
    adjuster returns a packed value and reports nothing. *)
Lemma range_unchecked_kinds :
  isInt 63 (2 ^ 62) = false /\
  (isPCRel <$> RISCV.Infos !! 3%nat = Some true /\
   RISCV.adjustFixupValue (mkFixup RISCV.fixup_riscv_pcrel_hi20 0 7) (2 ^ 62) []
   = Ok (0, []) /\
   ~ reports RangeError
       (RISCV.adjustFixupValue (mkFixup RISCV.fixup_riscv_pcrel_hi20 0 7) (2 ^ 62) [])) /\
  (isPCRel <$> RISCV.Infos !! 6%nat = Some true /\
   RISCV.adjustFixupValue (mkFixup RISCV.fixup_riscv_rvc_jump 0 7) (2 ^ 62) []
   = Ok (0, []) /\
   ~ reports RangeError
       (RISCV.adjustFixupValue (mkFixup RISCV.fixup_riscv_rvc_jump 0 7) (2 ^ 62) [])) /\
  (isPCRel <$> RISCV.Infos !! 7%nat = Some true /\
   RISCV.adjustFixupValue (mkFixup RISCV.fixup_riscv_rvc_branch 0 7) (2 ^ 62) []
   = Ok (0, []) /\
   ~ reports RangeError
       (RISCV.adjustFixupValue (mkFixup RISCV.fixup_riscv_rvc_branch 0 7) (2 ^ 62) [])).
Proof.
  split; [reflexivity|].
  repeat split; try reflexivity; eapply reports_nothing; reflexivity.
Qed.


(** ** The RISC-V applier *)

Lemma u32_le (x : Z) : 0 <= x -> 0 <= u32 x <= x.
Proof.
  intros Hx; unfold u32; split.
  - apply Z.mod_pos_bound; lia.
  - apply Z.mod_le; lia.
Qed.

(** Or-ing a zero byte into the buffer changes nothing. *)
Lemma or_byte_zero (Data : list Z) (Index : Z) :
  0 <= Index < size Data -> or_byte Data Index 0 = Ok Data.
Proof.
  intros [H0 Hlt]; unfold or_byte, size in *.
  destruct (lookup_lt_is_Some_2 Data (Z.to_nat Index) ltac:(lia)) as [b Hb].
  rewrite Hb, Z.lor_0_r, list_insert_id by assumption; reflexivity.
Qed.

Section Apply.
Import RISCV.

Variable NDEBUG : bool.
Variable MCAsmBackend_getFixupKindInfo : MCFixupKind -> Result MCFixupKindInfo.

Local Abbreviation rv_getFixupKindInfo :=
  (RISCV.getFixupKindInfo NDEBUG MCAsmBackend_getFixupKindInfo).
Local Abbreviation rv_applyFixup :=
  (RISCV.applyFixup NDEBUG MCAsmBackend_getFixupKindInfo).

Lemma maskBytes_zero (n : nat) :
  forall (i Offset : Z) (Data : list Z),
    0 <= Offset -> 0 <= i -> Offset + i + Z.of_nat n <= size Data ->
    maskBytes n i Offset 0 Data = Ok Data.
Proof.
  induction n as [|n IH]; intros i Offset Data HO Hi Hfit; [reflexivity|].
  cbn [maskBytes]. rewrite Z.shiftr_0_l, Z.land_0_l.
  change (u8 0) with 0.
  pose proof (u32_le (Offset + i) ltac:(lia)).
  rewrite or_byte_zero by lia. cbn.
  apply IH; lia.
Qed.

(** The table of the target kinds: every field starts below bit 64 and
    takes no more bytes than [getSize] writes. *)
Lemma target_info_bounds (n : nat) (Info : MCFixupKindInfo) :
  rv_getFixupKindInfo (FK_Target n) = Ok Info ->
  0 <= TargetOffset Info < 64 /\
  0 <= u32 (TargetSize Info + 7) / 8 <= getSize (FK_Target n).
Proof.
  unfold RISCV.getFixupKindInfo.
  destruct n as [|[|[|[|[|[|[|[|n]]]]]]]];
    destruct NDEBUG; cbn [lookup list_lookup Infos mbind Result_bind];
    try discriminate;
    intros [= <-]; vm_compute; intuition discriminate.
Qed.

(** On the target independent kinds the adjuster returns the value as
    it is. *)
Lemma adjust_generic (Fixup : MCFixup) (V packed : Z) (Ctx Ctx' : MCContext) :
  belowFirstTargetFixupKind (getKind Fixup) = true ->
  adjustFixupValue Fixup V Ctx = Ok (packed, Ctx') -> packed = V.
Proof.
  unfold adjustFixupValue; destruct (getKind Fixup); try discriminate;
    intros _ [= -> _]; reflexivity.
Qed.

(** C7. For every in-bounds fixup and every buffer, applying a fixup
    whose adjusted value is zero leaves the buffer unchanged, byte for
    byte: either the raw value is zero and [applyFixup] returns at once,
    or zero bytes are or-ed into the buffer. *)
Theorem applyFixup_zero_unchanged (Fixup : MCFixup) (Info : MCFixupKindInfo)
    (Data : list Z) (Value : Z) (Ctx Ctx' : MCContext) (KsError : Z) :
  rv_getFixupKindInfo (getKind Fixup) = Ok Info ->
  0 <= Value < 2 ^ 64 -> 0 <= getOffset Fixup < 2 ^ 32 ->
  getOffset Fixup + getSize (getKind Fixup) <= size Data ->
  adjustFixupValue Fixup Value Ctx = Ok (0, Ctx') ->
  exists Ctx'', rv_applyFixup Fixup Data Value Ctx KsError = Ok (Data, Ctx'', KsError).
Proof.
  intros HInfo _ HOff Hfit Hadj; unfold RISCV.applyFixup.
  rewrite HInfo; cbn [mbind Result_bind].
  destruct (Z.eqb_spec Value 0) as [HV|HV]; [eexists; reflexivity|].
  rewrite Hadj; cbn [mbind Result_bind].
  destruct (belowFirstTargetFixupKind (getKind Fixup)) eqn:HK.
  { pose proof (adjust_generic _ _ _ _ _ HK Hadj); congruence. }
  destruct (getKind Fixup) as [| | | |n|n] eqn:EK; try discriminate HK.
  destruct (target_info_bounds n Info HInfo) as [HTO HNB].
  unfold shl64. replace (TargetOffset Info <? 64) with true
    by (symmetry; apply Z.ltb_lt; lia).
  rewrite Z.shiftl_0_l; change (u64 0) with 0; cbn [mbind Result_bind].
  assert (Hassert : (if NDEBUG then Ok tt
                     else assert (u32 (getOffset Fixup + u32 (TargetSize Info + 7) / 8)
                                  <=? size Data) "Invalid fixup offset!") = Ok tt).
  { destruct NDEBUG; [reflexivity|].
    pose proof (u32_le (getOffset Fixup + u32 (TargetSize Info + 7) / 8) ltac:(lia)).
    unfold assert; replace (_ <=? _) with true by (symmetry; apply Z.leb_le; lia).
    reflexivity. }
  rewrite Hassert; cbn [mbind Result_bind].
  assert (0 <= getSize (FK_Target n)) by lia.
  rewrite maskBytes_zero by lia. eexists; reflexivity.
Qed.

(** [applyFixup] never assigns [KsError]. *)
Lemma applyFixup_keeps_KsError (Fixup : MCFixup) (Data Data' : list Z)
    (Value : Z) (Ctx Ctx' : MCContext) (KsError KsError' : Z) :
  rv_applyFixup Fixup Data Value Ctx KsError = Ok (Data', Ctx', KsError') ->
  KsError' = KsError.
Proof.
  unfold RISCV.applyFixup.
  destruct (rv_getFixupKindInfo (getKind Fixup)); [|discriminate]; cbn [mbind Result_bind].
  destruct (Value =? 0); [intros [= _ _ <-]; reflexivity|].
  destruct (adjustFixupValue Fixup Value Ctx) as [[v c]|]; [|discriminate];
    cbn [mbind Result_bind].
  destruct (shl64 v (TargetOffset a)); [|discriminate]; cbn [mbind Result_bind].
  destruct (if NDEBUG then _ else _); [|discriminate]; cbn [mbind Result_bind].
  destruct (maskBytes _ _ _ _ _); [|discriminate]; cbn [mbind Result_bind].
  intros [= _ _ <-]; reflexivity.
Qed.

(** C5 fails on the code: a [fixup_riscv_jal] at offset 2 of a 4-byte
    fragment reaches past the end of the buffer. With the assertions
    compiled in, [applyFixup] stops on "Invalid fixup offset!"; without
    them it or-s into the bytes 2 and 3 and then accesses index 4,
    outside the buffer. In neither case does it return with an error
    code in [KsError]. *)
Theorem applyFixup_out_of_bounds (KsError : Z) :
  RISCV.applyFixup false MCAsmBackend_getFixupKindInfo
    (mkFixup fixup_riscv_jal 2 0) [0x6f; 0; 0; 0] 0x1000 [] KsError
  = Stop (AssertionFailed "Invalid fixup offset!") /\
  RISCV.applyFixup true MCAsmBackend_getFixupKindInfo
    (mkFixup fixup_riscv_jal 2 0) [0x6f; 0; 0; 0] 0x1000 [] KsError
  = Stop (OutOfBounds 4).
Proof. split; reflexivity. Qed.

End Apply.

(** ** The SystemZ backend *)

Lemma to_int64_range (V : Z) : 0 <= V < 2 ^ 64 -> - 2 ^ 63 <= to_int64 V < 2 ^ 63.
Proof. intros HV; unfold to_int64; destruct (Z.ltb_spec V (2 ^ 63)); lia. Qed.

(** Storing a signed 64-bit number in a [uint64_t] and reading it back
    as an [int64_t] gives the number. *)
Lemma to_int64_u64 (q : Z) : - 2 ^ 63 <= q < 2 ^ 63 -> to_int64 (u64 q) = q.
Proof.
  intros Hq; unfold to_int64, u64.
  destruct (Z.le_gt_cases 0 q) as [Hpos|Hneg].
  - rewrite Z.mod_small by lia.
    destruct (Z.ltb_spec q (2 ^ 63)); lia.
  - replace (q mod 2 ^ 64) with (q + 2 ^ 64)
      by (apply (Z.mod_unique_pos _ _ (-1)); lia).
    destruct (Z.ltb_spec (q + 2 ^ 64) (2 ^ 63)); lia.
Qed.

(** [Z.quot] by two: the magnitude is halved and the sign is kept. *)
Lemma quot2_truncates (v : Z) :
  Z.abs (Z.quot v 2) = Z.abs v / 2 /\ 0 <= Z.quot v 2 * v.
Proof.
  destruct (Z.le_gt_cases 0 v) as [Hpos|Hneg].
  - rewrite Z.quot_div_nonneg by lia.
    pose proof (Z.div_pos v 2 Hpos ltac:(lia)).
    rewrite !Z.abs_eq by lia. split; [reflexivity|nia].
  - replace v with (- - v) at 1 3 by lia.
    rewrite Z.quot_opp_l, Z.quot_div_nonneg by lia.
    pose proof (Z.div_pos (- v) 2 ltac:(lia) ltac:(lia)).
    rewrite Z.abs_opp, Z.abs_eq, (Z.abs_neq v) by lia. split; [reflexivity|nia].
Qed.

Section SystemZ.
Import SystemZ.

Variable NDEBUG : bool.
Variable MCAsmBackend_getFixupKindInfo : MCFixupKind -> Result MCFixupKindInfo.
Variable KS_ERR_ASM_FIXUP_INVALID : Z.

Local Abbreviation sz_getFixupKindInfo :=
  (SystemZ.getFixupKindInfo NDEBUG MCAsmBackend_getFixupKindInfo).
Local Abbreviation sz_applyFixup :=
  (SystemZ.applyFixup NDEBUG MCAsmBackend_getFixupKindInfo KS_ERR_ASM_FIXUP_INVALID).

(** C9. For [FK_390_PC16DBL] and [FK_390_PC32DBL] the bits installed
    in the field are the resolved value divided by two, as a signed
    64-bit division truncating toward zero:
    [extractBitsForFixup(Kind, V) = (int64_t)V / 2]. *)
Theorem extract_pcdbl_halves (Kind : MCFixupKind) (V : Z) :
  Kind = FK_390_PC16DBL \/ Kind = FK_390_PC32DBL ->
  0 <= V < 2 ^ 64 ->
  exists r,
    extractBitsForFixup Kind V = Ok r /\ 0 <= r < 2 ^ 64 /\
    to_int64 r = Z.quot (to_int64 V) 2 /\
    Z.abs (to_int64 r) = Z.abs (to_int64 V) / 2 /\
    0 <= to_int64 r * to_int64 V.
Proof.
  intros HK HV. exists (u64 (Z.quot (to_int64 V) 2)).
  pose proof (to_int64_range V HV) as Hv.
  pose proof (quot2_truncates (to_int64 V)) as [Habs Hsign].
  assert (Hq : - 2 ^ 63 <= Z.quot (to_int64 V) 2 < 2 ^ 63).
  { assert (Z.abs (to_int64 V) / 2 <= 2 ^ 62)
      by (apply Z.div_le_upper_bound; lia).
    lia. }
  rewrite (to_int64_u64 _ Hq).
  split; [destruct HK as [-> | ->]; reflexivity|].
  split; [unfold u64; apply Z.mod_pos_bound; lia|].
  auto.
Qed.

(** The bounds check of [applyFixup]: a field that ends past the
    buffer is answered with [KS_ERR_ASM_FIXUP_INVALID], and the buffer
    is returned as it was. *)
Lemma applyFixup_bounds_error (Fixup : MCFixup) (Info : MCFixupKindInfo)
    (Data : list Z) (Value KsError : Z) :
  sz_getFixupKindInfo (getKind Fixup) = Ok Info ->
  size Data < u32 (getOffset Fixup + u32 (TargetSize Info + 7) / 8) ->
  sz_applyFixup Fixup Data Value KsError = Ok (Data, KS_ERR_ASM_FIXUP_INVALID).
Proof.
  intros HInfo Hout; unfold SystemZ.applyFixup.
  rewrite HInfo; cbn [mbind Result_bind].
  replace (_ <? _) with true by (symmetry; apply Z.ltb_lt; exact Hout).
  reflexivity.
Qed.

(** C10. For every value and every in-bounds offset, applying a fixup
    of kind [FK_390_TLS_CALL] leaves the buffer (and the error code)
    unchanged: the kind's [TargetSize] is 0, so the loop merges no byte,
    and [extractBitsForFixup] returns 0 for it. *)
Theorem applyFixup_tls_call_unchanged (Fixup : MCFixup) (Data : list Z)
    (Value KsError : Z) :
  getKind Fixup = FK_390_TLS_CALL ->
  0 <= Value < 2 ^ 64 ->
  0 <= getOffset Fixup < 2 ^ 32 -> getOffset Fixup <= size Data ->
  sz_applyFixup Fixup Data Value KsError = Ok (Data, KsError) /\
  extractBitsForFixup FK_390_TLS_CALL Value = Ok 0 /\
  sz_getFixupKindInfo FK_390_TLS_CALL = Ok (mkInfo "FK_390_TLS_CALL" 0 0 0).
Proof.
  intros HK _ HOff Hfit.
  assert (HInfo : sz_getFixupKindInfo FK_390_TLS_CALL
                  = Ok (mkInfo "FK_390_TLS_CALL" 0 0 0))
    by (destruct NDEBUG; reflexivity).
  split; [|split; [reflexivity|exact HInfo]].
  unfold SystemZ.applyFixup; rewrite HK, HInfo.
  cbn [mbind Result_bind TargetSize].
  change (u32 (0 + 7) / 8) with 0. rewrite Z.add_0_r, u32_small by lia.
  replace (_ <? _) with false by (symmetry; apply Z.ltb_ge; lia).
  reflexivity.
Qed.

(** Big-endian insertion of a zero value: with [n] bytes left and the
    shift at [8 * (n - 1)], every byte or-ed in is zero. *)
Lemma insertBytes_zero (n : nat) :
  forall (I Offset ShiftValue : Z) (Data : list Z),
    0 <= Offset -> 0 <= I -> Offset + I + Z.of_nat n <= size Data ->
    (n <= 8)%nat -> (n <> 0%nat -> ShiftValue = 8 * (Z.of_nat n - 1)) ->
    insertBytes n I Offset 0 ShiftValue Data = Ok Data.
Proof.
  induction n as [|n IH]; intros I Offset Shift Data HO HI Hfit Hn HS;
    [reflexivity|].
  cbn [insertBytes]. rewrite (HS ltac:(lia)). unfold shr64.
  replace (_ <? 64) with true by (symmetry; apply Z.ltb_lt; lia).
  rewrite Z.shiftr_0_l; change (u8 0) with 0; cbn [mbind Result_bind].
  pose proof (u32_le (Offset + I) ltac:(lia)).
  rewrite or_byte_zero by lia. cbn [mbind Result_bind].
  apply IH; try lia.
  intros Hn0. rewrite u32_small by lia. lia.
Qed.

(** The SystemZ side of C7: an in-bounds fixup whose extracted value is
    zero leaves the buffer and the error code as they were. *)
Lemma sz_applyFixup_zero_unchanged (Fixup : MCFixup) (Info : MCFixupKindInfo)
    (Data : list Z) (Value KsError : Z) :
  sz_getFixupKindInfo (getKind Fixup) = Ok Info ->
  0 <= getOffset Fixup -> 0 <= TargetSize Info <= 64 ->
  getOffset Fixup + (TargetSize Info + 7) / 8 <= size Data ->
  extractBitsForFixup (getKind Fixup) Value = Ok 0 ->
  sz_applyFixup Fixup Data Value KsError = Ok (Data, KsError).
Proof.
  intros HInfo HO HT Hfit Hex; unfold SystemZ.applyFixup.
  rewrite HInfo; cbn [mbind Result_bind].
  rewrite (u32_small (TargetSize Info + 7)) by lia.
  assert (HS : 0 <= (TargetSize Info + 7) / 8 < 9)
    by (split; [apply Z.div_pos; lia | apply Z.div_lt_upper_bound; lia]).
  pose proof (u32_le (getOffset Fixup + (TargetSize Info + 7) / 8) ltac:(lia)).
  replace (_ <? _) with false by (symmetry; apply Z.ltb_ge; lia).
  rewrite Hex; cbn [mbind Result_bind].
  rewrite insertBytes_zero; try reflexivity; try lia.
  intros Hne. rewrite Z2Nat.id by lia.
  set (Size := (TargetSize Info + 7) / 8) in *.
  assert (1 <= Size) by lia.
  rewrite (u32_small (Size * 8)) by lia. rewrite u32_small by lia. lia.
Qed.

End SystemZ.

(** ** The RISC-V NOP emitter *)

(** The loop writes one word for every four bytes left, provided that
    many iterations are allowed. *)
Lemma nopLoop_runs (k : nat) :
  forall (fuel : nat) (i Count : Z) (OW : MCObjectWriter),
    0 <= i -> Count = i + 4 * Z.of_nat k -> Count < 2 ^ 64 -> (k <= fuel)%nat ->
    RISCV.nopLoop fuel i Count OW = Some (Nat.iter k (write32 0x13) OW).
Proof.
  induction k as [|k IH]; intros fuel i Count OW Hi HC Hlt Hfuel.
  - replace Count with i by lia.
    destruct fuel; cbn [RISCV.nopLoop]; rewrite Z.ltb_irrefl; reflexivity.
  - destruct fuel as [|fuel]; [lia|]. cbn [RISCV.nopLoop].
    replace (i <? Count) with true by (symmetry; apply Z.ltb_lt; lia).
    rewrite u64_small by lia.
    rewrite (IH fuel (i + 4) Count) by lia.
    rewrite Nat.iter_succ_r; reflexivity.
Qed.

Lemma iter_write32 (Value : Z) (k : nat) :
  forall OW : MCObjectWriter,
    Nat.iter k (write32 Value) OW
    = mkWriter (IsLittleEndian OW)
        (OS OW ++ concat (replicate k (word32_bytes (IsLittleEndian OW) Value))).
Proof.
  induction k as [|k IH]; intros [le os].
  - cbn. rewrite app_nil_r; reflexivity.
  - rewrite Nat.iter_succ_r, IH. cbn. rewrite <- app_assoc; reflexivity.
Qed.

(** C8. For every byte count [Count], [writeNopData] returns [false]
    and writes nothing when [Count] is not a multiple of 4; otherwise it
    writes [Count / 4] times the little-endian word [0x00000013] and
    returns [true]. The loop needs [Count / 4] iterations. For
    [Count = 8] the word is written twice. *)
Theorem writeNopData_pads (fuel : nat) (Count : Z) (OW : MCObjectWriter) :
  0 <= Count < 2 ^ 64 -> IsLittleEndian OW = true ->
  Count / 4 <= Z.of_nat fuel ->
  RISCV.writeNopData fuel Count OW
  = Some (if Count mod 4 =? 0
          then (true, mkWriter true
                        (OS OW ++ concat (replicate (Z.to_nat (Count / 4))
                                                    [0x13; 0; 0; 0])))
          else (false, OW)).
Proof.
  intros HC Hle Hfuel; unfold RISCV.writeNopData.
  destruct (Z.eqb_spec (Count mod 4) 0) as [Hmod|Hmod]; [|reflexivity].
  cbn [negb].
  assert (HCk : Count = 4 * (Count / 4)) by (apply Z_div_exact_full_2; lia).
  assert (0 <= Count / 4) by (apply Z.div_pos; lia).
  rewrite (nopLoop_runs (Z.to_nat (Count / 4))) by lia.
  rewrite iter_write32, Hle. reflexivity.
Qed.

(** Eight bytes of padding are two NOP words. *)
Lemma writeNopData_pads_8 :
  0 <= 8 < 2 ^ 64 /\ IsLittleEndian (mkWriter true []) = true /\
  8 / 4 <= Z.of_nat 2 /\
  RISCV.writeNopData 2 8 (mkWriter true [])
  = Some (true, mkWriter true [0x13; 0; 0; 0; 0x13; 0; 0; 0]).
Proof.
  assert (Hr : 0 <= 8 < 2 ^ 64) by lia.
  assert (Hle : IsLittleEndian (mkWriter true []) = true) by reflexivity.
  assert (Hf : 8 / 4 <= Z.of_nat 2) by (vm_compute; discriminate).
  repeat (split; [assumption|]).
  exact (writeNopData_pads 2 8 (mkWriter true []) Hr Hle Hf).
Defined.

(** ** Instances of the applier theorems *)

(** [jal x0, 0x1000]: the packed value [0x1] lands at bit 12 of the
    instruction word, little-endian. *)
Example applyFixup_jal_0x1000 :
  RISCV.applyFixup false builtinInfos (mkFixup RISCV.fixup_riscv_jal 0 0)
    [0x6f; 0; 0; 0] 0x1000 [] 0
  = Ok ([0x6f; 0x10; 0; 0], [], 0).
Proof. reflexivity. Qed.

(** [brasl]-style 16-bit field at offset 2: the value [-6] is installed
    as [-3], big-endian. *)
Example applyFixup_pc16dbl_minus6 :
  SystemZ.applyFixup false builtinInfos 0
    (mkFixup SystemZ.FK_390_PC16DBL 2 0) [0xa7; 0xf4; 0; 0] 0xfffffffffffffffa 0
  = Ok ([0xa7; 0xf4; 0xff; 0xfd], 0).
Proof. reflexivity. Qed.

(** A 16-bit field at offset 3 of a four-byte fragment is refused. *)
Example applyFixup_pc16dbl_refused :
  SystemZ.applyFixup false builtinInfos 164
    (mkFixup SystemZ.FK_390_PC16DBL 3 0) [0xa7; 0xf4; 0; 0] 0x10 0
  = Ok ([0xa7; 0xf4; 0; 0], 164).
Proof. reflexivity. Qed.


(** The value [0x1000] has a zero low part: applying it as
    [fixup_riscv_lo12_i] to [addi a0, a0, 0] changes no byte. *)
Lemma applyFixup_zero_unchanged_lo12 :
  RISCV.getFixupKindInfo false builtinInfos
      (getKind (mkFixup RISCV.fixup_riscv_lo12_i 0 0))
  = Ok (mkInfo "fixup_riscv_lo12_i" 20 12 0) /\
  0 <= 0x1000 < 2 ^ 64 /\
  0 <= getOffset (mkFixup RISCV.fixup_riscv_lo12_i 0 0) < 2 ^ 32 /\
  getOffset (mkFixup RISCV.fixup_riscv_lo12_i 0 0)
    + RISCV.getSize (getKind (mkFixup RISCV.fixup_riscv_lo12_i 0 0))
  <= size [0x13; 0x05; 0x05; 0x00] /\
  RISCV.adjustFixupValue (mkFixup RISCV.fixup_riscv_lo12_i 0 0) 0x1000 []
  = Ok (0, []) /\
  exists Ctx'',
    RISCV.applyFixup false builtinInfos (mkFixup RISCV.fixup_riscv_lo12_i 0 0)
      [0x13; 0x05; 0x05; 0x00] 0x1000 [] 0
    = Ok ([0x13; 0x05; 0x05; 0x00], Ctx'', 0).
Proof.
  pose (Fixup := mkFixup RISCV.fixup_riscv_lo12_i 0 0).
  assert (Hi : RISCV.getFixupKindInfo false builtinInfos (getKind Fixup)
               = Ok (mkInfo "fixup_riscv_lo12_i" 20 12 0)) by reflexivity.
  assert (Hv : 0 <= 0x1000 < 2 ^ 64) by lia.
  assert (Ho : 0 <= getOffset Fixup < 2 ^ 32) by (cbn; lia).
  assert (Hb : getOffset Fixup + RISCV.getSize (getKind Fixup)
               <= size [0x13; 0x05; 0x05; 0x00]) by (vm_compute; discriminate).
  assert (Ha : RISCV.adjustFixupValue Fixup 0x1000 [] = Ok (0, [])) by reflexivity.
  repeat (split; [assumption|]).
  exact (applyFixup_zero_unchanged false builtinInfos Fixup _
           [0x13; 0x05; 0x05; 0x00] 0x1000 [] [] 0 Hi Hv Ho Hb Ha).
Defined.

(** The value [-5], as a 64-bit pattern: halved toward zero it is [-2]. *)
Lemma extract_pcdbl_halves_minus5 :
  (SystemZ.FK_390_PC16DBL = SystemZ.FK_390_PC16DBL \/
   SystemZ.FK_390_PC16DBL = SystemZ.FK_390_PC32DBL) /\
  0 <= 0xfffffffffffffffb < 2 ^ 64 /\
  exists r,
    SystemZ.extractBitsForFixup SystemZ.FK_390_PC16DBL 0xfffffffffffffffb = Ok r /\
    0 <= r < 2 ^ 64 /\
    to_int64 r = Z.quot (to_int64 0xfffffffffffffffb) 2 /\
    Z.abs (to_int64 r) = Z.abs (to_int64 0xfffffffffffffffb) / 2 /\
    0 <= to_int64 r * to_int64 0xfffffffffffffffb.
Proof.
  assert (Hk : SystemZ.FK_390_PC16DBL = SystemZ.FK_390_PC16DBL \/
               SystemZ.FK_390_PC16DBL = SystemZ.FK_390_PC32DBL)
    by (left; reflexivity).
  assert (Hv : 0 <= 0xfffffffffffffffb < 2 ^ 64) by lia.
  repeat (split; [assumption|]).
  exact (extract_pcdbl_halves SystemZ.FK_390_PC16DBL 0xfffffffffffffffb Hk Hv).
Defined.

(** A [FK_390_TLS_CALL] fixup inside a six-byte instruction. *)
Lemma applyFixup_tls_call_unchanged_at_4 :
  getKind (mkFixup SystemZ.FK_390_TLS_CALL 4 0) = SystemZ.FK_390_TLS_CALL /\
  0 <= 0x1234 < 2 ^ 64 /\
  0 <= getOffset (mkFixup SystemZ.FK_390_TLS_CALL 4 0) < 2 ^ 32 /\
  getOffset (mkFixup SystemZ.FK_390_TLS_CALL 4 0) <= size [0xc0; 0xe5; 0; 0; 0; 0] /\
  SystemZ.applyFixup false builtinInfos 0
    (mkFixup SystemZ.FK_390_TLS_CALL 4 0) [0xc0; 0xe5; 0; 0; 0; 0] 0x1234 0
  = Ok ([0xc0; 0xe5; 0; 0; 0; 0], 0) /\
  SystemZ.extractBitsForFixup SystemZ.FK_390_TLS_CALL 0x1234 = Ok 0 /\
  SystemZ.getFixupKindInfo false builtinInfos SystemZ.FK_390_TLS_CALL
  = Ok (mkInfo "FK_390_TLS_CALL" 0 0 0).
Proof.
  pose (Fixup := mkFixup SystemZ.FK_390_TLS_CALL 4 0).
  assert (Hk : getKind Fixup = SystemZ.FK_390_TLS_CALL) by reflexivity.
  assert (Hv : 0 <= 0x1234 < 2 ^ 64) by lia.
  assert (Ho : 0 <= getOffset Fixup < 2 ^ 32) by (cbn; lia).
  assert (Hb : getOffset Fixup <= size [0xc0; 0xe5; 0; 0; 0; 0])
    by (vm_compute; discriminate).
  repeat (split; [assumption|]).
  exact (applyFixup_tls_call_unchanged false builtinInfos 0 Fixup
           [0xc0; 0xe5; 0; 0; 0; 0] 0x1234 0 Hk Hv Ho Hb).
Defined.

(** * Further properties of the two backends *)

(** ** Bits of the fields *)

Lemma testbit_ones' (n i : Z) :
  0 <= n -> Z.testbit (Z.ones n) i = (0 <=? i) && (i <? n).
Proof.
  intros Hn. destruct (Z.leb_spec 0 i), (Z.ltb_spec i n); cbn;
    rewrite ?Z.testbit_neg_r, ?Z.ones_spec_low, ?Z.ones_spec_high by lia;
    reflexivity.
Qed.

Lemma testbit_bits (V hi lo j : Z) :
  0 <= lo -> lo <= hi + 1 ->
  Z.testbit (bits V hi lo) j
  = (0 <=? j) && (j <? hi - lo + 1) && Z.testbit V (j + lo).
Proof.
  intros Hlo Hhi.
  pose proof (land_shiftr_ones V lo (hi - lo + 1) Hlo ltac:(lia)) as E.
  replace (lo + (hi - lo + 1) - 1) with hi in E by lia.
  rewrite <- E, Z.land_spec, testbit_ones' by lia.
  destruct (Z.leb_spec 0 j).
  - rewrite Z.shiftr_spec by lia. cbn. apply andb_comm.
  - rewrite Z.testbit_neg_r by lia. reflexivity.
Qed.

Lemma testbit_shiftl' (a n m : Z) :
  Z.testbit (Z.shiftl a n) m = (0 <=? m) && Z.testbit a (m - n).
Proof.
  destruct (Z.leb_spec 0 m).
  - rewrite Z.shiftl_spec by lia. reflexivity.
  - rewrite Z.testbit_neg_r by lia. reflexivity.
Qed.

Lemma testbit_shiftr' (a n m : Z) :
  Z.testbit (Z.shiftr a n) m = (0 <=? m) && Z.testbit a (m + n).
Proof.
  destruct (Z.leb_spec 0 m).
  - rewrite Z.shiftr_spec by lia. reflexivity.
  - rewrite Z.testbit_neg_r by lia. reflexivity.
Qed.

Lemma testbit_mod_pow2' (a n i : Z) :
  0 <= n -> Z.testbit (a mod 2 ^ n) i = (i <? n) && Z.testbit a i.
Proof.
  intros Hn. destruct (Z.ltb_spec i n).
  - rewrite Z.mod_pow2_bits_low by lia. reflexivity.
  - rewrite Z.mod_pow2_bits_high by lia. reflexivity.
Qed.

Lemma even_bit0 (V : Z) : Z.even V = true -> Z.testbit V 0 = false.
Proof. intros He; rewrite Z.bit0_odd, <- Z.negb_even, He; reflexivity. Qed.

(** Equations between bit fields are settled bit by bit: every side
    becomes a boolean formula over comparisons of the index, and the
    comparisons cut the index range into intervals. *)
Ltac to_bits :=
  repeat first [ rewrite Z.lor_spec | rewrite testbit_shiftl'
               | rewrite testbit_shiftr'
               | rewrite testbit_bits by lia
               | rewrite testbit_mod_pow2' by lia ].

Ltac split_cmp :=
  repeat match goal with
  | |- context [Z.ltb ?a ?b] => destruct (Z.ltb_spec a b); try (exfalso; lia)
  | |- context [Z.leb ?a ?b] => destruct (Z.leb_spec a b); try (exfalso; lia)
  end.

Ltac bool_norm :=
  cbn [andb orb negb];
  rewrite ?orb_false_r, ?andb_true_r, ?andb_false_r, ?orb_false_l;
  cbn [andb orb negb].

Ltac bitwise :=
  apply Z.bits_inj'; intros ?i ?Hi; to_bits; split_cmp; bool_norm;
  try reflexivity; try (f_equal; lia).

Lemma lor_range (a b n : Z) :
  0 <= n -> 0 <= a < 2 ^ n -> 0 <= b < 2 ^ n -> 0 <= Z.lor a b < 2 ^ n.
Proof.
  intros Hn Ha Hb.
  assert (Ea : a = a mod 2 ^ n) by (symmetry; apply Z.mod_small; assumption).
  assert (Eb : b = b mod 2 ^ n) by (symmetry; apply Z.mod_small; assumption).
  assert (E : Z.lor a b = Z.lor a b mod 2 ^ n).
  { rewrite Ea, Eb at 1. bitwise. }
  rewrite E. apply Z.mod_pos_bound, pow2_pos, Hn.
Qed.

Lemma bits_range_le (V hi lo N : Z) :
  lo <= hi + 1 -> hi - lo + 1 <= N -> 0 <= bits V hi lo < 2 ^ N.
Proof.
  intros H1 H2. pose proof (bits_range V hi lo H1).
  assert (2 ^ (hi - lo + 1) <= 2 ^ N) by (apply Z.pow_le_mono_r; lia). lia.
Qed.

Lemma shiftl_bits_range (V hi lo k N : Z) :
  lo <= hi + 1 -> 0 <= k -> hi - lo + 1 + k <= N ->
  0 <= Z.shiftl (bits V hi lo) k < 2 ^ N.
Proof.
  intros H1 Hk H2.
  pose proof (shiftl_range (bits V hi lo) k (hi - lo + 1) Hk ltac:(lia)
                (bits_range V hi lo H1)).
  assert (2 ^ (hi - lo + 1 + k) <= 2 ^ N) by (apply Z.pow_le_mono_r; lia). lia.
Qed.

Ltac field_range :=
  rewrite ?bit_bits by lia;
  repeat (apply lor_range; [lia| |]);
  first [ apply shiftl_bits_range; lia | apply bits_range_le; lia ].

(** ** Packing and unpacking *)

(** The unpack-after-pack equations are settled in two rounds: first
    the bits of the unpacked value, with the packed value kept closed,
    then the bits of the packed value in each interval of the index. *)
Ltac bits_step := to_bits; split_cmp; bool_norm; try reflexivity.

Ltac unpack_pack unpacked packed H0 :=
  match goal with
  | |- unpacked (packed ?V) = _ =>
      let P := fresh "P" in
      let i := fresh "i" in
      let Hi := fresh "Hi" in
      set (P := packed V); unfold unpacked; rewrite ?bit_bits by lia;
      apply Z.bits_inj'; intros i Hi; bits_step;
      subst P; unfold packed; rewrite ?bit_bits by lia; bits_step;
      try (f_equal; lia);
      try (replace i with 0 by lia; rewrite H0; reflexivity)
  end.

Lemma jal_unpack_pack (V : Z) :
  Z.even V = true -> jal_unpacked (jal_packed V) = V mod 2 ^ 21.
Proof.
  intros He. pose proof (even_bit0 V He) as H0.
  unpack_pack jal_unpacked jal_packed H0.
Qed.

Lemma branch_unpack_pack (V : Z) :
  Z.even V = true -> branch_unpacked (branch_packed V) = V mod 2 ^ 13.
Proof.
  intros He. pose proof (even_bit0 V He) as H0.
  unpack_pack branch_unpacked branch_packed H0.
Qed.

Lemma rvc_jump_unpack_pack (V : Z) :
  Z.even V = true -> rvc_jump_unpacked (rvc_jump_packed V) = V mod 2 ^ 12.
Proof.
  intros He. pose proof (even_bit0 V He) as H0.
  unpack_pack rvc_jump_unpacked rvc_jump_packed H0.
Qed.

Lemma rvc_branch_unpack_pack (V : Z) :
  Z.even V = true -> rvc_branch_unpacked (rvc_branch_packed V) = V mod 2 ^ 9.
Proof.
  intros He. pose proof (even_bit0 V He) as H0.
  unpack_pack rvc_branch_unpacked rvc_branch_packed H0.
Qed.

Lemma lo12_store_unpack_pack (V : Z) :
  lo12_store_unpacked (lo12_store V) = V mod 2 ^ 12.
Proof.
  assert (H0 : True) by exact I.
  unpack_pack lo12_store_unpacked lo12_store H0.
Qed.

(** A value that fits in [N] signed bits is recovered from its low [N]
    bits by sign extension. *)
Lemma sext_fits (N V : Z) :
  0 < N < 64 -> 0 <= V < 2 ^ 64 -> isInt N V = true ->
  sext N (V mod 2 ^ N) = to_int64 V.
Proof.
  intros HN HV Hfit. unfold isInt in Hfit.
  replace (64 <=? N) with false in Hfit by (symmetry; apply Z.leb_gt; lia).
  cbn [orb] in Hfit. apply andb_true_iff in Hfit as [Hlo Hhi].
  apply Z.leb_le in Hlo. apply Z.ltb_lt in Hhi.
  assert (E1 : 2 ^ N = 2 * 2 ^ (N - 1)).
  { replace N with (1 + (N - 1)) at 1 by lia.
    rewrite Z.pow_add_r by lia. reflexivity. }
  assert (E2 : 2 ^ 64 = 2 ^ N * 2 ^ (64 - N)).
  { rewrite <- Z.pow_add_r by lia. f_equal; lia. }
  pose proof (pow2_pos (N - 1) ltac:(lia)) as Hp.
  pose proof (pow2_pos (64 - N) ltac:(lia)) as Hq.
  unfold sext, to_int64 in *.
  destruct (Z.ltb_spec V (2 ^ 63)) as [Hs|Hs].
  - rewrite Z.mod_small by lia.
    destruct (Z.ltb_spec V (2 ^ (N - 1))); lia.
  - assert (E : V mod 2 ^ N = V - 2 ^ 64 + 2 ^ N).
    { symmetry. apply (Z.mod_unique_pos _ _ (2 ^ (64 - N) - 1)); [lia|].
      rewrite Z.mul_sub_distr_l, <- E2. lia. }
    rewrite E. destruct (Z.ltb_spec (V - 2 ^ 64 + 2 ^ N) (2 ^ (N - 1))); lia.
Qed.

(** ** More of the RISC-V value adjuster *)

Lemma land1_even_iff (V : Z) : (Z.land V 0x1 =? 0) = Z.even V.
Proof.
  destruct (Z.even V) eqn:He.
  - rewrite (land1_even V He); reflexivity.
  - rewrite (land1_odd V) by (rewrite <- Z.negb_even, He; reflexivity).
    reflexivity.
Qed.

Lemma app_cons_neq {A : Type} (l m : list A) (x : A) : l ++ x :: m <> l.
Proof.
  intros E. apply (f_equal (@length A)) in E.
  rewrite length_app in E. cbn in E. lia.
Qed.

Section AdjustMore.
Import RISCV.

Variables (Fixup : MCFixup) (Ctx : MCContext).

Lemma rvc_jump_value (V : Z) :
  getKind Fixup = fixup_riscv_rvc_jump ->
  adjustFixupValue Fixup V Ctx = Ok (rvc_jump_packed V, Ctx).
Proof.
  intros HK; unfold adjustFixupValue; rewrite HK; cbv zeta.
  do 2 f_equal. unfold rvc_jump_packed.
  rewrite (u32_field V 11 11 0x1), (u32_field V 4 4 0x1),
    (u32_field V 9 8 0x3), (u32_field V 10 10 0x1), (u32_field V 6 6 0x1),
    (u32_field V 7 7 0x1), (u32_field V 3 1 0x7), (u32_field V 5 5 0x1)
    by (reflexivity || lia).
  rewrite !bit_bits, !shl32_bits by lia. reflexivity.
Qed.

Lemma rvc_branch_value (V : Z) :
  getKind Fixup = fixup_riscv_rvc_branch ->
  adjustFixupValue Fixup V Ctx = Ok (rvc_branch_packed V, Ctx).
Proof.
  intros HK; unfold adjustFixupValue; rewrite HK; cbv zeta.
  do 2 f_equal. unfold rvc_branch_packed.
  rewrite (u32_field V 8 8 0x1), (u32_field V 7 6 0x3),
    (u32_field V 5 5 0x1), (u32_field V 4 3 0x3), (u32_field V 2 1 0x3)
    by (reflexivity || lia).
  rewrite !bit_bits, !shl32_bits by lia. reflexivity.
Qed.

Lemma hi20_value (V : Z) :
  getKind Fixup = fixup_riscv_hi20 \/ getKind Fixup = fixup_riscv_pcrel_hi20 ->
  adjustFixupValue Fixup V Ctx = Ok (bits (V + 0x800) 31 12, Ctx).
Proof.
  assert (E : Z.land (Z.shiftr (u64 (V + 0x800)) 12) 0xfffff
              = bits (V + 0x800) 31 12).
  { change 0xfffff with (Z.ones 20). rewrite land_shiftr_ones by lia.
    apply bits_u64; lia. }
  unfold adjustFixupValue; intros [-> | ->]; rewrite E; reflexivity.
Qed.

Lemma lo12_i_value (V : Z) :
  getKind Fixup = fixup_riscv_lo12_i ->
  adjustFixupValue Fixup V Ctx = Ok (V mod 2 ^ 12, Ctx).
Proof.
  unfold adjustFixupValue; intros ->.
  change 0xfff with (Z.ones 12); rewrite Z.land_ones by lia. reflexivity.
Qed.

Lemma lo12_s_value (V : Z) :
  getKind Fixup = fixup_riscv_lo12_s ->
  adjustFixupValue Fixup V Ctx = Ok (lo12_store V, Ctx).
Proof.
  unfold adjustFixupValue; intros ->. unfold lo12_store.
  rewrite (land_ones_bits V 0x1f 5) by (reflexivity || lia).
  change 0x7f with (Z.ones 7); rewrite land_shiftr_ones by lia.
  replace (5 + 7 - 1) with 11 by lia. replace (5 - 1) with 4 by lia.
  rewrite !u64_shiftl_bits by lia. reflexivity.
Qed.

(** The context a checked kind returns. *)
Lemma checked_context (V packed : Z) (Ctx' : MCContext) (N : Z) :
  signedWidth (getKind Fixup) = Some N ->
  adjustFixupValue Fixup V Ctx = Ok (packed, Ctx') ->
  Ctx' = Ctx
         ++ (if isInt N V then [] else [mkDiag (getLoc Fixup) RangeError])
         ++ (if Z.even V then [] else [mkDiag (getLoc Fixup) AlignmentError]).
Proof.
  intros HN; unfold adjustFixupValue.
  destruct (getKind Fixup) as [| | | |n|n]; try discriminate HN.
  destruct n as [|[|[|[|[|[|n]]]]]]; try discriminate HN;
    injection HN as <-; cbv zeta; rewrite land1_even_iff;
    intros [= _ <-]; destruct (isInt _ V), (Z.even V); cbn [negb];
    unfold reportError; rewrite <- ?app_assoc, ?app_nil_r; reflexivity.
Qed.

(** The jump offset is read back from the packed value: for an even
    value that fits in 21 signed bits, unpacking and sign-extending the
    packed value gives the value. *)
Theorem adjust_jal_decodes (V : Z) :
  getKind Fixup = fixup_riscv_jal ->
  0 <= V < 2 ^ 64 -> isInt 21 V = true -> Z.even V = true ->
  exists packed,
    adjustFixupValue Fixup V Ctx = Ok (packed, Ctx) /\
    sext 21 (jal_unpacked packed) = to_int64 V.
Proof.
  intros HK HV Hfit He. destruct (jal_value Fixup Ctx V HK) as [Ctx' E].
  assert (HN : signedWidth (getKind Fixup) = Some 21) by (rewrite HK; reflexivity).
  pose proof (checked_context V _ Ctx' 21 HN E) as EC.
  rewrite Hfit, He, !app_nil_r in EC. subst Ctx'.
  exists (jal_packed V). split; [exact E|].
  rewrite jal_unpack_pack by assumption. apply sext_fits; auto; lia.
Qed.

(** The same for the branch offset and its 13 signed bits. *)
Theorem adjust_branch_decodes (V : Z) :
  getKind Fixup = fixup_riscv_branch ->
  0 <= V < 2 ^ 64 -> isInt 13 V = true -> Z.even V = true ->
  exists packed,
    adjustFixupValue Fixup V Ctx = Ok (packed, Ctx) /\
    sext 13 (branch_unpacked packed) = to_int64 V.
Proof.
  intros HK HV Hfit He. destruct (branch_value Fixup Ctx V HK) as [Ctx' E].
  assert (HN : signedWidth (getKind Fixup) = Some 13) by (rewrite HK; reflexivity).
  pose proof (checked_context V _ Ctx' 13 HN E) as EC.
  rewrite Hfit, He, !app_nil_r in EC. subst Ctx'.
  exists (branch_packed V). split; [exact E|].
  rewrite branch_unpack_pack by assumption. apply sext_fits; auto; lia.
Qed.

(** The compressed jump: every value is packed as
    [offset[11|4|9:8|10|6|7|3:1|5]] without any diagnostic, and for an
    even value the 12 low bits are read back from the packed value. *)
Theorem adjust_rvc_jump_decodes (V : Z) :
  getKind Fixup = fixup_riscv_rvc_jump ->
  0 <= V < 2 ^ 64 ->
  adjustFixupValue Fixup V Ctx = Ok (rvc_jump_packed V, Ctx) /\
  (Z.even V = true -> rvc_jump_unpacked (rvc_jump_packed V) = V mod 2 ^ 12) /\
  (Z.even V = true -> isInt 12 V = true ->
   sext 12 (rvc_jump_unpacked (rvc_jump_packed V)) = to_int64 V).
Proof.
  intros HK HV. split; [apply rvc_jump_value, HK|].
  split; [apply rvc_jump_unpack_pack|].
  intros He Hfit. rewrite rvc_jump_unpack_pack by assumption.
  apply sext_fits; auto; lia.
Qed.

(** The compressed branch: every value is packed as
    [offset[8|4:3]], [offset[7:6|2:1|5]] without any diagnostic, and for
    an even value the 9 low bits are read back from the packed value. *)
Theorem adjust_rvc_branch_decodes (V : Z) :
  getKind Fixup = fixup_riscv_rvc_branch ->
  0 <= V < 2 ^ 64 ->
  adjustFixupValue Fixup V Ctx = Ok (rvc_branch_packed V, Ctx) /\
  (Z.even V = true -> rvc_branch_unpacked (rvc_branch_packed V) = V mod 2 ^ 9) /\
  (Z.even V = true -> isInt 9 V = true ->
   sext 9 (rvc_branch_unpacked (rvc_branch_packed V)) = to_int64 V).
Proof.
  intros HK HV. split; [apply rvc_branch_value, HK|].
  split; [apply rvc_branch_unpack_pack|].
  intros He Hfit. rewrite rvc_branch_unpack_pack by assumption.
  apply sext_fits; auto; lia.
Qed.

(** The context an unchecked kind returns. *)
Lemma unchecked_context (V packed : Z) (Ctx' : MCContext) :
  signedWidth (getKind Fixup) = None ->
  adjustFixupValue Fixup V Ctx = Ok (packed, Ctx') -> Ctx' = Ctx.
Proof.
  unfold adjustFixupValue; intros HN.
  destruct (getKind Fixup) as [| | | |n|n]; try discriminate;
    try (intros [= _ <-]; reflexivity).
  destruct n as [|[|[|[|[|[|[|[|n]]]]]]]]; try discriminate;
    try (intros [= _ <-]; reflexivity).
Qed.

(** Only the jump and the branch kind report: on every other kind the
    adjuster returns the context it was given, whatever the value. *)
Theorem adjust_silent (V packed : Z) (Ctx' : MCContext) :
  getKind Fixup <> fixup_riscv_jal -> getKind Fixup <> fixup_riscv_branch ->
  adjustFixupValue Fixup V Ctx = Ok (packed, Ctx') -> Ctx' = Ctx.
Proof.
  intros Hj Hb. apply unchecked_context.
  destruct (getKind Fixup) as [| | | |n|n]; try reflexivity.
  destruct n as [|[|[|[|[|[|n]]]]]]; try reflexivity; congruence.
Qed.

(** On the two checked kinds the adjuster reports nothing exactly when
    the value fits the signed width and is even. *)
Theorem adjust_quiet_iff (N V : Z) :
  signedWidth (getKind Fixup) = Some N ->
  exists packed Ctx',
    adjustFixupValue Fixup V Ctx = Ok (packed, Ctx') /\
    (Ctx' = Ctx <-> isInt N V = true /\ Z.even V = true).
Proof.
  intros HN.
  assert (exists packed Ctx', adjustFixupValue Fixup V Ctx = Ok (packed, Ctx'))
    as (packed & Ctx' & E).
  { unfold signedWidth in HN.
    destruct (getKind Fixup) as [| | | |n|n] eqn:HK; try discriminate HN.
    destruct n as [|[|[|[|[|[|n]]]]]]; try discriminate HN.
    - destruct (jal_value Fixup Ctx V HK); eauto.
    - destruct (branch_value Fixup Ctx V HK); eauto. }
  exists packed, Ctx'. split; [exact E|].
  rewrite (checked_context V packed Ctx' N HN E).
  destruct (isInt N V), (Z.even V); cbn [app]; rewrite ?app_nil_r;
    split; try (intros [? ?]; discriminate); try tauto;
    intros Habs; exfalso; revert Habs; apply app_cons_neq.
Qed.

(** The adjuster only ever appends to the context: at most two
    diagnostics, each at the location of the fixup. *)
Theorem adjust_extends_context (V packed : Z) (Ctx' : MCContext) :
  adjustFixupValue Fixup V Ctx = Ok (packed, Ctx') ->
  exists added,
    Ctx' = Ctx ++ added /\ (length added <= 2)%nat /\
    Forall (fun d => diagLoc d = getLoc Fixup) added.
Proof.
  intros E. destruct (signedWidth (getKind Fixup)) as [N|] eqn:HN.
  - rewrite (checked_context V packed Ctx' N HN E).
    eexists; split; [reflexivity|].
    destruct (isInt N V), (Z.even V); cbn; repeat constructor.
  - exists []. rewrite app_nil_r. split; [|split; [cbn; lia|constructor]].
    exact (unchecked_context V packed Ctx' HN E).
Qed.

End AdjustMore.

(** Rounding the high part up when bit 11 is set makes up for the low
    part being read as a negative number. *)
Lemma hi_lo_sum (V : Z) :
  (bits (V + 0x800) 31 12 * 2 ^ 12 + sext 12 (V mod 2 ^ 12)) mod 2 ^ 32
  = V mod 2 ^ 32.
Proof.
  unfold bits, sext.
  change (31 - 12 + 1) with 20; change (12 - 1) with 11.
  change (2 ^ 12) with 4096; change (2 ^ 11) with 2048;
    change (2 ^ 20) with 1048576; change (2 ^ 32) with 4294967296;
    change 0x800 with 2048.
  destruct (Z.ltb_spec (V mod 4096) 2048); Z.div_mod_to_equations; lia.
Qed.

Section HiLo.
Import RISCV.

Variables (FixupHi FixupLo FixupStore : MCFixup) (Ctx : MCContext).

(** The two halves of an address recombine: the adjusted high part,
    shifted back to bit 12, plus the adjusted low part read as a signed
    12-bit number, is the value modulo [2 ^ 32]. *)
Theorem adjust_hi_lo_recombine (V : Z) :
  getKind FixupHi = fixup_riscv_hi20 \/ getKind FixupHi = fixup_riscv_pcrel_hi20 ->
  getKind FixupLo = fixup_riscv_lo12_i ->
  0 <= V < 2 ^ 64 ->
  exists hi lo,
    adjustFixupValue FixupHi V Ctx = Ok (hi, Ctx) /\
    adjustFixupValue FixupLo V Ctx = Ok (lo, Ctx) /\
    (hi * 2 ^ 12 + sext 12 lo) mod 2 ^ 32 = V mod 2 ^ 32.
Proof.
  intros Hhi Hlo _.
  exists (bits (V + 0x800) 31 12), (V mod 2 ^ 12).
  split; [apply hi20_value, Hhi|].
  split; [apply lo12_i_value, Hlo|]. apply hi_lo_sum.
Qed.

(** The store form carries the same twelve bits as the load form:
    putting the two sub-fields of the store immediate back together
    gives the value adjusted for [fixup_riscv_lo12_i]. *)
Theorem adjust_lo12_forms_agree (V : Z) :
  getKind FixupStore = fixup_riscv_lo12_s ->
  getKind FixupLo = fixup_riscv_lo12_i ->
  0 <= V < 2 ^ 64 ->
  exists store lo,
    adjustFixupValue FixupStore V Ctx = Ok (store, Ctx) /\
    adjustFixupValue FixupLo V Ctx = Ok (lo, Ctx) /\
    lo12_store_unpacked store = lo.
Proof.
  intros Hs Hlo _.
  exists (lo12_store V), (V mod 2 ^ 12).
  split; [apply lo12_s_value, Hs|].
  split; [apply lo12_i_value, Hlo|]. apply lo12_store_unpack_pack.
Qed.

End HiLo.

(** ** Bytes and words of a buffer *)

Lemma byte_at_range (v j : Z) : 0 <= byte_at v j < 2 ^ 8.
Proof.
  unfold byte_at. pose proof (bits_range v (8 * j + 7) (8 * j) ltac:(lia)) as H.
  replace (8 * j + 7 - 8 * j + 1) with 8 in H by lia. exact H.
Qed.

Lemma byte_at_0 (j : Z) : byte_at 0 j = 0.
Proof. unfold byte_at, bits. rewrite Zdiv_0_l, Zmod_0_l; reflexivity. Qed.

Lemma byte_at_succ (v j : Z) :
  0 <= j -> byte_at v (j + 1) = byte_at (Z.shiftr v 8) j.
Proof.
  intros Hj. unfold byte_at. apply Z.bits_inj'; intros i Hi.
  to_bits. split_cmp; bool_norm; try reflexivity; f_equal; lia.
Qed.

(** The source's [uint8_t((Value >> (i * 8)) & 0xff)]. *)
Lemma mask_byte (Value i : Z) :
  0 <= i -> u8 (Z.land (Z.shiftr Value (i * 8)) 0xff) = byte_at Value i.
Proof.
  intros Hi. change 0xff with (Z.ones 8). rewrite land_shiftr_ones by lia.
  replace (i * 8 + 8 - 1) with (8 * i + 7) by lia.
  replace (i * 8) with (8 * i) by lia.
  apply Z.mod_small, byte_at_range.
Qed.

(** The source's [uint8_t(Value >> ShiftValue)] at a whole byte. *)
Lemma shift_byte (Value j : Z) :
  0 <= j -> u8 (Z.shiftr Value (8 * j)) = byte_at Value j.
Proof.
  intros Hj. unfold u8, byte_at, bits.
  rewrite Z.shiftr_div_pow2 by lia. do 2 f_equal. lia.
Qed.

Lemma field_lookup (Data : list Z) (Offset n j : nat) :
  (j < n)%nat -> field Data Offset n !! j = Data !! (Offset + j)%nat.
Proof. intros Hj. unfold field. rewrite lookup_take_lt, lookup_drop; auto. Qed.

Lemma field_length (Data : list Z) (Offset n : nat) :
  (Offset + n <= length Data)%nat -> length (field Data Offset n) = n.
Proof. intros H. unfold field. rewrite length_take_le; [auto|rewrite length_drop; lia]. Qed.

(** Or-ing the bytes of [v] into a little-endian field or-s the low
    bits of [v] into the number the field holds. *)
Lemma le_word_merge (l : list Z) :
  forall (l' : list Z) (v : Z),
    length l' = length l ->
    (forall (j : nat) b, l !! j = Some b ->
       l' !! j = Some (Z.lor b (byte_at v (Z.of_nat j)))) ->
    le_word l' = Z.lor (le_word l) (v mod 2 ^ (8 * Z.of_nat (length l))).
Proof.
  induction l as [|b t IH]; intros l' v Hlen Hpt.
  - destruct l'; [|discriminate]. cbn. rewrite Z.mod_1_r. reflexivity.
  - destruct l' as [|b' t']; [discriminate|].
    pose proof (Hpt 0%nat b eq_refl) as H0. cbn in H0. injection H0 as ->.
    assert (Ht : le_word t'
                 = Z.lor (le_word t) (Z.shiftr v 8 mod 2 ^ (8 * Z.of_nat (length t)))).
    { apply IH; [cbn in Hlen; lia|].
      intros j c Hc. pose proof (Hpt (S j) c Hc) as H'.
      change (t' !! j = Some (Z.lor c (byte_at v (Z.of_nat (S j))))) in H'.
      rewrite H'. do 2 f_equal.
      rewrite Nat2Z.inj_succ, <- Z.add_1_r. apply byte_at_succ; lia. }
    cbn [le_word length]. rewrite Ht. unfold byte_at.
    set (m := 8 * Z.of_nat (length t)).
    replace (8 * Z.of_nat (S (length t))) with (m + 8) by lia.
    assert (0 <= m) by lia. clearbody m. generalize (le_word t); intros W.
    change (Z.of_nat 0) with 0. rewrite Z.mul_0_r, Z.add_0_l.
    apply Z.bits_inj'; intros i Hi. to_bits. split_cmp; bool_norm;
      rewrite ?Z.add_0_r, ?(Z.testbit_neg_r W) by lia;
      replace (i - 8 + 8) with i by lia;
      repeat match goal with
             | |- context [Z.testbit ?a ?j] => destruct (Z.testbit a j)
             end; reflexivity.
Qed.

(** ** More of the RISC-V applier *)

Lemma getSize_cases (Kind : MCFixupKind) :
  RISCV.getSize Kind = 2 \/ RISCV.getSize Kind = 4.
Proof.
  destruct Kind as [| | | |n|n]; try (right; reflexivity).
  destruct n as [|[|[|[|[|[|[|[|n]]]]]]]]; cbn; auto.
Qed.

(** The loop or-s byte [k - Offset] of the value into every byte [k] of
    the field, and touches no other byte. *)
Lemma maskBytes_spec (n : nat) :
  forall (i Offset Value : Z) (Data : list Z),
    0 <= Offset -> 0 <= i ->
    Offset + i + Z.of_nat n <= size Data -> Offset + i + Z.of_nat n <= 2 ^ 32 ->
    exists Data',
      RISCV.maskBytes n i Offset Value Data = Ok Data' /\
      length Data' = length Data /\
      forall (k : nat) b, Data !! k = Some b ->
        Data' !! k
        = Some (if bool_decide (Offset + i <= Z.of_nat k < Offset + i + Z.of_nat n)
                then Z.lor b (byte_at Value (Z.of_nat k - Offset)) else b).
Proof.
  induction n as [|n IH]; intros i Offset Value Data HO Hi Hfit Hwrap.
  - exists Data. split; [reflexivity|]. split; [reflexivity|].
    intros k b Hk. rewrite bool_decide_eq_false_2 by lia. exact Hk.
  - cbn [RISCV.maskBytes]. rewrite mask_byte, u32_small by lia. unfold or_byte.
    destruct (lookup_lt_is_Some_2 Data (Z.to_nat (Offset + i))) as [b0 Hb0];
      [unfold size in Hfit; lia|].
    rewrite Hb0; cbn [mbind Result_bind].
    set (Data1 := <[Z.to_nat (Offset + i) := Z.lor b0 (byte_at Value i)]> Data).
    assert (Hlen1 : length Data1 = length Data) by apply length_insert.
    destruct (IH (i + 1) Offset Value Data1) as (Data' & E & Hlen & Hpt);
      try (unfold size in *; lia).
    exists Data'. split; [exact E|]. split; [congruence|].
    intros k b Hk.
    destruct (decide (k = Z.to_nat (Offset + i))) as [->|Hne].
    + assert (b = b0) by congruence; subst b.
      rewrite (Hpt _ (Z.lor b0 (byte_at Value i)))
        by (apply list_lookup_insert_eq; eapply lookup_lt_Some; eauto).
      rewrite bool_decide_eq_false_2, bool_decide_eq_true_2 by lia.
      do 3 f_equal. lia.
    + rewrite (Hpt k b) by (unfold Data1; rewrite list_lookup_insert_ne; auto).
      f_equal. repeat case_bool_decide; try lia; reflexivity.
Qed.

(** Or-ing a value of [size] bits in at bit [off] or-s it into the
    field and leaves every bit outside the field alone. *)
Lemma field_of_lor (w p off size : Z) :
  0 <= off -> 0 <= size -> 0 <= p < 2 ^ size ->
  bits (Z.lor w (Z.shiftl p off)) (off + size - 1) off
  = Z.lor (bits w (off + size - 1) off) p.
Proof.
  intros Hoff Hsize Hp. rewrite <- (Z.mod_small p (2 ^ size) Hp).
  generalize p; intros q.
  apply Z.bits_inj'; intros i Hi. to_bits. split_cmp; bool_norm;
    try reflexivity; do 2 f_equal; lia.
Qed.

Lemma outside_of_lor (w p off size j : Z) :
  0 <= off -> 0 <= size -> 0 <= p < 2 ^ size ->
  j < off \/ off + size <= j ->
  Z.testbit (Z.lor w (Z.shiftl p off)) j = Z.testbit w j.
Proof.
  intros Hoff Hsize Hp Hj. rewrite <- (Z.mod_small p (2 ^ size) Hp).
  generalize p; intros q.
  to_bits. split_cmp; bool_norm; rewrite ?(Z.testbit_neg_r q) by lia;
    bool_norm; reflexivity.
Qed.

Lemma lor_shiftl_range (p off size N : Z) :
  0 <= off -> 0 <= size -> off + size <= N -> 0 <= p < 2 ^ size ->
  0 <= Z.shiftl p off < 2 ^ N.
Proof.
  intros Hoff Hsize HN Hp.
  pose proof (shiftl_range p off size Hoff Hsize Hp).
  assert (2 ^ (size + off) <= 2 ^ N) by (apply Z.pow_le_mono_r; lia). lia.
Qed.

Section ApplyMore.
Import RISCV.

Variable NDEBUG : bool.
Variable MCAsmBackend_getFixupKindInfo : MCFixupKind -> Result MCFixupKindInfo.

Local Abbreviation riscv_getFixupKindInfo :=
  (RISCV.getFixupKindInfo NDEBUG MCAsmBackend_getFixupKindInfo).
Local Abbreviation riscv_applyFixup :=
  (RISCV.applyFixup NDEBUG MCAsmBackend_getFixupKindInfo).

(** The zero value is adjusted to zero, silently, on every kind. *)
Lemma adjust_zero (Fixup : MCFixup) (packed : Z) (Ctx Ctx' : MCContext) :
  adjustFixupValue Fixup 0 Ctx = Ok (packed, Ctx') -> packed = 0 /\ Ctx' = Ctx.
Proof.
  destruct Fixup as [K O L]. unfold adjustFixupValue. cbn [getKind].
  destruct K as [| | | |n|n]; try discriminate;
    try (intros [= <- <-]; split; reflexivity).
  destruct n as [|[|[|[|[|[|[|[|n]]]]]]]]; try discriminate;
    intros E; vm_compute in E; injection E as <- <-; split; reflexivity.
Qed.

(** Every field of the table of kinds lies inside the bytes that
    [getSize] gives to the kind. *)
Lemma target_field_in_word (n : nat) (Info : MCFixupKindInfo) :
  riscv_getFixupKindInfo (FK_Target n) = Ok Info ->
  0 <= TargetOffset Info /\ 0 <= TargetSize Info /\
  TargetOffset Info + TargetSize Info <= 8 * getSize (FK_Target n).
Proof.
  unfold RISCV.getFixupKindInfo.
  destruct n as [|[|[|[|[|[|[|[|n]]]]]]]];
    destruct NDEBUG; cbn [lookup list_lookup Infos mbind Result_bind];
    try discriminate;
    intros [= <-]; vm_compute; intuition discriminate.
Qed.

(** The adjusted value of a target kind fits the width of its field. *)
Lemma packed_range (Fixup : MCFixup) (n : nat) (Info : MCFixupKindInfo)
    (V packed : Z) (Ctx Ctx' : MCContext) :
  getKind Fixup = FK_Target n ->
  riscv_getFixupKindInfo (FK_Target n) = Ok Info ->
  adjustFixupValue Fixup V Ctx = Ok (packed, Ctx') ->
  0 <= packed < 2 ^ TargetSize Info.
Proof.
  intros HK HInfo. unfold RISCV.getFixupKindInfo in HInfo.
  destruct n as [|[|[|[|[|[|[|[|n]]]]]]]];
    destruct NDEBUG; cbn [lookup list_lookup Infos mbind Result_bind] in HInfo;
    try discriminate HInfo; injection HInfo as <-; cbn [TargetSize].
  1,2,7,8: rewrite (hi20_value Fixup Ctx V) by auto; intros [= <- _];
    apply bits_range_le; lia.
  1,2: rewrite (lo12_i_value Fixup Ctx V HK); intros [= <- _];
    apply Z.mod_pos_bound; lia.
  1,2: rewrite (lo12_s_value Fixup Ctx V HK); intros [= <- _];
    unfold lo12_store; field_range.
  1,2: destruct (jal_value Fixup Ctx V HK) as [c ->]; intros [= <- _];
    unfold jal_packed; field_range.
  1,2: destruct (branch_value Fixup Ctx V HK) as [c ->]; intros [= <- _];
    unfold branch_packed; field_range.
  1,2: rewrite (rvc_jump_value Fixup Ctx V HK); intros [= <- _];
    unfold rvc_jump_packed; field_range.
  1,2: rewrite (rvc_branch_value Fixup Ctx V HK); intros [= <- _];
    unfold rvc_branch_packed; field_range.
Qed.

(** Whatever the value, what the adjuster returns for a target kind
    fits in the [TargetSize] bits the table declares for the kind. *)
Theorem adjust_fits_field (Fixup : MCFixup) (Info : MCFixupKindInfo)
    (V : Z) (Ctx : MCContext) :
  belowFirstTargetFixupKind (getKind Fixup) = false ->
  riscv_getFixupKindInfo (getKind Fixup) = Ok Info ->
  0 <= V < 2 ^ 64 ->
  exists packed Ctx',
    adjustFixupValue Fixup V Ctx = Ok (packed, Ctx') /\
    0 <= packed < 2 ^ TargetSize Info.
Proof.
  intros HB HInfo _.
  destruct (getKind Fixup) as [| | | |n|n] eqn:HK; try discriminate HB.
  assert (exists packed Ctx', adjustFixupValue Fixup V Ctx = Ok (packed, Ctx'))
    as (packed & Ctx' & E).
  { unfold RISCV.getFixupKindInfo in HInfo. unfold adjustFixupValue. rewrite HK.
    destruct n as [|[|[|[|[|[|[|[|n]]]]]]]]; eauto.
    destruct NDEBUG; discriminate HInfo. }
  exists packed, Ctx'. split; [exact E|].
  exact (packed_range Fixup n Info V packed Ctx Ctx' HK HInfo E).
Qed.

(** The bytes of the buffer after [applyFixup]. *)
Lemma applyFixup_bytes (Fixup : MCFixup) (Info : MCFixupKindInfo)
    (Data : list Z) (Value packed : Z) (Ctx Ctx' : MCContext) (KsError : Z) :
  riscv_getFixupKindInfo (getKind Fixup) = Ok Info ->
  adjustFixupValue Fixup Value Ctx = Ok (packed, Ctx') ->
  0 <= TargetOffset Info < 64 ->
  0 <= getOffset Fixup ->
  getOffset Fixup + getSize (getKind Fixup) <= size Data ->
  getOffset Fixup + getSize (getKind Fixup) <= 2 ^ 32 ->
  (NDEBUG = false ->
   u32 (getOffset Fixup + u32 (TargetSize Info + 7) / 8) <= size Data) ->
  exists Data',
    riscv_applyFixup Fixup Data Value Ctx KsError = Ok (Data', Ctx', KsError) /\
    length Data' = length Data /\
    forall (k : nat) b, Data !! k = Some b ->
      Data' !! k
      = Some (if bool_decide (getOffset Fixup <= Z.of_nat k
                              < getOffset Fixup + getSize (getKind Fixup))
              then Z.lor b (byte_at (u64 (Z.shiftl packed (TargetOffset Info)))
                                    (Z.of_nat k - getOffset Fixup))
              else b).
Proof.
  intros HInfo Hadj HTO HO Hfit Hwrap Hassert. unfold RISCV.applyFixup.
  rewrite HInfo; cbn [mbind Result_bind].
  destruct (Z.eqb_spec Value 0) as [->|HV].
  - destruct (adjust_zero Fixup packed Ctx Ctx' Hadj) as [-> ->].
    exists Data. split; [reflexivity|]. split; [reflexivity|].
    intros k b Hk. rewrite Hk, Z.shiftl_0_l. change (u64 0) with 0.
    rewrite byte_at_0, Z.lor_0_r. destruct (bool_decide _); reflexivity.
  - rewrite Hadj; cbn [mbind Result_bind]. unfold shl64.
    replace (TargetOffset Info <? 64) with true
      by (symmetry; apply Z.ltb_lt; lia).
    cbn [mbind Result_bind].
    assert (Has : (if NDEBUG then Ok tt
                   else assert (u32 (getOffset Fixup + u32 (TargetSize Info + 7) / 8)
                                <=? size Data) "Invalid fixup offset!") = Ok tt).
    { destruct NDEBUG; [reflexivity|]. unfold assert.
      replace (_ <=? _) with true by (symmetry; apply Z.leb_le; auto).
      reflexivity. }
    rewrite Has; cbn [mbind Result_bind].
    assert (0 <= getSize (getKind Fixup))
      by (destruct (getSize_cases (getKind Fixup)); lia).
    destruct (maskBytes_spec (Z.to_nat (getSize (getKind Fixup))) 0
                (getOffset Fixup) (u64 (Z.shiftl packed (TargetOffset Info))) Data)
      as (Data' & E & Hlen & Hpt); try lia.
    rewrite E; cbn [mbind Result_bind].
    exists Data'. split; [reflexivity|]. split; [exact Hlen|].
    intros k b Hk. rewrite (Hpt k b Hk). f_equal.
    rewrite Z.add_0_r, Z2Nat.id by lia. reflexivity.
Qed.

(** What [applyFixup] does on any registered kind whose field lies in
    the buffer: it returns with the context of the adjuster, keeps the
    length of the buffer, or-s byte [k - Offset] of the shifted value
    into each byte [k] of the field, least significant byte first, and
    changes no byte outside the field. The diagnostics of the adjuster
    do not stop the bytes from being merged. *)
Theorem applyFixup_merges_bytes (Fixup : MCFixup) (Info : MCFixupKindInfo)
    (Data : list Z) (Value packed : Z) (Ctx Ctx' : MCContext) (KsError : Z) :
  riscv_getFixupKindInfo (getKind Fixup) = Ok Info ->
  adjustFixupValue Fixup Value Ctx = Ok (packed, Ctx') ->
  0 <= TargetOffset Info < 64 ->
  0 <= getOffset Fixup ->
  getOffset Fixup + getSize (getKind Fixup) <= size Data ->
  getOffset Fixup + getSize (getKind Fixup) <= 2 ^ 32 ->
  (NDEBUG = false ->
   u32 (getOffset Fixup + u32 (TargetSize Info + 7) / 8) <= size Data) ->
  exists Data',
    riscv_applyFixup Fixup Data Value Ctx KsError = Ok (Data', Ctx', KsError) /\
    length Data' = length Data /\
    forall (k : nat) b, Data !! k = Some b ->
      Data' !! k
      = Some (if bool_decide (getOffset Fixup <= Z.of_nat k
                              < getOffset Fixup + getSize (getKind Fixup))
              then Z.lor b (byte_at (u64 (Z.shiftl packed (TargetOffset Info)))
                                    (Z.of_nat k - getOffset Fixup))
              else b).
Proof. apply applyFixup_bytes. Qed.

(** On a target kind the instruction word of the field, read
    little-endian, is or-ed with the adjusted value at the bit offset of
    the kind. *)
Lemma applyFixup_word (Fixup : MCFixup) (n : nat) (Info : MCFixupKindInfo)
    (Data : list Z) (Value packed : Z) (Ctx Ctx' : MCContext) (KsError : Z) :
  getKind Fixup = FK_Target n ->
  riscv_getFixupKindInfo (getKind Fixup) = Ok Info ->
  adjustFixupValue Fixup Value Ctx = Ok (packed, Ctx') ->
  0 <= getOffset Fixup ->
  getOffset Fixup + getSize (getKind Fixup) <= size Data ->
  getOffset Fixup + getSize (getKind Fixup) <= 2 ^ 32 ->
  exists Data',
    riscv_applyFixup Fixup Data Value Ctx KsError = Ok (Data', Ctx', KsError) /\
    length Data' = length Data /\
    (forall k : nat,
       ~ (getOffset Fixup <= Z.of_nat k < getOffset Fixup + getSize (getKind Fixup)) ->
       Data' !! k = Data !! k) /\
    le_word (field Data' (Z.to_nat (getOffset Fixup))
               (Z.to_nat (getSize (getKind Fixup))))
    = Z.lor (le_word (field Data (Z.to_nat (getOffset Fixup))
                        (Z.to_nat (getSize (getKind Fixup)))))
            (Z.shiftl packed (TargetOffset Info)).
Proof.
  intros HK HInfo Hadj HO Hfit Hwrap.
  assert (HInfo' := HInfo). rewrite HK in HInfo'.
  destruct (target_info_bounds NDEBUG MCAsmBackend_getFixupKindInfo n Info HInfo')
    as [HTO HNB].
  destruct (target_field_in_word n Info HInfo') as (Hoff & Hsz & Hin).
  pose proof (packed_range Fixup n Info Value packed Ctx Ctx' HK HInfo' Hadj) as Hp.
  rewrite <- HK in HNB, Hin.
  set (Size := getSize (getKind Fixup)) in *.
  assert (HS : Size = 2 \/ Size = 4) by apply getSize_cases.
  destruct (applyFixup_bytes Fixup Info Data Value packed Ctx Ctx' KsError)
    as (Data' & E & Hlen & Hpt); auto.
  { intros _. pose proof (u32_le (getOffset Fixup + u32 (TargetSize Info + 7) / 8)
                            ltac:(lia)). lia. }
  exists Data'. split; [exact E|]. split; [exact Hlen|]. split.
  - intros k Hk. destruct (Data !! k) as [b|] eqn:Hb.
    + rewrite (Hpt k b Hb), bool_decide_eq_false_2 by exact Hk. reflexivity.
    + apply lookup_ge_None. apply lookup_ge_None in Hb. lia.
  - assert (Hsh : 0 <= Z.shiftl packed (TargetOffset Info) < 2 ^ (8 * Size))
      by (apply (lor_shiftl_range _ _ (TargetSize Info)); auto; lia).
    assert (2 ^ (8 * Size) <= 2 ^ 64) by (apply Z.pow_le_mono_r; lia).
    rewrite u64_small in Hpt by lia.
    unfold size in Hfit.
    rewrite (le_word_merge (field Data (Z.to_nat (getOffset Fixup)) (Z.to_nat Size))
               (field Data' (Z.to_nat (getOffset Fixup)) (Z.to_nat Size))
               (Z.shiftl packed (TargetOffset Info))).
    + rewrite field_length by lia. rewrite Z2Nat.id by lia.
      rewrite (Z.mod_small _ _ Hsh). reflexivity.
    + rewrite !field_length by lia. reflexivity.
    + intros j b Hj.
      assert (Hjn : (j < Z.to_nat Size)%nat).
      { apply lookup_lt_Some in Hj. rewrite field_length in Hj by lia. exact Hj. }
      rewrite field_lookup in Hj |- * by exact Hjn.
      rewrite (Hpt _ b Hj), bool_decide_eq_true_2 by lia.
      do 3 f_equal. lia.
Qed.

(** The field of a target kind reads back what was put in: after
    [applyFixup] the instruction word is the old word or-ed with the
    adjusted value at the bit offset of the kind, so the [TargetSize]
    bits at [TargetOffset] hold the old field or-ed with the adjusted
    value, and the adjusted value itself when the field was zero. *)
Theorem applyFixup_field_readback (Fixup : MCFixup) (Info : MCFixupKindInfo)
    (Data : list Z) (Value packed : Z) (Ctx Ctx' : MCContext) (KsError : Z) :
  belowFirstTargetFixupKind (getKind Fixup) = false ->
  riscv_getFixupKindInfo (getKind Fixup) = Ok Info ->
  adjustFixupValue Fixup Value Ctx = Ok (packed, Ctx') ->
  0 <= getOffset Fixup ->
  getOffset Fixup + getSize (getKind Fixup) <= size Data ->
  getOffset Fixup + getSize (getKind Fixup) <= 2 ^ 32 ->
  exists Data',
    riscv_applyFixup Fixup Data Value Ctx KsError = Ok (Data', Ctx', KsError) /\
    let word D := le_word (field D (Z.to_nat (getOffset Fixup))
                             (Z.to_nat (getSize (getKind Fixup)))) in
    let hi := TargetOffset Info + TargetSize Info - 1 in
    word Data' = Z.lor (word Data) (Z.shiftl packed (TargetOffset Info)) /\
    bits (word Data') hi (TargetOffset Info)
    = Z.lor (bits (word Data) hi (TargetOffset Info)) packed /\
    (bits (word Data) hi (TargetOffset Info) = 0 ->
     bits (word Data') hi (TargetOffset Info) = packed).
Proof.
  intros HB HInfo Hadj HO Hfit Hwrap.
  destruct (getKind Fixup) as [| | | |n|n] eqn:HK; try discriminate HB.
  rewrite <- HK in *.
  destruct (applyFixup_word Fixup n Info Data Value packed Ctx Ctx' KsError)
    as (Data' & E & _ & _ & Hw); auto.
  exists Data'. split; [exact E|]. cbv beta zeta.
  rewrite HK in HInfo.
  destruct (target_field_in_word n Info HInfo) as (Hoff & Hsz & _).
  pose proof (packed_range Fixup n Info Value packed Ctx Ctx' HK HInfo Hadj) as Hp.
  assert (Hf : bits (le_word (field Data' (Z.to_nat (getOffset Fixup))
                                (Z.to_nat (getSize (getKind Fixup)))))
                 (TargetOffset Info + TargetSize Info - 1) (TargetOffset Info)
               = Z.lor (bits (le_word (field Data (Z.to_nat (getOffset Fixup))
                                         (Z.to_nat (getSize (getKind Fixup)))))
                          (TargetOffset Info + TargetSize Info - 1)
                          (TargetOffset Info)) packed)
    by (rewrite Hw; apply field_of_lor; auto).
  split; [exact Hw|]. split; [exact Hf|].
  intros Hz. rewrite Hf, Hz. apply Z.lor_0_l.
Qed.

(** [applyFixup] on a target kind stays inside the field: the length
    of the buffer, every byte outside the bytes of the field, and every
    bit of the instruction word below [TargetOffset] or from
    [TargetOffset + TargetSize] on are as before. *)
Theorem applyFixup_keeps_other_bits (Fixup : MCFixup) (Info : MCFixupKindInfo)
    (Data : list Z) (Value packed : Z) (Ctx Ctx' : MCContext) (KsError : Z) :
  belowFirstTargetFixupKind (getKind Fixup) = false ->
  riscv_getFixupKindInfo (getKind Fixup) = Ok Info ->
  adjustFixupValue Fixup Value Ctx = Ok (packed, Ctx') ->
  0 <= getOffset Fixup ->
  getOffset Fixup + getSize (getKind Fixup) <= size Data ->
  getOffset Fixup + getSize (getKind Fixup) <= 2 ^ 32 ->
  exists Data',
    riscv_applyFixup Fixup Data Value Ctx KsError = Ok (Data', Ctx', KsError) /\
    length Data' = length Data /\
    (forall k : nat,
       ~ (getOffset Fixup <= Z.of_nat k < getOffset Fixup + getSize (getKind Fixup)) ->
       Data' !! k = Data !! k) /\
    let word D := le_word (field D (Z.to_nat (getOffset Fixup))
                             (Z.to_nat (getSize (getKind Fixup)))) in
    forall j : Z,
      j < TargetOffset Info \/ TargetOffset Info + TargetSize Info <= j ->
      Z.testbit (word Data') j = Z.testbit (word Data) j.
Proof.
  intros HB HInfo Hadj HO Hfit Hwrap.
  destruct (getKind Fixup) as [| | | |n|n] eqn:HK; try discriminate HB.
  rewrite <- HK in *.
  destruct (applyFixup_word Fixup n Info Data Value packed Ctx Ctx' KsError)
    as (Data' & E & Hlen & Hout & Hw); auto.
  exists Data'. split; [exact E|]. split; [exact Hlen|]. split; [exact Hout|].
  cbv beta zeta. intros j Hj. rewrite Hw.
  rewrite HK in HInfo.
  destruct (target_field_in_word n Info HInfo) as (Hoff & Hsz & _).
  pose proof (packed_range Fixup n Info Value packed Ctx Ctx' HK HInfo Hadj) as Hp.
  apply (outside_of_lor _ _ _ (TargetSize Info)); auto.
Qed.

End ApplyMore.

(** ** More of the SystemZ applier *)

Lemma sext_mod (N q : Z) :
  0 < N -> - 2 ^ (N - 1) <= q < 2 ^ (N - 1) -> sext N (q mod 2 ^ N) = q.
Proof.
  intros HN Hq.
  assert (E1 : 2 ^ N = 2 * 2 ^ (N - 1)).
  { replace N with (1 + (N - 1)) at 1 by lia.
    rewrite Z.pow_add_r by lia. reflexivity. }
  unfold sext. destruct (Z.le_gt_cases 0 q).
  - rewrite Z.mod_small by lia. destruct (Z.ltb_spec q (2 ^ (N - 1))); lia.
  - replace (q mod 2 ^ N) with (q + 2 ^ N)
      by (apply (Z.mod_unique_pos _ _ (-1)); lia).
    destruct (Z.ltb_spec (q + 2 ^ N) (2 ^ (N - 1))); lia.
Qed.

Lemma u64_mod_pow2 (a m : Z) : 0 <= m <= 64 -> u64 a mod 2 ^ m = a mod 2 ^ m.
Proof.
  intros Hm. unfold u64. apply Z.bits_inj'; intros i Hi.
  to_bits. split_cmp; bool_norm; reflexivity.
Qed.

(** The loop or-s the bytes of the value into the field, most
    significant byte first, and touches no other byte. *)
Lemma insertBytes_spec (n : nat) :
  forall (I Offset Value ShiftValue : Z) (Data : list Z),
    0 <= Offset -> 0 <= I ->
    Offset + I + Z.of_nat n <= size Data -> Offset + I + Z.of_nat n <= 2 ^ 32 ->
    (n <= 8)%nat -> (n <> 0%nat -> ShiftValue = 8 * (Z.of_nat n - 1)) ->
    exists Data',
      SystemZ.insertBytes n I Offset Value ShiftValue Data = Ok Data' /\
      length Data' = length Data /\
      forall (k : nat) b, Data !! k = Some b ->
        Data' !! k
        = Some (if bool_decide (Offset + I <= Z.of_nat k < Offset + I + Z.of_nat n)
                then Z.lor b (byte_at Value (Offset + I + Z.of_nat n - 1 - Z.of_nat k))
                else b).
Proof.
  induction n as [|n IH]; intros I Offset Value Shift Data HO HI Hfit Hwrap Hn HS.
  - exists Data. split; [reflexivity|]. split; [reflexivity|].
    intros k b Hk. rewrite bool_decide_eq_false_2 by lia. exact Hk.
  - cbn [SystemZ.insertBytes]. rewrite (HS ltac:(lia)). unfold shr64.
    replace (_ <? 64) with true by (symmetry; apply Z.ltb_lt; lia).
    rewrite shift_byte by lia. cbn [mbind Result_bind].
    rewrite (u32_small (Offset + I)) by lia. unfold or_byte.
    destruct (lookup_lt_is_Some_2 Data (Z.to_nat (Offset + I))) as [b0 Hb0];
      [unfold size in Hfit; lia|].
    rewrite Hb0; cbn [mbind Result_bind].
    set (byte := byte_at Value (Z.of_nat (S n) - 1)).
    set (Data1 := <[Z.to_nat (Offset + I) := Z.lor b0 byte]> Data).
    assert (Hlen1 : length Data1 = length Data) by apply length_insert.
    destruct (IH (I + 1) Offset Value (u32 (8 * (Z.of_nat (S n) - 1) - 8)) Data1)
      as (Data' & E & Hlen & Hpt); try (unfold size in *; lia).
    { intros Hn0. rewrite u32_small by lia. lia. }
    exists Data'. split; [exact E|]. split; [congruence|].
    intros k b Hk.
    destruct (decide (k = Z.to_nat (Offset + I))) as [->|Hne].
    + assert (b = b0) by congruence; subst b.
      rewrite (Hpt _ (Z.lor b0 byte))
        by (apply list_lookup_insert_eq; eapply lookup_lt_Some; eauto).
      rewrite bool_decide_eq_false_2, bool_decide_eq_true_2 by lia.
      unfold byte. do 3 f_equal. lia.
    + rewrite (Hpt k b) by (unfold Data1; rewrite list_lookup_insert_ne; auto).
      f_equal. repeat case_bool_decide; try lia; try reflexivity.
      do 2 f_equal. lia.
Qed.

(** Or-ing the bytes of [v] into a big-endian field or-s the low bits
    of [v] into the number the field holds. *)
Lemma be_word_merge (l l' : list Z) (v : Z) :
  length l' = length l ->
  (forall (j : nat) b, l !! j = Some b ->
     l' !! j = Some (Z.lor b (byte_at v (Z.of_nat (length l) - 1 - Z.of_nat j)))) ->
  be_word l' = Z.lor (be_word l) (v mod 2 ^ (8 * Z.of_nat (length l))).
Proof.
  intros Hlen Hpt. unfold be_word.
  rewrite (le_word_merge (reverse l) (reverse l') v).
  - rewrite length_reverse. reflexivity.
  - rewrite !length_reverse. exact Hlen.
  - intros j b Hj.
    assert (Hjl : (j < length l)%nat)
      by (apply lookup_lt_Some in Hj; rewrite length_reverse in Hj; exact Hj).
    rewrite reverse_lookup in Hj |- * by lia.
    rewrite Hlen, (Hpt _ b Hj). do 3 f_equal. lia.
Qed.

Section SystemZMore.
Import SystemZ.

Variable NDEBUG : bool.
Variable MCAsmBackend_getFixupKindInfo : MCFixupKind -> Result MCFixupKindInfo.
Variable KS_ERR_ASM_FIXUP_INVALID : Z.

Local Abbreviation systemz_getFixupKindInfo :=
  (SystemZ.getFixupKindInfo NDEBUG MCAsmBackend_getFixupKindInfo).
Local Abbreviation systemz_applyFixup :=
  (SystemZ.applyFixup NDEBUG MCAsmBackend_getFixupKindInfo KS_ERR_ASM_FIXUP_INVALID).

(** The bytes of the buffer after [applyFixup]. *)
Lemma systemz_applyFixup_bytes (Fixup : MCFixup) (Info : MCFixupKindInfo)
    (Data : list Z) (Value r KsError : Z) :
  systemz_getFixupKindInfo (getKind Fixup) = Ok Info ->
  extractBitsForFixup (getKind Fixup) Value = Ok r ->
  0 <= TargetSize Info <= 64 ->
  0 <= getOffset Fixup ->
  getOffset Fixup + (TargetSize Info + 7) / 8 <= size Data ->
  getOffset Fixup + (TargetSize Info + 7) / 8 <= 2 ^ 32 ->
  exists Data',
    systemz_applyFixup Fixup Data Value KsError = Ok (Data', KsError) /\
    length Data' = length Data /\
    forall (k : nat) b, Data !! k = Some b ->
      Data' !! k
      = Some (if bool_decide (getOffset Fixup <= Z.of_nat k
                              < getOffset Fixup + (TargetSize Info + 7) / 8)
              then Z.lor b (byte_at r (getOffset Fixup + (TargetSize Info + 7) / 8
                                       - 1 - Z.of_nat k))
              else b).
Proof.
  intros HInfo Hex HT HO Hfit Hwrap; unfold SystemZ.applyFixup.
  rewrite HInfo; cbn [mbind Result_bind].
  rewrite (u32_small (TargetSize Info + 7)) by lia.
  set (Size := (TargetSize Info + 7) / 8) in *.
  assert (HS : 0 <= Size < 9)
    by (split; [apply Z.div_pos; lia | apply Z.div_lt_upper_bound; lia]).
  pose proof (u32_le (getOffset Fixup + Size) ltac:(lia)).
  replace (_ <? _) with false by (symmetry; apply Z.ltb_ge; lia).
  rewrite Hex; cbn [mbind Result_bind].
  destruct (insertBytes_spec (Z.to_nat Size) 0 (getOffset Fixup) r
              (u32 (u32 (Size * 8) - 8)) Data)
    as (Data' & E & Hlen & Hpt); try lia.
  { intros Hne. rewrite Z2Nat.id by lia. assert (1 <= Size) by lia.
    rewrite (u32_small (Size * 8)) by lia. rewrite u32_small by lia. lia. }
  rewrite E; cbn [mbind Result_bind].
  exists Data'. split; [reflexivity|]. split; [exact Hlen|].
  intros k b Hk. rewrite (Hpt k b Hk). rewrite Z.add_0_r, Z2Nat.id by lia.
  reflexivity.
Qed.

(** What [applyFixup] does when the field lies in the buffer: it keeps
    the error code and the length of the buffer, or-s the bytes of the
    extracted value into the field, most significant byte first, and
    changes no byte outside the field. *)
Theorem systemz_applyFixup_inserts_bytes (Fixup : MCFixup)
    (Info : MCFixupKindInfo) (Data : list Z) (Value r KsError : Z) :
  systemz_getFixupKindInfo (getKind Fixup) = Ok Info ->
  extractBitsForFixup (getKind Fixup) Value = Ok r ->
  0 <= TargetSize Info <= 64 ->
  0 <= getOffset Fixup ->
  getOffset Fixup + (TargetSize Info + 7) / 8 <= size Data ->
  getOffset Fixup + (TargetSize Info + 7) / 8 <= 2 ^ 32 ->
  exists Data',
    systemz_applyFixup Fixup Data Value KsError = Ok (Data', KsError) /\
    length Data' = length Data /\
    forall (k : nat) b, Data !! k = Some b ->
      Data' !! k
      = Some (if bool_decide (getOffset Fixup <= Z.of_nat k
                              < getOffset Fixup + (TargetSize Info + 7) / 8)
              then Z.lor b (byte_at r (getOffset Fixup + (TargetSize Info + 7) / 8
                                       - 1 - Z.of_nat k))
              else b).
Proof. apply systemz_applyFixup_bytes. Qed.

(** The three target kinds, with the sizes of their fields. *)
Lemma systemz_target_info (n : nat) (Info : MCFixupKindInfo) :
  systemz_getFixupKindInfo (FK_Target n) = Ok Info ->
  (n = 0%nat /\ TargetSize Info = 16) \/ (n = 1%nat /\ TargetSize Info = 32) \/
  (n = 2%nat /\ TargetSize Info = 0).
Proof.
  unfold SystemZ.getFixupKindInfo.
  destruct n as [|[|[|n]]];
    destruct NDEBUG; cbn [lookup list_lookup Infos mbind Result_bind];
    try discriminate; intros [= <-]; cbn [TargetSize]; auto.
Qed.

Lemma systemz_extract_target (n : nat) (Info : MCFixupKindInfo) (Value : Z) :
  systemz_getFixupKindInfo (FK_Target n) = Ok Info ->
  exists r, extractBitsForFixup (FK_Target n) Value = Ok r.
Proof.
  intros HInfo.
  destruct (systemz_target_info n Info HInfo) as [[-> _]|[[-> _]|[-> _]]];
    eexists; reflexivity.
Qed.

(** On the target kinds [applyFixup] always returns, as long as the
    end of the field stays below [2 ^ 32]: a field that ends past the
    buffer gives the error code and the buffer as it was, and a field
    inside the buffer is written without leaving the buffer. *)
Theorem systemz_applyFixup_never_faults (Fixup : MCFixup) (n : nat)
    (Info : MCFixupKindInfo) (Data : list Z) (Value KsError : Z) :
  getKind Fixup = FK_Target n ->
  systemz_getFixupKindInfo (FK_Target n) = Ok Info ->
  0 <= Value < 2 ^ 64 ->
  0 <= getOffset Fixup -> getOffset Fixup + 4 < 2 ^ 32 ->
  (size Data < getOffset Fixup + (TargetSize Info + 7) / 8 ->
   systemz_applyFixup Fixup Data Value KsError
   = Ok (Data, KS_ERR_ASM_FIXUP_INVALID)) /\
  (getOffset Fixup + (TargetSize Info + 7) / 8 <= size Data ->
   exists Data',
     systemz_applyFixup Fixup Data Value KsError = Ok (Data', KsError) /\
     length Data' = length Data).
Proof.
  intros HK HInfo _ HO Hwrap.
  assert (HT : 0 <= TargetSize Info <= 32 /\ 0 <= (TargetSize Info + 7) / 8 <= 4).
  { destruct (systemz_target_info n Info HInfo) as [[_ ->]|[[_ ->]|[_ ->]]];
      vm_compute; intuition discriminate. }
  destruct HT as [HT HS]. split.
  - intros Hout. unfold SystemZ.applyFixup. rewrite HK, HInfo.
    cbn [mbind Result_bind].
    rewrite (u32_small (TargetSize Info + 7)), u32_small by lia.
    replace (_ <? _) with true by (symmetry; apply Z.ltb_lt; lia).
    reflexivity.
  - intros Hin.
    destruct (systemz_extract_target n Info Value HInfo) as [r Hr].
    destruct (systemz_applyFixup_bytes Fixup Info Data Value r KsError)
      as (Data' & E & Hlen & _); rewrite ?HK; auto; try lia.
    exists Data'. auto.
Qed.

(** The bounds check is made on 32-bit numbers: when the end of the
    field passes [2 ^ 32] the sum wraps around, the check lets the fixup
    through, and the first byte is accessed at an offset outside the
    buffer. *)
Theorem systemz_applyFixup_offset_wraps (Fixup : MCFixup) (Size : Z)
    (Data : list Z) (Value KsError : Z) :
  (getKind Fixup = FK_390_PC16DBL /\ Size = 2) \/
  (getKind Fixup = FK_390_PC32DBL /\ Size = 4) ->
  0 <= Value < 2 ^ 64 ->
  getOffset Fixup < 2 ^ 32 -> 2 ^ 32 <= getOffset Fixup + Size ->
  getOffset Fixup + Size - 2 ^ 32 <= size Data -> size Data <= getOffset Fixup ->
  systemz_applyFixup Fixup Data Value KsError
  = Stop (OutOfBounds (getOffset Fixup)).
Proof.
  intros HK _ Hlt Hwrap Hpass Hout. unfold SystemZ.applyFixup.
  assert (HI : exists Info, systemz_getFixupKindInfo (getKind Fixup) = Ok Info /\
                            u32 (TargetSize Info + 7) / 8 = Size).
  { destruct HK as [[-> ->]|[-> ->]]; destruct NDEBUG; eexists; split;
      reflexivity. }
  destruct HI as (Info & HInfo & HSz). rewrite HInfo. cbn [mbind Result_bind].
  rewrite HSz.
  assert (HS : Size = 2 \/ Size = 4) by (destruct HK as [[_ ->]|[_ ->]]; auto).
  assert (Eu : u32 (getOffset Fixup + Size) = getOffset Fixup + Size - 2 ^ 32).
  { unfold u32. symmetry. apply (Z.mod_unique_pos _ _ 1); lia. }
  rewrite Eu. replace (_ <? _) with false by (symmetry; apply Z.ltb_ge; lia).
  assert (exists r, extractBitsForFixup (getKind Fixup) Value = Ok r) as [r ->]
    by (destruct HK as [[-> _]|[-> _]]; eexists; reflexivity).
  cbn [mbind Result_bind].
  assert (Hn : exists m, Z.to_nat Size = S m)
    by (destruct HS as [-> | ->]; eexists; reflexivity).
  destruct Hn as [m ->]. cbn [SystemZ.insertBytes].
  assert (Hsh : u32 (u32 (Size * 8) - 8) < 64)
    by (destruct HS as [-> | ->]; vm_compute; reflexivity).
  unfold shr64. replace (_ <? 64) with true by (symmetry; apply Z.ltb_lt; lia).
  cbn [mbind Result_bind].
  rewrite Z.add_0_r, (u32_small (getOffset Fixup)) by lia.
  unfold or_byte. rewrite lookup_ge_None_2 by (unfold size in Hout; lia).
  reflexivity.
Qed.

(** Halving an even signed number loses nothing. *)
Lemma quot2_even (V : Z) :
  0 <= V < 2 ^ 64 -> Z.even V = true ->
  2 * Z.quot (to_int64 V) 2 = to_int64 V.
Proof.
  intros HV He. apply Z.even_spec in He as [k Hk].
  assert (exists k', to_int64 V = k' * 2) as [k' ->].
  { unfold to_int64. destruct (V <? 2 ^ 63).
    - exists k. lia.
    - exists (k - 2 ^ 63). lia. }
  rewrite Z.quot_mul by lia. lia.
Qed.

(** The halved offset is read back from the field: after [applyFixup]
    on [FK_390_PC16DBL] or [FK_390_PC32DBL] the big-endian number of the
    field is the old one or-ed with the low bits of the halved value,
    and for an even value that fits in one bit more than the field, put
    into a zeroed field, twice the field read as a signed number is the
    value. *)
Theorem systemz_applyFixup_pcdbl_roundtrip (Fixup : MCFixup) (W : Z)
    (Data : list Z) (Value KsError : Z) :
  (getKind Fixup = FK_390_PC16DBL /\ W = 16) \/
  (getKind Fixup = FK_390_PC32DBL /\ W = 32) ->
  0 <= Value < 2 ^ 64 ->
  0 <= getOffset Fixup ->
  getOffset Fixup + W / 8 <= size Data ->
  getOffset Fixup + W / 8 <= 2 ^ 32 ->
  exists Data',
    systemz_applyFixup Fixup Data Value KsError = Ok (Data', KsError) /\
    let fld D := be_word (field D (Z.to_nat (getOffset Fixup)) (Z.to_nat (W / 8))) in
    fld Data' = Z.lor (fld Data) (Z.quot (to_int64 Value) 2 mod 2 ^ W) /\
    (Z.even Value = true -> isInt (W + 1) Value = true -> fld Data = 0 ->
     2 * sext W (fld Data') = to_int64 Value).
Proof.
  intros HK HV HO Hfit Hwrap.
  assert (HW : W = 16 \/ W = 32) by (destruct HK as [[_ ->]|[_ ->]]; auto).
  assert (HI : exists Info, systemz_getFixupKindInfo (getKind Fixup) = Ok Info /\
                            TargetSize Info = W).
  { destruct HK as [[-> ->]|[-> ->]]; destruct NDEBUG; eexists; split;
      reflexivity. }
  destruct HI as (Info & HInfo & HT).
  assert (HS : (TargetSize Info + 7) / 8 = W / 8)
    by (rewrite HT; destruct HW as [-> | ->]; reflexivity).
  assert (HS8 : 8 * (W / 8) = W) by (destruct HW as [-> | ->]; reflexivity).
  assert (HSp : 0 < W / 8) by (destruct HW as [-> | ->]; reflexivity).
  set (q := Z.quot (to_int64 Value) 2).
  assert (Hex : extractBitsForFixup (getKind Fixup) Value = Ok (u64 q))
    by (destruct HK as [[-> _]|[-> _]]; reflexivity).
  destruct (systemz_applyFixup_bytes Fixup Info Data Value (u64 q) KsError)
    as (Data' & E & Hlen & Hpt); rewrite ?HS; auto; try lia.
  rewrite HS in Hpt.
  exists Data'. split; [exact E|]. cbv beta zeta.
  set (Off := Z.to_nat (getOffset Fixup)). set (Size := Z.to_nat (W / 8)).
  unfold size in Hfit.
  assert (Hw : be_word (field Data' Off Size)
               = Z.lor (be_word (field Data Off Size)) (q mod 2 ^ W)).
  { rewrite (be_word_merge (field Data Off Size) (field Data' Off Size) (u64 q)).
    - rewrite field_length by lia. unfold Size. rewrite Z2Nat.id, HS8 by lia.
      rewrite u64_mod_pow2 by lia. reflexivity.
    - rewrite !field_length by lia. reflexivity.
    - intros j b Hj.
      assert (Hjn : (j < Size)%nat).
      { apply lookup_lt_Some in Hj. rewrite field_length in Hj by lia. exact Hj. }
      rewrite field_length by lia.
      rewrite field_lookup in Hj |- * by exact Hjn.
      rewrite (Hpt _ b Hj), bool_decide_eq_true_2 by lia.
      do 3 f_equal. lia. }
  split; [exact Hw|].
  intros He Hint Hz. rewrite Hw, Hz, Z.lor_0_l.
  pose proof (quot2_even Value HV He) as H2. fold q in H2.
  pose proof (to_int64_range Value HV) as Hr.
  unfold isInt in Hint.
  replace (64 <=? W + 1) with false in Hint
    by (symmetry; apply Z.leb_gt; lia).
  cbn [orb] in Hint. apply andb_true_iff in Hint as [Hlo Hhi].
  apply Z.leb_le in Hlo. apply Z.ltb_lt in Hhi.
  replace (W + 1 - 1) with W in Hlo, Hhi by lia.
  assert (E1 : 2 ^ W = 2 * 2 ^ (W - 1)).
  { replace W with (1 + (W - 1)) at 1 by lia.
    rewrite Z.pow_add_r by lia. reflexivity. }
  rewrite sext_mod by lia. exact H2.
Qed.

End SystemZMore.

(** ** The SystemZ NOP emitter *)

Lemma systemz_nopLoop_runs (k : nat) :
  forall (fuel : nat) (I Count : Z) (OW : MCObjectWriter),
    0 <= I -> Count = I + Z.of_nat k -> Count < 2 ^ 64 -> (k <= fuel)%nat ->
    SystemZ.nopLoop fuel I Count OW
    = Some (mkWriter (IsLittleEndian OW) (OS OW ++ replicate k 7)).
Proof.
  induction k as [|k IH]; intros fuel I Count OW HI HC Hlt Hfuel.
  - replace Count with I by lia.
    destruct fuel; cbn [SystemZ.nopLoop]; rewrite Z.eqb_refl;
      destruct OW; cbn; rewrite app_nil_r; reflexivity.
  - destruct fuel as [|fuel]; [lia|]. cbn [SystemZ.nopLoop].
    replace (I =? Count) with false by (symmetry; apply Z.eqb_neq; lia).
    rewrite u64_small by lia.
    rewrite (IH fuel (I + 1) Count) by lia.
    unfold write8. cbn [IsLittleEndian OS]. change (u8 7) with 7.
    rewrite <- app_assoc. reflexivity.
Qed.

(** [writeNopData] pads with any number of bytes: it always returns
    [true], after [Count] iterations, and appends [Count] bytes [0x07]
    to the output. *)
Theorem systemz_writeNopData_emits (fuel : nat) (Count : Z)
    (OW : MCObjectWriter) :
  0 <= Count < 2 ^ 64 -> Count <= Z.of_nat fuel ->
  SystemZ.writeNopData fuel Count OW
  = Some (true, mkWriter (IsLittleEndian OW)
                  (OS OW ++ replicate (Z.to_nat Count) 7)).
Proof.
  intros HC Hfuel. unfold SystemZ.writeNopData.
  rewrite (systemz_nopLoop_runs (Z.to_nat Count)) by lia. reflexivity.
Qed.

(** ** Distinct offsets, distinct encodings *)

Lemma to_int64_inj (a b : Z) :
  0 <= a < 2 ^ 64 -> 0 <= b < 2 ^ 64 -> to_int64 a = to_int64 b -> a = b.
Proof.
  unfold to_int64. intros Ha Hb.
  destruct (Z.ltb_spec a (2 ^ 63)), (Z.ltb_spec b (2 ^ 63)); lia.
Qed.

(** On the jump and the branch kind the packing loses nothing: two
    even values that fit the signed width and are adjusted to the same
    packed value are the same value. *)
Theorem adjust_checked_injective (Fixup : MCFixup) (Ctx Ctx1 Ctx2 : MCContext)
    (N V1 V2 packed : Z) :
  signedWidth (getKind Fixup) = Some N ->
  0 <= V1 < 2 ^ 64 -> 0 <= V2 < 2 ^ 64 ->
  isInt N V1 = true -> isInt N V2 = true ->
  Z.even V1 = true -> Z.even V2 = true ->
  RISCV.adjustFixupValue Fixup V1 Ctx = Ok (packed, Ctx1) ->
  RISCV.adjustFixupValue Fixup V2 Ctx = Ok (packed, Ctx2) ->
  V1 = V2.
Proof.
  intros HN HV1 HV2 Hf1 Hf2 He1 He2 E1 E2.
  apply to_int64_inj; auto.
  unfold signedWidth in HN.
  destruct (getKind Fixup) as [| | | |n|n] eqn:HK; try discriminate HN.
  destruct n as [|[|[|[|[|[|n]]]]]]; try discriminate HN; injection HN as <-.
  - destruct (jal_value Fixup Ctx V1 HK) as [c1 P1].
    destruct (jal_value Fixup Ctx V2 HK) as [c2 P2].
    assert (Hp : jal_packed V1 = jal_packed V2) by congruence.
    rewrite <- (sext_fits 21 V1), <- (sext_fits 21 V2) by (auto; lia).
    rewrite <- (jal_unpack_pack V1 He1), <- (jal_unpack_pack V2 He2), Hp.
    reflexivity.
  - destruct (branch_value Fixup Ctx V1 HK) as [c1 P1].
    destruct (branch_value Fixup Ctx V2 HK) as [c2 P2].
    assert (Hp : branch_packed V1 = branch_packed V2) by congruence.
    rewrite <- (sext_fits 13 V1), <- (sext_fits 13 V2) by (auto; lia).
    rewrite <- (branch_unpack_pack V1 He1), <- (branch_unpack_pack V2 He2), Hp.
    reflexivity.
Qed.

(** ** A field that ends past the buffer *)

(** The loop runs into the end of the buffer: it stops at the first
    index of the field that is not in the buffer. *)
Lemma maskBytes_past_end (n : nat) :
  forall (i Offset Value : Z) (Data : list Z),
    0 <= Offset -> 0 <= i -> n <> 0%nat ->
    size Data < Offset + i + Z.of_nat n -> Offset + i + Z.of_nat n <= 2 ^ 32 ->
    RISCV.maskBytes n i Offset Value Data
    = Stop (OutOfBounds (Z.max (Offset + i) (size Data))).
Proof.
  induction n as [|n IH]; intros i Offset Value Data HO Hi Hn Hout Hwrap;
    [congruence|].
  cbn [RISCV.maskBytes]. rewrite u32_small by lia. unfold or_byte.
  destruct (Data !! Z.to_nat (Offset + i)) as [b0|] eqn:Hb0.
  - apply lookup_lt_Some in Hb0. cbn [mbind Result_bind].
    rewrite IH; unfold size in *; rewrite ?length_insert; try lia.
    do 2 f_equal. lia.
  - apply lookup_ge_None in Hb0. cbn [mbind Result_bind].
    do 2 f_equal. unfold size. lia.
Qed.

(** The RISC-V [applyFixup] has no bounds check of its own: when the
    bytes it writes end past the buffer and the value is not zero, it
    does not return. If the assertion is compiled out, or passes because
    it only looks at the bytes of the field width, the loop stops at the
    first index outside the buffer. *)
Theorem applyFixup_past_end (NDEBUG : bool)
    (MCAsmBackend_getFixupKindInfo : MCFixupKind -> Result MCFixupKindInfo)
    (Fixup : MCFixup) (Info : MCFixupKindInfo) (Data : list Z)
    (Value packed : Z) (Ctx Ctx' : MCContext) (KsError : Z) :
  RISCV.getFixupKindInfo NDEBUG MCAsmBackend_getFixupKindInfo (getKind Fixup)
  = Ok Info ->
  RISCV.adjustFixupValue Fixup Value Ctx = Ok (packed, Ctx') ->
  Value <> 0 -> 0 <= TargetOffset Info < 64 ->
  0 <= getOffset Fixup ->
  size Data < getOffset Fixup + RISCV.getSize (getKind Fixup) ->
  getOffset Fixup + RISCV.getSize (getKind Fixup) <= 2 ^ 32 ->
  (NDEBUG = false ->
   u32 (getOffset Fixup + u32 (TargetSize Info + 7) / 8) <= size Data) ->
  RISCV.applyFixup NDEBUG MCAsmBackend_getFixupKindInfo Fixup Data Value Ctx KsError
  = Stop (OutOfBounds (Z.max (getOffset Fixup) (size Data))).
Proof.
  intros HInfo Hadj HV HTO HO Hout Hwrap Hassert. unfold RISCV.applyFixup.
  rewrite HInfo; cbn [mbind Result_bind].
  replace (Value =? 0) with false by (symmetry; apply Z.eqb_neq; exact HV).
  rewrite Hadj; cbn [mbind Result_bind]. unfold shl64.
  replace (TargetOffset Info <? 64) with true by (symmetry; apply Z.ltb_lt; lia).
  cbn [mbind Result_bind].
  assert (Has : (if NDEBUG then Ok tt
                 else assert (u32 (getOffset Fixup + u32 (TargetSize Info + 7) / 8)
                              <=? size Data) "Invalid fixup offset!") = Ok tt).
  { destruct NDEBUG; [reflexivity|]. unfold assert.
    replace (_ <=? _) with true by (symmetry; apply Z.leb_le; auto).
    reflexivity. }
  rewrite Has; cbn [mbind Result_bind].
  assert (0 <= RISCV.getSize (getKind Fixup))
    by (destruct (getSize_cases (getKind Fixup)); lia).
  rewrite maskBytes_past_end
    by (destruct (getSize_cases (getKind Fixup)); lia).
  cbn [mbind Result_bind]. rewrite Z.add_0_r. reflexivity.
Qed.

(** ** Instances of the further theorems *)

(** The backward jump of four bytes. *)
Lemma adjust_jal_decodes_minus4 :
  getKind at_jal = RISCV.fixup_riscv_jal /\
  0 <= 0xfffffffffffffffc < 2 ^ 64 /\
  isInt 21 0xfffffffffffffffc = true /\
  Z.even 0xfffffffffffffffc = true /\
  exists packed,
    RISCV.adjustFixupValue at_jal 0xfffffffffffffffc [] = Ok (packed, []) /\
    sext 21 (jal_unpacked packed) = to_int64 0xfffffffffffffffc.
Proof.
  assert (Hk : getKind at_jal = RISCV.fixup_riscv_jal)
    by reflexivity.
  assert (Hv : 0 <= 0xfffffffffffffffc < 2 ^ 64)
    by lia.
  assert (Hf : isInt 21 0xfffffffffffffffc = true)
    by reflexivity.
  assert (He : Z.even 0xfffffffffffffffc = true)
    by reflexivity.
  repeat (split; [assumption|]).
  exact (adjust_jal_decodes at_jal [] 0xfffffffffffffffc Hk Hv Hf He).
Defined.

(** The backward branch of eight bytes. *)
Lemma adjust_branch_decodes_minus8 :
  getKind at_branch = RISCV.fixup_riscv_branch /\
  0 <= 0xfffffffffffffff8 < 2 ^ 64 /\
  isInt 13 0xfffffffffffffff8 = true /\
  Z.even 0xfffffffffffffff8 = true /\
  exists packed,
    RISCV.adjustFixupValue at_branch 0xfffffffffffffff8 [] = Ok (packed, []) /\
    sext 13 (branch_unpacked packed) = to_int64 0xfffffffffffffff8.
Proof.
  assert (Hk : getKind at_branch = RISCV.fixup_riscv_branch)
    by reflexivity.
  assert (Hv : 0 <= 0xfffffffffffffff8 < 2 ^ 64)
    by lia.
  assert (Hf : isInt 13 0xfffffffffffffff8 = true)
    by reflexivity.
  assert (He : Z.even 0xfffffffffffffff8 = true)
    by reflexivity.
  repeat (split; [assumption|]).
  exact (adjust_branch_decodes at_branch [] 0xfffffffffffffff8 Hk Hv Hf He).
Defined.

(** A compressed jump offset. *)
Lemma adjust_rvc_jump_decodes_0x7fe :
  getKind at_rvc_jump = RISCV.fixup_riscv_rvc_jump /\
  0 <= 0x7fe < 2 ^ 64 /\
  RISCV.adjustFixupValue at_rvc_jump 0x7fe [] = Ok (rvc_jump_packed 0x7fe, []) /\
  (Z.even 0x7fe = true -> rvc_jump_unpacked (rvc_jump_packed 0x7fe) = 0x7fe mod 2 ^ 12) /\
  (Z.even 0x7fe = true -> isInt 12 0x7fe = true ->
   sext 12 (rvc_jump_unpacked (rvc_jump_packed 0x7fe)) = to_int64 0x7fe).
Proof.
  assert (Hk : getKind at_rvc_jump = RISCV.fixup_riscv_rvc_jump)
    by reflexivity.
  assert (Hv : 0 <= 0x7fe < 2 ^ 64)
    by lia.
  repeat (split; [assumption|]).
  exact (adjust_rvc_jump_decodes at_rvc_jump [] 0x7fe Hk Hv).
Defined.

(** A compressed branch offset. *)
Lemma adjust_rvc_branch_decodes_0xfe :
  getKind at_rvc_branch = RISCV.fixup_riscv_rvc_branch /\
  0 <= 0xfe < 2 ^ 64 /\
  RISCV.adjustFixupValue at_rvc_branch 0xfe [] = Ok (rvc_branch_packed 0xfe, []) /\
  (Z.even 0xfe = true -> rvc_branch_unpacked (rvc_branch_packed 0xfe) = 0xfe mod 2 ^ 9) /\
  (Z.even 0xfe = true -> isInt 9 0xfe = true ->
   sext 9 (rvc_branch_unpacked (rvc_branch_packed 0xfe)) = to_int64 0xfe).
Proof.
  assert (Hk : getKind at_rvc_branch = RISCV.fixup_riscv_rvc_branch)
    by reflexivity.
  assert (Hv : 0 <= 0xfe < 2 ^ 64)
    by lia.
  repeat (split; [assumption|]).
  exact (adjust_rvc_branch_decodes at_rvc_branch [] 0xfe Hk Hv).
Defined.

(** A value far out of range on the compressed jump. *)
Lemma adjust_silent_rvc_jump :
  getKind at_rvc_jump <> RISCV.fixup_riscv_jal /\
  getKind at_rvc_jump <> RISCV.fixup_riscv_branch /\
  RISCV.adjustFixupValue at_rvc_jump (2 ^ 62 + 1) [] = Ok (0, []) /\
  @nil Diagnostic = [].
Proof.
  assert (Hj : getKind at_rvc_jump <> RISCV.fixup_riscv_jal)
    by discriminate.
  assert (Hb : getKind at_rvc_jump <> RISCV.fixup_riscv_branch)
    by discriminate.
  assert (Ha : RISCV.adjustFixupValue at_rvc_jump (2 ^ 62 + 1) [] = Ok (0, []))
    by reflexivity.
  repeat (split; [assumption|]).
  exact (adjust_silent at_rvc_jump [] (2 ^ 62 + 1) 0 [] Hj Hb Ha).
Defined.

(** The branch kind, on an odd value. *)
Lemma adjust_quiet_iff_branch :
  signedWidth (getKind at_branch) = Some 13 /\
  exists packed Ctx',
    RISCV.adjustFixupValue at_branch 0x21 [] = Ok (packed, Ctx') /\
    (Ctx' = [] <-> isInt 13 0x21 = true /\ Z.even 0x21 = true).
Proof.
  assert (Hw : signedWidth (getKind at_branch) = Some 13)
    by reflexivity.
  repeat (split; [assumption|]).
  exact (adjust_quiet_iff at_branch [] 13 0x21 Hw).
Defined.

(** An odd jump offset out of range adds two diagnostics. *)
Lemma adjust_extends_context_jal :
  RISCV.adjustFixupValue at_jal 0x100001 []
     = Ok (0x80000, [mkDiag 7 RangeError; mkDiag 7 AlignmentError]) /\
  exists added,
    [mkDiag 7 RangeError; mkDiag 7 AlignmentError] = [] ++ added /\
    (length added <= 2)%nat /\
    Forall (fun d => diagLoc d = getLoc at_jal) added.
Proof.
  assert (Ha : RISCV.adjustFixupValue at_jal 0x100001 []
     = Ok (0x80000, [mkDiag 7 RangeError; mkDiag 7 AlignmentError]))
    by reflexivity.
  repeat (split; [assumption|]).
  exact (adjust_extends_context at_jal [] 0x100001 0x80000
           [mkDiag 7 RangeError; mkDiag 7 AlignmentError] Ha).
Defined.

(** The address [0x12345800], whose low part is negative. *)
Lemma adjust_hi_lo_recombine_0x12345800 :
  (getKind at_hi20 = RISCV.fixup_riscv_hi20 \/
   getKind at_hi20 = RISCV.fixup_riscv_pcrel_hi20) /\
  getKind at_lo12_i = RISCV.fixup_riscv_lo12_i /\
  0 <= 0x12345800 < 2 ^ 64 /\
  exists hi lo,
    RISCV.adjustFixupValue at_hi20 0x12345800 [] = Ok (hi, []) /\
    RISCV.adjustFixupValue at_lo12_i 0x12345800 [] = Ok (lo, []) /\
    (hi * 2 ^ 12 + sext 12 lo) mod 2 ^ 32 = 0x12345800 mod 2 ^ 32.
Proof.
  assert (Hh : getKind at_hi20 = RISCV.fixup_riscv_hi20 \/
         getKind at_hi20 = RISCV.fixup_riscv_pcrel_hi20)
    by (left; reflexivity).
  assert (Hl : getKind at_lo12_i = RISCV.fixup_riscv_lo12_i)
    by reflexivity.
  assert (Hv : 0 <= 0x12345800 < 2 ^ 64)
    by lia.
  repeat (split; [assumption|]).
  exact (adjust_hi_lo_recombine at_hi20 at_lo12_i [] 0x12345800 Hh Hl Hv).
Defined.

(** The same address in the store form. *)
Lemma adjust_lo12_forms_agree_0x12345800 :
  getKind at_lo12_s = RISCV.fixup_riscv_lo12_s /\
  getKind at_lo12_i = RISCV.fixup_riscv_lo12_i /\
  0 <= 0x12345800 < 2 ^ 64 /\
  exists store lo,
    RISCV.adjustFixupValue at_lo12_s 0x12345800 [] = Ok (store, []) /\
    RISCV.adjustFixupValue at_lo12_i 0x12345800 [] = Ok (lo, []) /\
    lo12_store_unpacked store = lo.
Proof.
  assert (Hs : getKind at_lo12_s = RISCV.fixup_riscv_lo12_s)
    by reflexivity.
  assert (Hl : getKind at_lo12_i = RISCV.fixup_riscv_lo12_i)
    by reflexivity.
  assert (Hv : 0 <= 0x12345800 < 2 ^ 64)
    by lia.
  repeat (split; [assumption|]).
  exact (adjust_lo12_forms_agree at_lo12_i at_lo12_s [] 0x12345800 Hs Hl Hv).
Defined.

(** The largest 64-bit value on the jump kind. *)
Lemma adjust_fits_field_jal :
  belowFirstTargetFixupKind (getKind at_jal) = false /\
  RISCV.getFixupKindInfo false builtinInfos (getKind at_jal)
         = Ok (mkInfo "fixup_riscv_jal" 12 20 FKF_IsPCRel) /\
  0 <= 0xffffffffffffffff < 2 ^ 64 /\
  exists packed Ctx',
    RISCV.adjustFixupValue at_jal 0xffffffffffffffff [] = Ok (packed, Ctx') /\
    0 <= packed < 2 ^ 20.
Proof.
  assert (Hb : belowFirstTargetFixupKind (getKind at_jal) = false)
    by reflexivity.
  assert (Hi : RISCV.getFixupKindInfo false builtinInfos (getKind at_jal)
         = Ok (mkInfo "fixup_riscv_jal" 12 20 FKF_IsPCRel))
    by reflexivity.
  assert (Hv : 0 <= 0xffffffffffffffff < 2 ^ 64)
    by lia.
  repeat (split; [assumption|]).
  exact (adjust_fits_field false builtinInfos at_jal _ 0xffffffffffffffff [] Hb Hi Hv).
Defined.

(** [jal x0, 0x1000] in a four-byte fragment. *)
Lemma applyFixup_merges_bytes_jal :
  RISCV.getFixupKindInfo false builtinInfos (getKind at_jal)
         = Ok (mkInfo "fixup_riscv_jal" 12 20 FKF_IsPCRel) /\
  RISCV.adjustFixupValue at_jal 0x1000 [] = Ok (0x1, []) /\
  0 <= 12 < 64 /\
  0 <= getOffset at_jal /\
  getOffset at_jal + RISCV.getSize (getKind at_jal) <= size [0x6f; 0; 0; 0] /\
  getOffset at_jal + RISCV.getSize (getKind at_jal) <= 2 ^ 32 /\
  (false = false ->
   u32 (getOffset at_jal + u32 (20 + 7) / 8) <= size [0x6f; 0; 0; 0]) /\
  exists Data',
    RISCV.applyFixup false builtinInfos at_jal [0x6f; 0; 0; 0] 0x1000 [] 0
    = Ok (Data', [], 0) /\
    length Data' = 4%nat /\
    forall (k : nat) b, [0x6f; 0; 0; 0] !! k = Some b ->
      Data' !! k
      = Some (if bool_decide (0 <= Z.of_nat k < 0 + 4)
              then Z.lor b (byte_at (u64 (Z.shiftl 0x1 12)) (Z.of_nat k - 0))
              else b).
Proof.
  assert (Hi : RISCV.getFixupKindInfo false builtinInfos (getKind at_jal)
         = Ok (mkInfo "fixup_riscv_jal" 12 20 FKF_IsPCRel))
    by reflexivity.
  assert (Ha : RISCV.adjustFixupValue at_jal 0x1000 [] = Ok (0x1, []))
    by reflexivity.
  assert (Ht : 0 <= 12 < 64)
    by lia.
  assert (Ho : 0 <= getOffset at_jal)
    by (vm_compute; discriminate).
  assert (Hs : getOffset at_jal + RISCV.getSize (getKind at_jal) <= size [0x6f; 0; 0; 0])
    by (vm_compute; discriminate).
  assert (Hw : getOffset at_jal + RISCV.getSize (getKind at_jal) <= 2 ^ 32)
    by (vm_compute; discriminate).
  assert (Hd : false = false ->
         u32 (getOffset at_jal + u32 (20 + 7) / 8) <= size [0x6f; 0; 0; 0])
    by (intros _; vm_compute; discriminate).
  repeat (split; [assumption|]).
  exact (applyFixup_merges_bytes false builtinInfos at_jal _ [0x6f; 0; 0; 0] 0x1000 0x1
           [] [] 0 Hi Ha Ht Ho Hs Hw Hd).
Defined.

(** The field of [jal x0, 0x1000] holds the packed offset. *)
Lemma applyFixup_field_readback_jal :
  belowFirstTargetFixupKind (getKind at_jal) = false /\
  RISCV.getFixupKindInfo false builtinInfos (getKind at_jal)
         = Ok (mkInfo "fixup_riscv_jal" 12 20 FKF_IsPCRel) /\
  RISCV.adjustFixupValue at_jal 0x1000 [] = Ok (0x1, []) /\
  0 <= getOffset at_jal /\
  getOffset at_jal + RISCV.getSize (getKind at_jal) <= size [0x6f; 0; 0; 0] /\
  getOffset at_jal + RISCV.getSize (getKind at_jal) <= 2 ^ 32 /\
  exists Data',
    RISCV.applyFixup false builtinInfos at_jal [0x6f; 0; 0; 0] 0x1000 [] 0
    = Ok (Data', [], 0) /\
    le_word (field Data' 0 4) = Z.lor (le_word (field [0x6f; 0; 0; 0] 0 4)) (Z.shiftl 0x1 12) /\
    bits (le_word (field Data' 0 4)) 31 12
    = Z.lor (bits (le_word (field [0x6f; 0; 0; 0] 0 4)) 31 12) 0x1 /\
    (bits (le_word (field [0x6f; 0; 0; 0] 0 4)) 31 12 = 0 ->
     bits (le_word (field Data' 0 4)) 31 12 = 0x1).
Proof.
  assert (Hb : belowFirstTargetFixupKind (getKind at_jal) = false)
    by reflexivity.
  assert (Hi : RISCV.getFixupKindInfo false builtinInfos (getKind at_jal)
         = Ok (mkInfo "fixup_riscv_jal" 12 20 FKF_IsPCRel))
    by reflexivity.
  assert (Ha : RISCV.adjustFixupValue at_jal 0x1000 [] = Ok (0x1, []))
    by reflexivity.
  assert (Ho : 0 <= getOffset at_jal)
    by (vm_compute; discriminate).
  assert (Hs : getOffset at_jal + RISCV.getSize (getKind at_jal) <= size [0x6f; 0; 0; 0])
    by (vm_compute; discriminate).
  assert (Hw : getOffset at_jal + RISCV.getSize (getKind at_jal) <= 2 ^ 32)
    by (vm_compute; discriminate).
  repeat (split; [assumption|]).
  exact (applyFixup_field_readback false builtinInfos at_jal _ [0x6f; 0; 0; 0] 0x1000 0x1
           [] [] 0 Hb Hi Ha Ho Hs Hw).
Defined.

(** The opcode and the register of [jal x0, 0x1000] stay. *)
Lemma applyFixup_keeps_other_bits_jal :
  belowFirstTargetFixupKind (getKind at_jal) = false /\
  RISCV.getFixupKindInfo false builtinInfos (getKind at_jal)
         = Ok (mkInfo "fixup_riscv_jal" 12 20 FKF_IsPCRel) /\
  RISCV.adjustFixupValue at_jal 0x1000 [] = Ok (0x1, []) /\
  0 <= getOffset at_jal /\
  getOffset at_jal + RISCV.getSize (getKind at_jal) <= size [0x6f; 0; 0; 0] /\
  getOffset at_jal + RISCV.getSize (getKind at_jal) <= 2 ^ 32 /\
  exists Data',
    RISCV.applyFixup false builtinInfos at_jal [0x6f; 0; 0; 0] 0x1000 [] 0
    = Ok (Data', [], 0) /\
    length Data' = 4%nat /\
    (forall k : nat, ~ (0 <= Z.of_nat k < 0 + 4) ->
       Data' !! k = [0x6f; 0; 0; 0] !! k) /\
    forall j : Z, j < 12 \/ 12 + 20 <= j ->
      Z.testbit (le_word (field Data' 0 4)) j
      = Z.testbit (le_word (field [0x6f; 0; 0; 0] 0 4)) j.
Proof.
  assert (Hb : belowFirstTargetFixupKind (getKind at_jal) = false)
    by reflexivity.
  assert (Hi : RISCV.getFixupKindInfo false builtinInfos (getKind at_jal)
         = Ok (mkInfo "fixup_riscv_jal" 12 20 FKF_IsPCRel))
    by reflexivity.
  assert (Ha : RISCV.adjustFixupValue at_jal 0x1000 [] = Ok (0x1, []))
    by reflexivity.
  assert (Ho : 0 <= getOffset at_jal)
    by (vm_compute; discriminate).
  assert (Hs : getOffset at_jal + RISCV.getSize (getKind at_jal) <= size [0x6f; 0; 0; 0])
    by (vm_compute; discriminate).
  assert (Hw : getOffset at_jal + RISCV.getSize (getKind at_jal) <= 2 ^ 32)
    by (vm_compute; discriminate).
  repeat (split; [assumption|]).
  exact (applyFixup_keeps_other_bits false builtinInfos at_jal _ [0x6f; 0; 0; 0] 0x1000
           0x1 [] [] 0 Hb Hi Ha Ho Hs Hw).
Defined.

(** A relative branch whose field takes the bytes 2 and 3. *)
Lemma systemz_applyFixup_inserts_bytes_pc16dbl :
  SystemZ.getFixupKindInfo false builtinInfos (getKind at_pc16dbl)
         = Ok (mkInfo "FK_390_PC16DBL" 0 16 FKF_IsPCRel) /\
  SystemZ.extractBitsForFixup (getKind at_pc16dbl) 0xfffffffffffffffa
         = Ok 0xfffffffffffffffd /\
  0 <= 16 <= 64 /\
  0 <= getOffset at_pc16dbl /\
  getOffset at_pc16dbl + (16 + 7) / 8 <= size [0xa7; 0xf4; 0; 0] /\
  getOffset at_pc16dbl + (16 + 7) / 8 <= 2 ^ 32 /\
  exists Data',
    SystemZ.applyFixup false builtinInfos 1 at_pc16dbl [0xa7; 0xf4; 0; 0] 0xfffffffffffffffa 0
    = Ok (Data', 0) /\
    length Data' = 4%nat /\
    forall (k : nat) b, [0xa7; 0xf4; 0; 0] !! k = Some b ->
      Data' !! k
      = Some (if bool_decide (2 <= Z.of_nat k < 2 + (16 + 7) / 8)
              then Z.lor b (byte_at 0xfffffffffffffffd
                                    (2 + (16 + 7) / 8 - 1 - Z.of_nat k))
              else b).
Proof.
  assert (Hi : SystemZ.getFixupKindInfo false builtinInfos (getKind at_pc16dbl)
         = Ok (mkInfo "FK_390_PC16DBL" 0 16 FKF_IsPCRel))
    by reflexivity.
  assert (He : SystemZ.extractBitsForFixup (getKind at_pc16dbl) 0xfffffffffffffffa
         = Ok 0xfffffffffffffffd)
    by reflexivity.
  assert (Ht : 0 <= 16 <= 64)
    by lia.
  assert (Ho : 0 <= getOffset at_pc16dbl)
    by (vm_compute; discriminate).
  assert (Hs : getOffset at_pc16dbl + (16 + 7) / 8 <= size [0xa7; 0xf4; 0; 0])
    by (vm_compute; discriminate).
  assert (Hw : getOffset at_pc16dbl + (16 + 7) / 8 <= 2 ^ 32)
    by (vm_compute; discriminate).
  repeat (split; [assumption|]).
  exact (systemz_applyFixup_inserts_bytes false builtinInfos 1 at_pc16dbl _ [0xa7; 0xf4; 0; 0]
           0xfffffffffffffffa 0xfffffffffffffffd 0 Hi He Ht Ho Hs Hw).
Defined.

(** The same fixup on a fragment of three bytes and on one of four. *)
Lemma systemz_applyFixup_never_faults_pc16dbl :
  getKind at_pc16dbl = FK_Target 0 /\
  SystemZ.getFixupKindInfo false builtinInfos (FK_Target 0)
  = Ok (mkInfo "FK_390_PC16DBL" 0 16 FKF_IsPCRel) /\
  0 <= 0x10 < 2 ^ 64 /\
  0 <= getOffset at_pc16dbl /\ getOffset at_pc16dbl + 4 < 2 ^ 32 /\
  (size [0xa7; 0xf4; 0] < 2 + (16 + 7) / 8 ->
   SystemZ.applyFixup false builtinInfos 1 at_pc16dbl [0xa7; 0xf4; 0] 0x10 0
   = Ok ([0xa7; 0xf4; 0], 1)) /\
  (2 + (16 + 7) / 8 <= size [0xa7; 0xf4; 0; 0] ->
   exists Data',
     SystemZ.applyFixup false builtinInfos 1 at_pc16dbl [0xa7; 0xf4; 0; 0] 0x10 0
     = Ok (Data', 0) /\
     length Data' = 4%nat).
Proof.
  assert (Hk : getKind at_pc16dbl = FK_Target 0) by reflexivity.
  assert (Hi : SystemZ.getFixupKindInfo false builtinInfos (FK_Target 0)
               = Ok (mkInfo "FK_390_PC16DBL" 0 16 FKF_IsPCRel)) by reflexivity.
  assert (Hv : 0 <= 0x10 < 2 ^ 64) by lia.
  assert (Ho : 0 <= getOffset at_pc16dbl) by (vm_compute; discriminate).
  assert (Hw : getOffset at_pc16dbl + 4 < 2 ^ 32) by (vm_compute; reflexivity).
  repeat (split; [assumption|]).
  split.
  - exact (proj1 (systemz_applyFixup_never_faults false builtinInfos 1 at_pc16dbl
                    0 _ [0xa7; 0xf4; 0] 0x10 0 Hk Hi Hv Ho Hw)).
  - exact (proj2 (systemz_applyFixup_never_faults false builtinInfos 1 at_pc16dbl
                    0 _ [0xa7; 0xf4; 0; 0] 0x10 0 Hk Hi Hv Ho Hw)).
Defined.

(** A two-byte field at the last offset a fixup can carry. *)
Lemma systemz_applyFixup_offset_wraps_top :
  ((getKind at_pc16dbl_top = SystemZ.FK_390_PC16DBL /\ 2 = 2) \/
   (getKind at_pc16dbl_top = SystemZ.FK_390_PC32DBL /\ 2 = 4)) /\
  0 <= 0x10 < 2 ^ 64 /\
  getOffset at_pc16dbl_top < 2 ^ 32 /\ 2 ^ 32 <= getOffset at_pc16dbl_top + 2 /\
  getOffset at_pc16dbl_top + 2 - 2 ^ 32 <= size [0xa7; 0xf4; 0; 0] /\
  size [0xa7; 0xf4; 0; 0] <= getOffset at_pc16dbl_top /\
  SystemZ.applyFixup false builtinInfos 1 at_pc16dbl_top [0xa7; 0xf4; 0; 0] 0x10 0
  = Stop (OutOfBounds (getOffset at_pc16dbl_top)).
Proof.
  assert (Hk : (getKind at_pc16dbl_top = SystemZ.FK_390_PC16DBL /\ 2 = 2) \/
               (getKind at_pc16dbl_top = SystemZ.FK_390_PC32DBL /\ 2 = 4))
    by (left; split; reflexivity).
  assert (Hv : 0 <= 0x10 < 2 ^ 64) by lia.
  assert (Hl : getOffset at_pc16dbl_top < 2 ^ 32) by (vm_compute; reflexivity).
  assert (Hw : 2 ^ 32 <= getOffset at_pc16dbl_top + 2) by (vm_compute; discriminate).
  assert (Hp : getOffset at_pc16dbl_top + 2 - 2 ^ 32 <= size [0xa7; 0xf4; 0; 0])
    by (vm_compute; discriminate).
  assert (Hs : size [0xa7; 0xf4; 0; 0] <= getOffset at_pc16dbl_top)
    by (vm_compute; discriminate).
  repeat (split; [assumption|]).
  exact (systemz_applyFixup_offset_wraps false builtinInfos 1 at_pc16dbl_top 2
           [0xa7; 0xf4; 0; 0] 0x10 0 Hk Hv Hl Hw Hp Hs).
Defined.

(** The backward branch of six bytes, put into a zeroed field. *)
Lemma systemz_applyFixup_pcdbl_roundtrip_minus6 :
  ((getKind at_pc16dbl = SystemZ.FK_390_PC16DBL /\ 16 = 16) \/
   (getKind at_pc16dbl = SystemZ.FK_390_PC32DBL /\ 16 = 32)) /\
  0 <= 0xfffffffffffffffa < 2 ^ 64 /\
  0 <= getOffset at_pc16dbl /\
  getOffset at_pc16dbl + 16 / 8 <= size [0xa7; 0xf4; 0; 0] /\
  getOffset at_pc16dbl + 16 / 8 <= 2 ^ 32 /\
  exists Data',
    SystemZ.applyFixup false builtinInfos 1 at_pc16dbl [0xa7; 0xf4; 0; 0]
      0xfffffffffffffffa 0
    = Ok (Data', 0) /\
    be_word (field Data' 2 2)
    = Z.lor (be_word (field [0xa7; 0xf4; 0; 0] 2 2))
            (Z.quot (to_int64 0xfffffffffffffffa) 2 mod 2 ^ 16) /\
    (Z.even 0xfffffffffffffffa = true -> isInt (16 + 1) 0xfffffffffffffffa = true ->
     be_word (field [0xa7; 0xf4; 0; 0] 2 2) = 0 ->
     2 * sext 16 (be_word (field Data' 2 2)) = to_int64 0xfffffffffffffffa).
Proof.
  assert (Hk : (getKind at_pc16dbl = SystemZ.FK_390_PC16DBL /\ 16 = 16) \/
               (getKind at_pc16dbl = SystemZ.FK_390_PC32DBL /\ 16 = 32))
    by (left; split; reflexivity).
  assert (Hv : 0 <= 0xfffffffffffffffa < 2 ^ 64) by lia.
  assert (Ho : 0 <= getOffset at_pc16dbl) by (vm_compute; discriminate).
  assert (Hs : getOffset at_pc16dbl + 16 / 8 <= size [0xa7; 0xf4; 0; 0])
    by (vm_compute; discriminate).
  assert (Hw : getOffset at_pc16dbl + 16 / 8 <= 2 ^ 32)
    by (vm_compute; discriminate).
  repeat (split; [assumption|]).
  exact (systemz_applyFixup_pcdbl_roundtrip false builtinInfos 1 at_pc16dbl 16
           [0xa7; 0xf4; 0; 0] 0xfffffffffffffffa 0 Hk Hv Ho Hs Hw).
Defined.

(** Three bytes of padding. *)
Lemma systemz_writeNopData_emits_3 :
  0 <= 3 < 2 ^ 64 /\ 3 <= Z.of_nat 3 /\
  SystemZ.writeNopData 3 3 (mkWriter false [0x0d; 0xef])
  = Some (true, mkWriter false [0x0d; 0xef; 0x07; 0x07; 0x07]).
Proof.
  assert (Hc : 0 <= 3 < 2 ^ 64) by lia.
  assert (Hf : 3 <= Z.of_nat 3) by (vm_compute; discriminate).
  repeat (split; [assumption|]).
  exact (systemz_writeNopData_emits 3 3 (mkWriter false [0x0d; 0xef]) Hc Hf).
Defined.

(** The jump offsets 4 and 8 have different encodings. *)
Lemma adjust_checked_injective_jal :
  signedWidth (getKind at_jal) = Some 21 /\
  0 <= 4 < 2 ^ 64 /\ 0 <= 4 < 2 ^ 64 /\
  isInt 21 4 = true /\ isInt 21 4 = true /\
  Z.even 4 = true /\ Z.even 4 = true /\
  RISCV.adjustFixupValue at_jal 4 [] = Ok (0x400, []) /\
  RISCV.adjustFixupValue at_jal 4 [] = Ok (0x400, []) /\
  4 = 4.
Proof.
  assert (Hw : signedWidth (getKind at_jal) = Some 21) by reflexivity.
  assert (Hv : 0 <= 4 < 2 ^ 64) by lia.
  assert (Hf : isInt 21 4 = true) by reflexivity.
  assert (He : Z.even 4 = true) by reflexivity.
  assert (Ha : RISCV.adjustFixupValue at_jal 4 [] = Ok (0x400, [])) by reflexivity.
  repeat (split; [assumption|]).
  exact (adjust_checked_injective at_jal [] [] [] 21 4 4 0x400
           Hw Hv Hv Hf Hf He He Ha Ha).
Defined.

(** [lui]'s field at offset 1 of a four-byte fragment: the assertion
    looks at three bytes and passes, the loop writes four. *)
Lemma applyFixup_past_end_hi20 :
  RISCV.getFixupKindInfo false builtinInfos (getKind (mkFixup RISCV.fixup_riscv_hi20 1 7))
  = Ok (mkInfo "fixup_riscv_hi20" 12 20 0) /\
  RISCV.adjustFixupValue (mkFixup RISCV.fixup_riscv_hi20 1 7) 0x12345000 []
  = Ok (0x12345, []) /\
  0x12345000 <> 0 /\ 0 <= 12 < 64 /\
  0 <= getOffset (mkFixup RISCV.fixup_riscv_hi20 1 7) /\
  size [0; 0x37; 0x05; 0] < 1 + 4 /\ 1 + 4 <= 2 ^ 32 /\
  (false = false -> u32 (1 + u32 (20 + 7) / 8) <= size [0; 0x37; 0x05; 0]) /\
  RISCV.applyFixup false builtinInfos (mkFixup RISCV.fixup_riscv_hi20 1 7)
    [0; 0x37; 0x05; 0] 0x12345000 [] 0
  = Stop (OutOfBounds (Z.max 1 (size [0; 0x37; 0x05; 0]))).
Proof.
  assert (Hi : RISCV.getFixupKindInfo false builtinInfos
                 (getKind (mkFixup RISCV.fixup_riscv_hi20 1 7))
               = Ok (mkInfo "fixup_riscv_hi20" 12 20 0)) by reflexivity.
  assert (Ha : RISCV.adjustFixupValue (mkFixup RISCV.fixup_riscv_hi20 1 7)
                 0x12345000 [] = Ok (0x12345, [])) by reflexivity.
  assert (Hn : 0x12345000 <> 0) by discriminate.
  assert (Ht : 0 <= 12 < 64) by lia.
  assert (Ho : 0 <= getOffset (mkFixup RISCV.fixup_riscv_hi20 1 7))
    by (vm_compute; discriminate).
  assert (Hs : size [0; 0x37; 0x05; 0] < 1 + 4) by (vm_compute; reflexivity).
  assert (Hw : 1 + 4 <= 2 ^ 32) by lia.
  assert (Hd : false = false -> u32 (1 + u32 (20 + 7) / 8) <= size [0; 0x37; 0x05; 0])
    by (intros _; vm_compute; discriminate).
  repeat (split; [assumption|]).
  exact (applyFixup_past_end false builtinInfos (mkFixup RISCV.fixup_riscv_hi20 1 7)
           _ [0; 0x37; 0x05; 0] 0x12345000 0x12345 [] [] 0
           Hi Ha Hn Ht Ho Hs Hw Hd).
Defined.

(** ** Applying a fixup twice *)

(** The packed value does not depend on the context the adjuster is
    given. *)
Lemma adjust_any_context (Fixup : MCFixup) (V packed : Z)
    (Ctx Ctx' Ctx2 : MCContext) :
  RISCV.adjustFixupValue Fixup V Ctx = Ok (packed, Ctx') ->
  exists Ctx2', RISCV.adjustFixupValue Fixup V Ctx2 = Ok (packed, Ctx2').
Proof.
  unfold RISCV.adjustFixupValue.
  destruct (getKind Fixup) as [| | | |n|n]; try discriminate;
    try (intros [= <- _]; eexists; reflexivity).
  destruct n as [|[|[|[|[|[|[|[|n]]]]]]]]; try discriminate;
    cbv zeta; intros [= <- _]; eexists; reflexivity.
Qed.

(** Or-ing the same bytes into the same places a second time changes
    nothing. *)
Lemma merge_twice (Data Data' Data'' : list Z) (inside : nat -> bool)
    (byte : nat -> Z) :
  length Data' = length Data -> length Data'' = length Data' ->
  (forall (k : nat) b, Data !! k = Some b ->
     Data' !! k = Some (if inside k then Z.lor b (byte k) else b)) ->
  (forall (k : nat) b, Data' !! k = Some b ->
     Data'' !! k = Some (if inside k then Z.lor b (byte k) else b)) ->
  Data'' = Data'.
Proof.
  intros Hlen Hlen' Hpt Hpt'. apply list_eq; intros k.
  destruct (Data' !! k) as [b'|] eqn:Hk.
  - rewrite (Hpt' k b' Hk). f_equal.
    destruct (Data !! k) as [b|] eqn:Hk0.
    + rewrite (Hpt k b Hk0) in Hk. injection Hk as <-.
      destruct (inside k); [|reflexivity].
      rewrite <- Z.lor_assoc, Z.lor_diag. reflexivity.
    + apply lookup_ge_None in Hk0. apply lookup_lt_Some in Hk. lia.
  - apply lookup_ge_None in Hk. apply lookup_ge_None. lia.
Qed.

(** The RISC-V [applyFixup] is idempotent on the buffer: applied a
    second time to its own output, with the same fixup and value, it
    returns the buffer unchanged. Only the context can grow again, by
    the diagnostics of the adjuster. *)
Theorem applyFixup_idempotent (NDEBUG : bool)
    (MCAsmBackend_getFixupKindInfo : MCFixupKind -> Result MCFixupKindInfo)
    (Fixup : MCFixup) (Info : MCFixupKindInfo) (Data : list Z)
    (Value packed : Z) (Ctx Ctx' : MCContext) (KsError : Z) :
  RISCV.getFixupKindInfo NDEBUG MCAsmBackend_getFixupKindInfo (getKind Fixup)
  = Ok Info ->
  RISCV.adjustFixupValue Fixup Value Ctx = Ok (packed, Ctx') ->
  0 <= TargetOffset Info < 64 ->
  0 <= getOffset Fixup ->
  getOffset Fixup + RISCV.getSize (getKind Fixup) <= size Data ->
  getOffset Fixup + RISCV.getSize (getKind Fixup) <= 2 ^ 32 ->
  (NDEBUG = false ->
   u32 (getOffset Fixup + u32 (TargetSize Info + 7) / 8) <= size Data) ->
  exists Data' Ctx'',
    RISCV.applyFixup NDEBUG MCAsmBackend_getFixupKindInfo Fixup Data Value Ctx
      KsError = Ok (Data', Ctx', KsError) /\
    RISCV.applyFixup NDEBUG MCAsmBackend_getFixupKindInfo Fixup Data' Value Ctx'
      KsError = Ok (Data', Ctx'', KsError).
Proof.
  intros HInfo Hadj HTO HO Hfit Hwrap Hassert.
  destruct (applyFixup_bytes NDEBUG MCAsmBackend_getFixupKindInfo Fixup Info
              Data Value packed Ctx Ctx' KsError)
    as (Data' & E & Hlen & Hpt); auto.
  destruct (adjust_any_context Fixup Value packed Ctx Ctx' Ctx' Hadj)
    as [Ctx'' Hadj'].
  assert (Hsz : size Data' = size Data) by (unfold size; congruence).
  destruct (applyFixup_bytes NDEBUG MCAsmBackend_getFixupKindInfo Fixup Info
              Data' Value packed Ctx' Ctx'' KsError)
    as (Data'' & E' & Hlen' & Hpt'); rewrite ?Hsz; auto.
  exists Data', Ctx''. split; [exact E|]. rewrite E'.
  do 3 f_equal.
  exact (merge_twice Data Data' Data'' _ _ Hlen Hlen' Hpt Hpt').
Qed.

(** The SystemZ [applyFixup] is idempotent: applied a second time to
    its own output, with the same fixup and value, it returns the buffer
    and the error code unchanged. *)
Theorem systemz_applyFixup_idempotent (NDEBUG : bool)
    (MCAsmBackend_getFixupKindInfo : MCFixupKind -> Result MCFixupKindInfo)
    (KS_ERR_ASM_FIXUP_INVALID : Z)
    (Fixup : MCFixup) (Info : MCFixupKindInfo) (Data : list Z)
    (Value r KsError : Z) :
  SystemZ.getFixupKindInfo NDEBUG MCAsmBackend_getFixupKindInfo (getKind Fixup)
  = Ok Info ->
  SystemZ.extractBitsForFixup (getKind Fixup) Value = Ok r ->
  0 <= TargetSize Info <= 64 ->
  0 <= getOffset Fixup ->
  getOffset Fixup + (TargetSize Info + 7) / 8 <= size Data ->
  getOffset Fixup + (TargetSize Info + 7) / 8 <= 2 ^ 32 ->
  exists Data',
    SystemZ.applyFixup NDEBUG MCAsmBackend_getFixupKindInfo
      KS_ERR_ASM_FIXUP_INVALID Fixup Data Value KsError = Ok (Data', KsError) /\
    SystemZ.applyFixup NDEBUG MCAsmBackend_getFixupKindInfo
      KS_ERR_ASM_FIXUP_INVALID Fixup Data' Value KsError = Ok (Data', KsError).
Proof.
  intros HInfo Hext HTS HO Hfit Hwrap.
  destruct (systemz_applyFixup_bytes NDEBUG MCAsmBackend_getFixupKindInfo
              KS_ERR_ASM_FIXUP_INVALID Fixup Info Data Value r KsError)
    as (Data' & E & Hlen & Hpt); auto.
  assert (Hsz : size Data' = size Data) by (unfold size; congruence).
  destruct (systemz_applyFixup_bytes NDEBUG MCAsmBackend_getFixupKindInfo
              KS_ERR_ASM_FIXUP_INVALID Fixup Info Data' Value r KsError)
    as (Data'' & E' & Hlen' & Hpt'); rewrite ?Hsz; auto.
  exists Data'. split; [exact E|]. rewrite E'.
  do 2 f_equal.
  exact (merge_twice Data Data' Data'' _ _ Hlen Hlen' Hpt Hpt').
Qed.

(** ** Kinds outside the tables *)

(** With the assertions compiled in, a target kind past the end of the
    RISC-V table stops [applyFixup] at the assertion of
    [getFixupKindInfo], before the value is looked at: a zero value does
    not return early. *)
Theorem applyFixup_invalid_kind
    (MCAsmBackend_getFixupKindInfo : MCFixupKind -> Result MCFixupKindInfo)
    (Fixup : MCFixup) (n : nat) (Data : list Z) (Value : Z)
    (Ctx : MCContext) (KsError : Z) :
  getKind Fixup = FK_Target n -> (RISCV.NumTargetFixupKinds <= n)%nat ->
  RISCV.applyFixup false MCAsmBackend_getFixupKindInfo Fixup Data Value Ctx
    KsError
  = Stop (AssertionFailed "Invalid kind!").
Proof.
  intros HK Hn. unfold RISCV.applyFixup, RISCV.getFixupKindInfo. rewrite HK.
  unfold assert.
  replace (n <? RISCV.NumTargetFixupKinds)%nat with false
    by (symmetry; apply Nat.ltb_ge; exact Hn).
  reflexivity.
Qed.

(** The same in the SystemZ backend, where the kind is looked up before
    the bounds check: with the assertions compiled in, a kind past the
    end of the table fails the assertion and the error code is not set,
    whatever the offset. *)
Theorem systemz_applyFixup_invalid_kind
    (MCAsmBackend_getFixupKindInfo : MCFixupKind -> Result MCFixupKindInfo)
    (KS_ERR_ASM_FIXUP_INVALID : Z)
    (Fixup : MCFixup) (n : nat) (Data : list Z) (Value KsError : Z) :
  getKind Fixup = FK_Target n -> (SystemZ.NumTargetFixupKinds <= n)%nat ->
  SystemZ.applyFixup false MCAsmBackend_getFixupKindInfo
    KS_ERR_ASM_FIXUP_INVALID Fixup Data Value KsError
  = Stop (AssertionFailed "Invalid kind!").
Proof.
  intros HK Hn. unfold SystemZ.applyFixup, SystemZ.getFixupKindInfo.
  cbv zeta. rewrite HK. unfold assert.
  replace (n <? SystemZ.NumTargetFixupKinds)%nat with false
    by (symmetry; apply Nat.ltb_ge; exact Hn).
  reflexivity.
Qed.

(** ** Instances: repeated application, kinds outside the tables *)

(** [jal x0, 0x1000] resolved twice in the same fragment. *)
Lemma applyFixup_idempotent_jal :
  RISCV.getFixupKindInfo false builtinInfos (getKind at_jal)
  = Ok (mkInfo "fixup_riscv_jal" 12 20 FKF_IsPCRel) /\
  RISCV.adjustFixupValue at_jal 0x1000 [] = Ok (0x1, []) /\
  0 <= 12 < 64 /\
  0 <= getOffset at_jal /\
  getOffset at_jal + RISCV.getSize (getKind at_jal) <= size [0x6f; 0; 0; 0] /\
  getOffset at_jal + RISCV.getSize (getKind at_jal) <= 2 ^ 32 /\
  (false = false ->
   u32 (getOffset at_jal + u32 (20 + 7) / 8) <= size [0x6f; 0; 0; 0]) /\
  exists Data' Ctx'',
    RISCV.applyFixup false builtinInfos at_jal [0x6f; 0; 0; 0] 0x1000 [] 0
    = Ok (Data', [], 0) /\
    RISCV.applyFixup false builtinInfos at_jal Data' 0x1000 [] 0
    = Ok (Data', Ctx'', 0).
Proof.
  assert (Hi : RISCV.getFixupKindInfo false builtinInfos (getKind at_jal)
               = Ok (mkInfo "fixup_riscv_jal" 12 20 FKF_IsPCRel))
    by reflexivity.
  assert (Ha : RISCV.adjustFixupValue at_jal 0x1000 [] = Ok (0x1, []))
    by reflexivity.
  assert (Ht : 0 <= 12 < 64) by lia.
  assert (Ho : 0 <= getOffset at_jal) by (vm_compute; discriminate).
  assert (Hs : getOffset at_jal + RISCV.getSize (getKind at_jal)
               <= size [0x6f; 0; 0; 0])
    by (vm_compute; discriminate).
  assert (Hw : getOffset at_jal + RISCV.getSize (getKind at_jal) <= 2 ^ 32)
    by (vm_compute; discriminate).
  assert (Hd : false = false ->
               u32 (getOffset at_jal + u32 (20 + 7) / 8) <= size [0x6f; 0; 0; 0])
    by (intros _; vm_compute; discriminate).
  repeat (split; [assumption|]).
  exact (applyFixup_idempotent false builtinInfos at_jal _ [0x6f; 0; 0; 0]
           0x1000 0x1 [] [] 0 Hi Ha Ht Ho Hs Hw Hd).
Defined.

(** A relative branch by [-6] resolved twice in the same fragment. *)
Lemma systemz_applyFixup_idempotent_pc16dbl :
  SystemZ.getFixupKindInfo false builtinInfos (getKind at_pc16dbl)
  = Ok (mkInfo "FK_390_PC16DBL" 0 16 FKF_IsPCRel) /\
  SystemZ.extractBitsForFixup (getKind at_pc16dbl) 0xfffffffffffffffa
  = Ok 0xfffffffffffffffd /\
  0 <= 16 <= 64 /\
  0 <= getOffset at_pc16dbl /\
  getOffset at_pc16dbl + (16 + 7) / 8 <= size [0xa7; 0xf4; 0; 0] /\
  getOffset at_pc16dbl + (16 + 7) / 8 <= 2 ^ 32 /\
  exists Data',
    SystemZ.applyFixup false builtinInfos 1 at_pc16dbl [0xa7; 0xf4; 0; 0]
      0xfffffffffffffffa 0 = Ok (Data', 0) /\
    SystemZ.applyFixup false builtinInfos 1 at_pc16dbl Data'
      0xfffffffffffffffa 0 = Ok (Data', 0).
Proof.
  assert (Hi : SystemZ.getFixupKindInfo false builtinInfos (getKind at_pc16dbl)
               = Ok (mkInfo "FK_390_PC16DBL" 0 16 FKF_IsPCRel))
    by reflexivity.
  assert (He : SystemZ.extractBitsForFixup (getKind at_pc16dbl) 0xfffffffffffffffa
               = Ok 0xfffffffffffffffd)
    by reflexivity.
  assert (Ht : 0 <= 16 <= 64) by lia.
  assert (Ho : 0 <= getOffset at_pc16dbl) by (vm_compute; discriminate).
  assert (Hs : getOffset at_pc16dbl + (16 + 7) / 8 <= size [0xa7; 0xf4; 0; 0])
    by (vm_compute; discriminate).
  assert (Hw : getOffset at_pc16dbl + (16 + 7) / 8 <= 2 ^ 32)
    by (vm_compute; discriminate).
  repeat (split; [assumption|]).
  exact (systemz_applyFixup_idempotent false builtinInfos 1 at_pc16dbl _
           [0xa7; 0xf4; 0; 0] 0xfffffffffffffffa 0xfffffffffffffffd 0
           Hi He Ht Ho Hs Hw).
Defined.

(** The kind after [fixup_riscv_rvc_branch], with a zero value. *)
Lemma applyFixup_invalid_kind_8 :
  getKind (mkFixup (FK_Target 8) 0 7) = FK_Target 8 /\
  (RISCV.NumTargetFixupKinds <= 8)%nat /\
  RISCV.applyFixup false builtinInfos (mkFixup (FK_Target 8) 0 7)
    [0x13; 0; 0; 0] 0 [] 0
  = Stop (AssertionFailed "Invalid kind!").
Proof.
  assert (Hk : getKind (mkFixup (FK_Target 8) 0 7) = FK_Target 8)
    by reflexivity.
  assert (Hn : (RISCV.NumTargetFixupKinds <= 8)%nat)
    by (vm_compute; lia).
  repeat (split; [assumption|]).
  exact (applyFixup_invalid_kind builtinInfos (mkFixup (FK_Target 8) 0 7)
           8 [0x13; 0; 0; 0] 0 [] 0 Hk Hn).
Defined.

(** The kind after [FK_390_TLS_CALL], at an offset past the fragment. *)
Lemma systemz_applyFixup_invalid_kind_3 :
  getKind (mkFixup (FK_Target 3) 9 7) = FK_Target 3 /\
  (SystemZ.NumTargetFixupKinds <= 3)%nat /\
  SystemZ.applyFixup false builtinInfos 1 (mkFixup (FK_Target 3) 9 7)
    [0xa7; 0xf4; 0; 0] 6 0
  = Stop (AssertionFailed "Invalid kind!").
Proof.
  assert (Hk : getKind (mkFixup (FK_Target 3) 9 7) = FK_Target 3)
    by reflexivity.
  assert (Hn : (SystemZ.NumTargetFixupKinds <= 3)%nat)
    by (vm_compute; lia).
  repeat (split; [assumption|]).
  exact (systemz_applyFixup_invalid_kind builtinInfos 1
           (mkFixup (FK_Target 3) 9 7) 3 [0xa7; 0xf4; 0; 0] 6 0 Hk Hn).
Defined.
